(** * make_chart5_data: the normalisation-and-join pipeline

    A shallow embedding of [make_chart5_data.py] and the properties of its
    key normaliser, numeric coercer, four loaders and join loop.

    Python values are modelled as follows.
    - [str] is a list of Unicode code points ([Z]).
    - [float] is an IEEE-754 binary64 value ([spec_float] at precision 53).
    - the objects produced by [json.loads] form the inductive [value].
    - [dict] is an association list kept in insertion order.
    - an uncaught exception is the [Raise] branch of [result]; [print] appends
      to a log.
    The interpreter's character database and case/normalisation routines are
    the interface [PyRuntime]; [Latin1] instantiates it with the tables of
    the Basic Latin, Latin-1 Supplement and Combining Diacritical Marks
    blocks. *)

From Stdlib Require Import ZArith QArith Qabs List Bool String Ascii Lia SpecFloat.
Import ListNotations.
Local Open Scope Z_scope.

(* ================================================================== *)
(** ** Strings *)

Definition str := list Z.

(** Code points of a UTF-8 encoded literal. *)
Fixpoint utf8 (k : nat) (acc : Z) (s : string) : str :=
  match s with
  | EmptyString => []
  | String a s' =>
      let b := Z.of_N (N_of_ascii a) in
      match k with
      | O => if b <? 0x80 then b :: utf8 0 0 s'
             else if b <? 0xE0 then utf8 1 (b - 0xC0) s'
             else if b <? 0xF0 then utf8 2 (b - 0xE0) s'
             else utf8 3 (b - 0xF0) s'
      | S O => (acc * 64 + (b - 0x80)) :: utf8 0 0 s'
      | S k' => utf8 k' (acc * 64 + (b - 0x80)) s'
      end
  end.

Definition lit (s : string) : str := utf8 0 0 s.

Fixpoint str_eqb (a b : str) : bool :=
  match a, b with
  | [], [] => true
  | x :: a', y :: b' => (x =? y) && str_eqb a' b'
  | _, _ => false
  end.

(** [s.replace(old, new)] for a one-character [old], the only form the
    program uses. *)
Definition replace (old : Z) (new : str) (s : str) : str :=
  flat_map (fun c => if c =? old then new else [c]) s.

(** [sep.join(words)] *)
Fixpoint join (sep : str) (words : list str) : str :=
  match words with
  | [] => []
  | [w] => w
  | w :: ws => w ++ sep ++ join sep ws
  end.

(** [s[:n]] for [n >= 0] *)
Definition prefix (n : nat) (s : str) : str := firstn n s.

(* ================================================================== *)
(** ** The interpreter's character services *)

Class PyRuntime := {
  (** [Py_UNICODE_ISSPACE] *)
  isspace_cp : Z -> bool;
  (** [Py_UNICODE_ISDIGIT]: Numeric_Type is Digit or Decimal *)
  isdigit_cp : Z -> bool;
  (** [Py_UNICODE_TODECIMAL]: the value of a decimal digit (category Nd) *)
  decimal_cp : Z -> option Z;
  (** [unicodedata.combining]: the canonical combining class *)
  combining : Z -> Z;
  (** [str.lower], [str.upper] *)
  lower : str -> str;
  upper : str -> str;
  (** [unicodedata.normalize("NFKD", s)] *)
  nfkd : str -> str;
  (** [unicodedata.normalize("NFD", s)]; the program never calls it, it
      only serves to say what a difference in diacritics is. *)
  nfd : str -> str;
  (** [sys.get_int_max_str_digits()], 0 when the limit is disabled *)
  max_str_digits : Z
}.

Section Builtins.
Context {RT : PyRuntime}.

Fixpoint lstrip (s : str) : str :=
  match s with
  | c :: s' => if isspace_cp c then lstrip s' else s
  | [] => []
  end.

Definition rstrip (s : str) : str := rev (lstrip (rev s)).

(** [s.strip()] *)
Definition strip (s : str) : str := rstrip (lstrip s).

Definition flush (w : str) : list str :=
  match w with [] => [] | _ => [w] end.

(** [s.split()]: the maximal runs of non-whitespace characters;
    [w] is the word being read. *)
Fixpoint split_from (w : str) (s : str) : list str :=
  match s with
  | [] => flush w
  | c :: s' =>
      if isspace_cp c then flush w ++ split_from [] s'
      else split_from (w ++ [c]) s'
  end.

Definition split (s : str) : list str := split_from [] s.

(** [s.isdigit()] *)
Definition isdigit (s : str) : bool :=
  match s with [] => false | _ => forallb isdigit_cp s end.

(** The characters [c] with [unicodedata.combining(c)] zero. *)
Definition unmark (s : str) : str :=
  filter (fun c => combining c =? 0) s.

End Builtins.

(* ================================================================== *)
(** ** Exceptions *)

Inductive exn :=
| TypeError | ValueError | OverflowError | KeyError | StatisticsError
| JSONDecodeError | UnicodeDecodeError | RecursionError | OSError.

Inductive result (A : Type) :=
| Ok (a : A)
| Raise (e : exn).
Arguments Ok {A} a.
Arguments Raise {A} e.

Definition rbind {A B} (r : result A) (k : A -> result B) : result B :=
  match r with Ok a => k a | Raise e => Raise e end.

Declare Scope result_scope.
Delimit Scope result_scope with result.
Notation "x <- r ;; k" := (rbind r (fun x => k))
  (at level 61, r at next level, right associativity) : result_scope.

(** [try: ... except Exception: ...] *)
Definition try_except {A} (r : result A) (handler : A) : A :=
  match r with Ok a => a | Raise _ => handler end.

(* ================================================================== *)
(** ** Floats *)

Definition float := spec_float.
Definition prec := 53.
Definition emax := 1024.

Definition fzero : float := S754_zero false.
Definition fone : float := S754_finite false 4503599627370496 (-52).

(** The quotient [n / d] of two positive integers, rounded once to the
    nearest float, ties to even; it overflows to an infinity. *)
Definition round_ratio (s : bool) (n d : positive) : float :=
  SFdiv prec emax (S754_finite s n 0) (S754_finite false d 0).

(** [float(n)] for an [int] *)
Definition float_of_int (n : Z) : result float :=
  match binary_normalize prec emax n 0 false with
  | S754_infinity _ => Raise OverflowError
  | f => Ok f
  end.

(** [int(f)] for a [float]: truncation towards zero *)
Definition int_of_float (f : float) : result Z :=
  match f with
  | S754_zero _ => Ok 0
  | S754_nan => Raise ValueError
  | S754_infinity _ => Raise OverflowError
  | S754_finite s m e =>
      Ok (cond_Zopp s (if 0 <=? e then Z.shiftl (Zpos m) e
                       else Z.shiftr (Zpos m) (- e)))
  end.

(** [x.as_integer_ratio()] of a finite float, as a rational *)
Definition exact_ratio (f : float) : option Q :=
  match f with
  | S754_zero _ => Some (0 # 1)
  | S754_finite s m e =>
      Some (if 0 <=? e then cond_Zopp s (Z.shiftl (Zpos m) e) # 1
            else cond_Zopp s (Zpos m) # Pos.shiftl 1 (Z.to_N (- e)))
  | _ => None
  end.

(** [float(q)] for a [Fraction]: numerator / denominator in lowest terms *)
Definition float_of_fraction (q : Q) : float :=
  let q := Qred q in
  match Qnum q with
  | Z0 => fzero
  | Zpos n => round_ratio false n (Qden q)
  | Zneg n => round_ratio true n (Qden q)
  end.

Definition is_finite (f : float) : bool :=
  match f with S754_zero _ | S754_finite _ _ _ => true | _ => false end.

(** [statistics.mean]: the exact rational mean of finite data, rounded
    once; as soon as one datum is an infinity or a NaN, the float sum of
    those data, divided by the count. *)
Definition mean (data : list float) : result float :=
  match data with
  | [] => Raise StatisticsError
  | _ =>
      let n := Z.of_nat (List.length data) in
      if forallb is_finite data then
        let total :=
          fold_left (fun acc x =>
                       match exact_ratio x with
                       | Some q => Qplus acc q
                       | None => acc
                       end) data (0 # 1) in
        Ok (float_of_fraction (Qdiv total (n # 1)))
      else
        let total :=
          fold_left (fun acc x => if is_finite x then acc
                                  else SFadd prec emax acc x) data fzero in
        Ok (SFdiv prec emax total
              (binary_normalize prec emax n 0 false))
  end.

(* ================================================================== *)
(** ** Numeric literals: [int(s)] and [float(s)] *)

Definition is_ascii_digit (c : Z) : bool := (0x30 <=? c) && (c <=? 0x39).

Definition ascii_digit (c : Z) : option Z :=
  if is_ascii_digit c then Some (c - 0x30) else None.

(** [Py_ISSPACE] *)
Definition ascii_space (c : Z) : bool :=
  ((0x09 <=? c) && (c <=? 0x0D)) || (c =? 0x20).

Definition ascii_lower (c : Z) : Z :=
  if (0x41 <=? c) && (c <=? 0x5A) then c + 32 else c.

Fixpoint ltrim (s : str) : str :=
  match s with
  | c :: s' => if ascii_space c then ltrim s' else s
  | [] => []
  end.

Definition trim (s : str) : str := rev (ltrim (rev (ltrim s))).

(** An underscore is legal only between two digits; legal underscores are
    dropped. [prev] tells whether the previous character was a digit. *)
Fixpoint drop_underscores (prev : bool) (s : str) : option str :=
  match s with
  | [] => Some []
  | c :: s' =>
      if c =? 0x5F then
        match s' with
        | d :: _ =>
            if prev && is_ascii_digit d
            then drop_underscores false s' else None
        | [] => None
        end
      else
        option_map (cons c)
          (drop_underscores (is_ascii_digit c) s')
  end.

Fixpoint span_digits (s : str) : list Z * str :=
  match s with
  | c :: s' =>
      match ascii_digit c with
      | Some d => let (ds, r) := span_digits s' in (d :: ds, r)
      | None => ([], s)
      end
  | [] => ([], [])
  end.

Definition digits_value (ds : list Z) : Z :=
  fold_left (fun a d => 10 * a + d) ds 0.

Definition read_sign (s : str) : bool * str :=
  match s with
  | 0x2D :: r => (true, r)
  | 0x2B :: r => (false, r)
  | _ => (false, s)
  end.

(** mantissa and decimal exponent of [digits [. digits] [e [sign] digits]] *)
Definition read_decimal (s : str) : option (Z * Z) :=
  let (ip, r1) := span_digits s in
  let (fp, r2) := match r1 with
                  | 0x2E :: r => span_digits r
                  | _ => ([], r1)
                  end in
  match ip ++ fp with
  | [] => None
  | ds =>
      let m := digits_value ds in
      let k := Z.of_nat (List.length fp) in
      match r2 with
      | [] => Some (m, - k)
      | c :: r3 =>
          if ascii_lower c =? 0x65 then
            let (se, r4) := read_sign r3 in
            match span_digits r4 with
            | ((_ :: _) as ed, []) => Some (m, cond_Zopp se (digits_value ed) - k)
            | _ => None
            end
          else None
      end
  end.

(** The float nearest to [m * 10 ^ e], with the sign [s]. *)
Definition float_of_decimal (s : bool) (m e : Z) : float :=
  match m with
  | Zpos p =>
      if 0 <=? e then round_ratio s (p * Z.to_pos (10 ^ e)) 1
      else round_ratio s p (Z.to_pos (10 ^ (- e)))
  | _ => S754_zero s
  end.

Section Literals.
Context {RT : PyRuntime}.

(** [_PyUnicode_TransformDecimalAndSpaceToASCII] *)
Definition to_ascii (s : str) : str :=
  if forallb (fun c => c <? 128) s then s
  else map (fun c => if c <? 127 then c
                     else if isspace_cp c then 0x20
                     else match decimal_cp c with
                          | Some d => 0x30 + d
                          | None => 0x3F
                          end) s.

(** [float(s)] for a [str] *)
Definition float_of_str (s : str) : result float :=
  match drop_underscores false (trim (to_ascii s)) with
  | None => Raise ValueError
  | Some t =>
      let (sg, body) := read_sign t in
      let word := map ascii_lower body in
      if str_eqb word (lit "inf") || str_eqb word (lit "infinity")
      then Ok (S754_infinity sg)
      else if str_eqb word (lit "nan") then Ok S754_nan
      else match read_decimal body with
           | Some (m, e) => Ok (float_of_decimal sg m e)
           | None => Raise ValueError
           end
  end.

(** [int(s)] for a [str], base 10 *)
Definition int_of_str (s : str) : result Z :=
  match drop_underscores false (trim (to_ascii s)) with
  | None => Raise ValueError
  | Some t =>
      let (sg, body) := read_sign t in
      match span_digits body with
      | ((_ :: _) as ds, []) =>
          if (0 <? max_str_digits)
             && (max_str_digits <? Z.of_nat (List.length ds))
          then Raise ValueError
          else Ok (cond_Zopp sg (digits_value ds))
      | _ => Raise ValueError
      end
  end.

End Literals.

(* ================================================================== *)
(** ** JSON values and dictionaries *)

#[warning="-register-all"]
Inductive value :=
| VNone
| VBool (b : bool)
| VInt (n : Z)
| VFloat (f : float)
| VStr (s : str)
| VList (l : list value)
| VDict (d : list (str * value)).

(** Keys of dictionaries: types with a boolean equality. *)
Class Key (K : Type) := { key_eqb : K -> K -> bool }.

#[export] Instance Key_str : Key str := {| key_eqb := str_eqb |}.

#[export] Instance Key_int : Key Z := {| key_eqb := Z.eqb |}.

(** A [dict] keeps its keys in insertion order. *)
Definition dict (K V : Type) := list (K * V).

Section Dict.
Context {K V : Type} `{Key K}.

Fixpoint dict_get (k : K) (d : dict K V) : option V :=
  match d with
  | [] => None
  | (k', v) :: d' => if key_eqb k k' then Some v else dict_get k d'
  end.

(** [k in d] *)
Definition dict_mem (k : K) (d : dict K V) : bool :=
  match dict_get k d with Some _ => true | None => false end.

(** [d[k] = v]: an existing key keeps its position. *)
Fixpoint dict_set (k : K) (v : V) (d : dict K V) : dict K V :=
  match d with
  | [] => [(k, v)]
  | (k', v') :: d' =>
      if key_eqb k k' then (k, v) :: d' else (k', v') :: dict_set k v d'
  end.

(** [d[k]] *)
Definition dict_item (k : K) (d : dict K V) : result V :=
  match dict_get k d with Some v => Ok v | None => Raise KeyError end.

(** [d.keys()] *)
Definition keys (d : dict K V) : list K := map fst d.

End Dict.

(** [r.get(k)] on a JSON object; an absent key gives [None]. *)
Definition get (k : str) (r : dict str value) : value :=
  match dict_get k r with Some v => v | None => VNone end.

(** Truth value of an object. *)
Definition truthy (v : value) : bool :=
  match v with
  | VNone => false
  | VBool b => b
  | VInt n => negb (n =? 0)
  | VFloat (S754_zero _) => false
  | VFloat _ => true
  | VStr s => negb (str_eqb s [])
  | VList l => match l with [] => false | _ => true end
  | VDict d => match d with [] => false | _ => true end
  end.

(** [a or b] *)
Definition or_else (a b : value) : value := if truthy a then a else b.

Section Conversions.
Context {RT : PyRuntime}.

(** [float(x)] *)
Definition py_float (x : value) : result float :=
  match x with
  | VBool b => Ok (if b then fone else fzero)
  | VInt n => float_of_int n
  | VFloat f => Ok f
  | VStr s => float_of_str s
  | VNone | VList _ | VDict _ => Raise TypeError
  end.

(** [int(x)] *)
Definition py_int (x : value) : result Z :=
  match x with
  | VBool b => Ok (if b then 1 else 0)
  | VInt n => Ok n
  | VFloat f => int_of_float f
  | VStr s => int_of_str s
  | VNone | VList _ | VDict _ => Raise TypeError
  end.

End Conversions.

(* ================================================================== *)
(** ** The numeric coercer *)

Section Coercer.
Context {RT : PyRuntime}.
Local Open Scope result_scope.

(** The body of the [try] block. *)
Definition as_float_try (x : value) : result (option float) :=
  match x with
  | VNone => Ok None
  | VBool _ | VInt _ | VFloat _ =>
      f <- py_float x ;; Ok (Some f)
  | VStr s =>
      let s := strip s in
      if str_eqb s (lit "") then Ok None
      else
        let s := replace 0x25 (lit "") s in
        let s := replace 0x2C (lit ".") s in
        f <- float_of_str s ;; Ok (Some f)
  | VList _ | VDict _ =>
      f <- py_float x ;; Ok (Some f)
  end.

Definition as_float (x : value) : option float :=
  try_except (as_float_try x) None.

End Coercer.

(* ================================================================== *)
(** ** The key normaliser *)

Section Normaliser.
Context {RT : PyRuntime}.

Definition _norm (s : str) : str :=
  let s := lower (strip s) in
  let s := unmark (nfkd s) in
  let s := replace 0x2D (lit " ") s in
  let s := join (lit " ") (split s) in
  s.

End Normaliser.

(* ================================================================== *)
(** ** The static code table *)

Definition UF_TO_STATE : dict str str := [
  (lit "AC", lit "Acre");
  (lit "AL", lit "Alagoas");
  (lit "AP", lit "Amapá");
  (lit "AM", lit "Amazonas");
  (lit "BA", lit "Bahia");
  (lit "CE", lit "Ceará");
  (lit "DF", lit "Distrito Federal");
  (lit "ES", lit "Espírito Santo");
  (lit "GO", lit "Goiás");
  (lit "MA", lit "Maranhão");
  (lit "MT", lit "Mato Grosso");
  (lit "MS", lit "Mato Grosso do Sul");
  (lit "MG", lit "Minas Gerais");
  (lit "PA", lit "Pará");
  (lit "PB", lit "Paraíba");
  (lit "PR", lit "Paraná");
  (lit "PE", lit "Pernambuco");
  (lit "PI", lit "Piauí");
  (lit "RJ", lit "Rio de Janeiro");
  (lit "RN", lit "Rio Grande do Norte");
  (lit "RS", lit "Rio Grande do Sul");
  (lit "RO", lit "Rondônia");
  (lit "RR", lit "Roraima");
  (lit "SC", lit "Santa Catarina");
  (lit "SP", lit "São Paulo");
  (lit "SE", lit "Sergipe");
  (lit "TO", lit "Tocantins")
].

Section Tables.
Context {RT : PyRuntime}.

(** [{_norm(v): k for k, v in UF_TO_STATE.items()}] *)
Definition STATE_TO_UF : dict str str :=
  fold_left (fun d kv => dict_set (_norm (snd kv)) (fst kv) d) UF_TO_STATE [].

End Tables.

(* ================================================================== *)
(** ** Input files, records and the log *)

(** The other ways in which [json.loads(path.read_text(encoding="utf-8"))]
    fails on a path that exists: the bytes are not UTF-8, the path cannot
    be read (a directory, no permission), the document nests deeper than
    the recursion limit, or it holds an integer literal with more digits
    than the interpreter converts. *)
Inductive read_failure :=
| NotUTF8
| NoAccess
| TooDeep
| HugeInteger.

Definition raised (w : read_failure) : exn :=
  match w with
  | NotUTF8 => UnicodeDecodeError
  | NoAccess => OSError
  | TooDeep => RecursionError
  | HugeInteger => ValueError
  end.

(** What a path holds: nothing; text that is not JSON; something else
    [read_json] fails on; or a JSON document. *)
Inductive source :=
| Missing
| Malformed
| Unreadable (w : read_failure)
| Parsed (v : value).

Record files := {
  BF_FILE : source;
  SAN_FILE : source;
  EDU_FILE : source;
  UNEMP_FILE : source
}.

(** [path.exists()] *)
Definition file_exists (f : source) : bool :=
  match f with Missing => false | _ => true end.

Definition read_json (f : source) : result value :=
  match f with
  | Parsed v => Ok v
  | Malformed => Raise JSONDecodeError
  | Unreadable w => Raise (raised w)
  | Missing => Raise OSError
  end.

(** The exception [read_json] raises on a path that exists, if any. *)
Definition read_error (f : source) : option exn :=
  match f with
  | Malformed => Some JSONDecodeError
  | Unreadable w => Some (raised w)
  | Missing | Parsed _ => None
  end.

(** The value of the baseline mapping:
    [{"State": ..., "UF": ..., "bf_total": ...}] *)
Record BaselineRecord := {
  State : str;
  UF : str;
  bf_total : float
}.

(** One row of the long table. *)
Module Out.
Record t := {
  UF : str;
  State : str;
  bf_total : float;
  dimension : str;
  value : float
}.
End Out.

(** The counters [added] and [missing], one entry per dimension. *)
Record counters := {
  Sanitation : nat;
  Education : nat;
  Unemployment : nat
}.

Inductive dataset := BolsaFamilia | SanitationData | EducationData | UnemploymentData.

(** One constructor per [print] call of the program. *)
Inductive event :=
| ErrorMissingFile (d : dataset)
| WarnMissingFile (d : dataset)
| WarnNotAList (d : dataset)
| InfoSource (d : dataset)
| InfoStates (d : dataset) (n : nat)
| InfoSample (rows : list BaselineRecord)
| ErrorNoTotals
| InfoAdded (c : counters)
| InfoMissing (c : counters)
| InfoTotal (n : nat).

(** A computation that prints and may raise. *)
Definition io (A : Type) := (list event * result A)%type.

Definition ret {A} (a : A) : io A := ([], Ok a).

Definition bind {A B} (m : io A) (k : A -> io B) : io B :=
  match m with
  | (l, Raise e) => (l, Raise e)
  | (l, Ok a) => let (l', r) := k a in (l ++ l', r)
  end.

Definition print (e : event) : io unit := ([e], Ok tt).

Definition lift {A} (r : result A) : io A := ([], r).

Declare Scope io_scope.
Delimit Scope io_scope with io.
Notation "x <- m ;; k" := (bind m (fun x => k))
  (at level 61, m at next level, right associativity) : io_scope.
Notation "m ;; k" := (bind m (fun _ => k))
  (at level 61, right associativity) : io_scope.

(** The printed log and the outcome of a run. *)
Definition log {A} (m : io A) : list event := fst m.
Definition outcome {A} (m : io A) : result A := snd m.

(** [for r in rows] over an arbitrary JSON value: a list yields its items,
    an object its keys, a string its characters; anything else is not
    iterable. *)
Definition iterate (rows : value) : result (list value) :=
  match rows with
  | VList l => Ok l
  | VDict d => Ok (map (fun kv => VStr (fst kv)) d)
  | VStr s => Ok (map (fun c => VStr [c]) s)
  | VNone | VBool _ | VInt _ | VFloat _ => Raise TypeError
  end.

(** A loop whose body may raise. *)
Fixpoint for_each {A B} (body : A -> B -> result A) (l : list B) (a : A)
  : result A :=
  match l with
  | [] => Ok a
  | x :: l' => rbind (body a x) (for_each body l')
  end.

(* ================================================================== *)
(** ** Loaders *)

Section Loaders.
Context {RT : PyRuntime}.

Definition TOTAL_KEYS : list str :=
  [lit "total_pago_2021"; lit "total_paid_2021"; lit "total_paid";
   lit "total_pago"; lit "total"].

(** The alias loop: [total] is set from the first key present, then the
    loop breaks. *)
Fixpoint probe_total (ks : list str) (r : dict str value) : option float :=
  match ks with
  | [] => None
  | k :: ks' =>
      if dict_mem k r then as_float (get k r) else probe_total ks' r
  end.

(** One iteration of the baseline loop. *)
Definition bf_step (out : dict str BaselineRecord) (r : value)
  : dict str BaselineRecord :=
  match r with
  | VDict r =>
      match or_else (get (lit "UF") r) (get (lit "uf") r) with
      | VStr uf =>
          if negb (Nat.eqb (List.length (strip uf)) 2) then out
          else
            let uf := upper (strip uf) in
            match probe_total TOTAL_KEYS r with
            | None => out
            | Some total =>
                match dict_get uf UF_TO_STATE with
                | None => out
                | Some state =>
                    if str_eqb state (lit "") then out
                    else
                      let key := _norm state in
                      dict_set key
                        {| State := state; UF := uf; bf_total := total |} out
                end
            end
      | _ => out
      end
  | _ => out
  end.

Definition load_bf_totals_by_state_norm (fs : files)
  : io (dict str BaselineRecord) :=
  (if negb (file_exists (BF_FILE fs)) then
     print (ErrorMissingFile BolsaFamilia) ;;
     ret []
   else
     rows <- lift (read_json (BF_FILE fs)) ;;
     items <- lift (iterate rows) ;;
     let out := fold_left bf_step items [] in
     print (InfoSource BolsaFamilia) ;;
     print (InfoStates BolsaFamilia (List.length out)) ;;
     print (InfoSample (firstn 5 (map snd out))) ;;
     ret out)%io.

(** One iteration of the sanitation loop. *)
Definition san_step (out : dict str float) (r : value) : dict str float :=
  match r with
  | VDict r =>
      match get (lit "State") r with
      | VStr st =>
          match as_float (get (lit "Sanitation_Access") r) with
          | None => out
          | Some val => dict_set (_norm st) val out
          end
      | _ => out
      end
  | _ => out
  end.

Definition load_sanitation_2022_by_state_norm (fs : files)
  : io (dict str float) :=
  (if negb (file_exists (SAN_FILE fs)) then
     print (WarnMissingFile SanitationData) ;;
     ret []
   else
     rows <- lift (read_json (SAN_FILE fs)) ;;
     match rows with
     | VList rows =>
         let out := fold_left san_step rows [] in
         print (InfoStates SanitationData (List.length out)) ;;
         ret out
     | _ =>
         print (WarnNotAList SanitationData) ;;
         ret []
     end)%io.

(** One iteration of the education loop; [best] maps a key to the pair
    (year, schooling) retained so far. *)
Definition edu_step (best : dict str (Z * float)) (r : value)
  : dict str (Z * float) :=
  match r with
  | VDict r =>
      match get (lit "State") r with
      | VStr st =>
          match py_int (get (lit "Year") r) with
          | Raise _ => best
          | Ok y =>
              match as_float (get (lit "Years_Schooling") r) with
              | None => best
              | Some ys =>
                  let key := _norm st in
                  match dict_get key best with
                  | None => dict_set key (y, ys) best
                  | Some prev =>
                      if fst prev <? y then dict_set key (y, ys) best
                      else best
                  end
              end
          end
      | _ => best
      end
  | _ => best
  end.

Definition load_education_latest_by_state_norm (fs : files)
  : io (dict str float) :=
  (if negb (file_exists (EDU_FILE fs)) then
     print (WarnMissingFile EducationData) ;;
     ret []
   else
     rows <- lift (read_json (EDU_FILE fs)) ;;
     match rows with
     | VList rows =>
         let best := fold_left edu_step rows [] in
         let out := map (fun kv => (fst kv, snd (snd kv))) best in
         print (InfoStates EducationData (List.length out)) ;;
         ret out
     | _ =>
         print (WarnNotAList EducationData) ;;
         ret []
     end)%io.

(** [by_state_year.setdefault(key, {}).setdefault(year, []).append(rate)] *)
Definition append_rate (key : str) (year : Z) (rate : float)
  (by_state_year : dict str (dict Z (list float)))
  : dict str (dict Z (list float)) :=
  let years_map :=
    match dict_get key by_state_year with Some m => m | None => [] end in
  let rates :=
    match dict_get year years_map with Some l => l | None => [] end in
  dict_set key (dict_set year (rates ++ [rate]) years_map) by_state_year.

(** One iteration of the grouping loop of the unemployment loader. *)
Definition unemp_step (by_state_year : dict str (dict Z (list float)))
  (r : value) : result (dict str (dict Z (list float))) :=
  match r with
  | VDict r =>
      match get (lit "City") r with
      | VStr st =>
          match get (lit "Quarter") r with
          | VStr q =>
              if (Nat.ltb (List.length q) 4) || negb (isdigit (prefix 4 q))
              then Ok by_state_year
              else
                (year <- int_of_str (prefix 4 q) ;;
                 match as_float (get (lit "Unemployment_Rate") r) with
                 | None => Ok by_state_year
                 | Some rate =>
                     Ok (append_rate (_norm st) year rate by_state_year)
                 end)%result
          | _ => Ok by_state_year
          end
      | _ => Ok by_state_year
      end
  | _ => Ok by_state_year
  end.

(** [max(xs)] over integers *)
Definition py_max (xs : list Z) : result Z :=
  match xs with
  | [] => Raise ValueError
  | x :: xs' => Ok (fold_left Z.max xs' x)
  end.

(** One iteration of the averaging loop of the unemployment loader. *)
Definition unemp_average (out : dict str float)
  (entry : str * dict Z (list float)) : result (dict str float) :=
  let (st_key, years_map) := entry in
  (if dict_mem 2022 years_map
      && match dict_get 2022 years_map with
         | Some (_ :: _) => true
         | _ => false
         end
   then
     rates <- dict_item 2022 years_map ;;
     m <- mean rates ;;
     Ok (dict_set st_key m out)
   else
     latest_year <- py_max (keys years_map) ;;
     rates <- dict_item latest_year years_map ;;
     m <- mean rates ;;
     Ok (dict_set st_key m out))%result.

Definition load_unemployment_2022_avg_by_state_norm (fs : files)
  : io (dict str float) :=
  (if negb (file_exists (UNEMP_FILE fs)) then
     print (WarnMissingFile UnemploymentData) ;;
     ret []
   else
     rows <- lift (read_json (UNEMP_FILE fs)) ;;
     match rows with
     | VList rows =>
         by_state_year <- lift (for_each unemp_step rows []) ;;
         out <- lift (for_each unemp_average by_state_year []) ;;
         print (InfoStates UnemploymentData (List.length out)) ;;
         ret out
     | _ =>
         print (WarnNotAList UnemploymentData) ;;
         ret []
     end)%io.

End Loaders.

(* ================================================================== *)
(** ** The join *)

Definition bump_Sanitation (c : counters) : counters :=
  {| Sanitation := S (Sanitation c); Education := Education c;
     Unemployment := Unemployment c |}.
Definition bump_Education (c : counters) : counters :=
  {| Sanitation := Sanitation c; Education := S (Education c);
     Unemployment := Unemployment c |}.
Definition bump_Unemployment (c : counters) : counters :=
  {| Sanitation := Sanitation c; Education := Education c;
     Unemployment := S (Unemployment c) |}.

Definition no_counts : counters :=
  {| Sanitation := 0; Education := 0; Unemployment := 0 |}.

(** The local variables the join loop updates. *)
Record join_state := {
  out : list Out.t;
  added : counters;
  missing : counters
}.

Definition long_row (bf_row : BaselineRecord) (label : str) (v : float)
  : Out.t :=
  {| Out.UF := UF bf_row; Out.State := State bf_row;
     Out.bf_total := bf_total bf_row;
     Out.dimension := label; Out.value := v |}.

(** One [if v is not None: ... else: ...] block of the loop body. *)
Definition join_dimension (bump : counters -> counters) (label : str)
  (metric : dict str float) (st_key : str) (bf_row : BaselineRecord)
  (s : join_state) : join_state :=
  match dict_get st_key metric with
  | Some v =>
      {| out := out s ++ [long_row bf_row label v];
         added := bump (added s); missing := missing s |}
  | None =>
      {| out := out s; added := added s; missing := bump (missing s) |}
  end.

(** The body of [for st_key, bf_row in bf.items()]. *)
Definition join_step (sanitation education unemployment : dict str float)
  (s : join_state) (entry : str * BaselineRecord) : join_state :=
  let (st_key, bf_row) := entry in
  let s := join_dimension bump_Sanitation (lit "Sanitation access (%)")
             sanitation st_key bf_row s in
  let s := join_dimension bump_Education (lit "Education (years)")
             education st_key bf_row s in
  let s := join_dimension bump_Unemployment (lit "Unemployment (%)")
             unemployment st_key bf_row s in
  s.

(** The loop of [build_long_rows], from the four mappings. *)
Definition join_rows (bf : dict str BaselineRecord)
  (sanitation education unemployment : dict str float) : join_state :=
  fold_left (join_step sanitation education unemployment) bf
    {| out := []; added := no_counts; missing := no_counts |}.

Section Pipeline.
Context {RT : PyRuntime}.

Definition build_long_rows (fs : files) : io (list Out.t) :=
  (bf <- load_bf_totals_by_state_norm fs ;;
   match bf with
   | [] =>
       print ErrorNoTotals ;;
       ret []
   | _ =>
       sanitation <- load_sanitation_2022_by_state_norm fs ;;
       education <- load_education_latest_by_state_norm fs ;;
       unemployment <- load_unemployment_2022_avg_by_state_norm fs ;;
       let s := join_rows bf sanitation education unemployment in
       print (InfoAdded (added s)) ;;
       print (InfoMissing (missing s)) ;;
       print (InfoTotal (List.length (out s))) ;;
       ret (out s)
   end)%io.

End Pipeline.

(* ================================================================== *)
(** ** The Latin-1 instance of the character services *)

Module Latin.

Definition isspace (c : Z) : bool :=
  ((0x09 <=? c) && (c <=? 0x0D)) || ((0x1C <=? c) && (c <=? 0x20))
  || (c =? 0x85) || (c =? 0xA0).

Definition decimal (c : Z) : option Z :=
  if (0x30 <=? c) && (c <=? 0x39) then Some (c - 0x30) else None.

Definition isdigit (c : Z) : bool :=
  ((0x30 <=? c) && (c <=? 0x39)) || (c =? 0xB2) || (c =? 0xB3) || (c =? 0xB9).

Definition ccc (c : Z) : Z :=
  if (c <? 0x300) || (0x36F <? c) then 0
  else if c <=? 0x314 then 230 else if c <=? 0x315 then 232
  else if c <=? 0x319 then 220 else if c <=? 0x31A then 232
  else if c <=? 0x31B then 216 else if c <=? 0x320 then 220
  else if c <=? 0x322 then 202 else if c <=? 0x326 then 220
  else if c <=? 0x328 then 202 else if c <=? 0x333 then 220
  else if c <=? 0x338 then 1 else if c <=? 0x33C then 220
  else if c <=? 0x344 then 230 else if c <=? 0x345 then 240
  else if c <=? 0x346 then 230 else if c <=? 0x349 then 220
  else if c <=? 0x34C then 230 else if c <=? 0x34E then 220
  else if c <=? 0x34F then 0 else if c <=? 0x352 then 230
  else if c <=? 0x356 then 220 else if c <=? 0x357 then 230
  else if c <=? 0x358 then 232 else if c <=? 0x35A then 220
  else if c <=? 0x35B then 230 else if c <=? 0x35C then 233
  else if c <=? 0x35E then 234 else if c <=? 0x35F then 233
  else if c <=? 0x361 then 234 else if c <=? 0x362 then 233
  else 230.

Definition tolower (c : Z) : str :=
  if ((0x41 <=? c) && (c <=? 0x5A))
     || ((0xC0 <=? c) && (c <=? 0xDE) && negb (c =? 0xD7))
  then [c + 32] else [c].

Definition toupper (c : Z) : str :=
  if ((0x61 <=? c) && (c <=? 0x7A))
     || ((0xE0 <=? c) && (c <=? 0xFE) && negb (c =? 0xF7))
  then [c - 32]
  else if c =? 0xB5 then [0x39C]
  else if c =? 0xDF then [0x53; 0x53]
  else if c =? 0xFF then [0x178]
  else if c =? 0x345 then [0x399]
  else [c].

(** Full canonical decomposition of one character. *)
Definition canonical (c : Z) : str :=
  if (c <? 0xC0) || (0x344 <? c) then [c] else
  match c with
  | 0xC0 => [0x41; 0x300] | 0xC1 => [0x41; 0x301] | 0xC2 => [0x41; 0x302]
  | 0xC3 => [0x41; 0x303] | 0xC4 => [0x41; 0x308] | 0xC5 => [0x41; 0x30A]
  | 0xC7 => [0x43; 0x327] | 0xC8 => [0x45; 0x300] | 0xC9 => [0x45; 0x301]
  | 0xCA => [0x45; 0x302] | 0xCB => [0x45; 0x308] | 0xCC => [0x49; 0x300]
  | 0xCD => [0x49; 0x301] | 0xCE => [0x49; 0x302] | 0xCF => [0x49; 0x308]
  | 0xD1 => [0x4E; 0x303] | 0xD2 => [0x4F; 0x300] | 0xD3 => [0x4F; 0x301]
  | 0xD4 => [0x4F; 0x302] | 0xD5 => [0x4F; 0x303] | 0xD6 => [0x4F; 0x308]
  | 0xD9 => [0x55; 0x300] | 0xDA => [0x55; 0x301] | 0xDB => [0x55; 0x302]
  | 0xDC => [0x55; 0x308] | 0xDD => [0x59; 0x301]
  | 0xE0 => [0x61; 0x300] | 0xE1 => [0x61; 0x301] | 0xE2 => [0x61; 0x302]
  | 0xE3 => [0x61; 0x303] | 0xE4 => [0x61; 0x308] | 0xE5 => [0x61; 0x30A]
  | 0xE7 => [0x63; 0x327] | 0xE8 => [0x65; 0x300] | 0xE9 => [0x65; 0x301]
  | 0xEA => [0x65; 0x302] | 0xEB => [0x65; 0x308] | 0xEC => [0x69; 0x300]
  | 0xED => [0x69; 0x301] | 0xEE => [0x69; 0x302] | 0xEF => [0x69; 0x308]
  | 0xF1 => [0x6E; 0x303] | 0xF2 => [0x6F; 0x300] | 0xF3 => [0x6F; 0x301]
  | 0xF4 => [0x6F; 0x302] | 0xF5 => [0x6F; 0x303] | 0xF6 => [0x6F; 0x308]
  | 0xF9 => [0x75; 0x300] | 0xFA => [0x75; 0x301] | 0xFB => [0x75; 0x302]
  | 0xFC => [0x75; 0x308] | 0xFD => [0x79; 0x301] | 0xFF => [0x79; 0x308]
  | 0x340 => [0x300] | 0x341 => [0x301] | 0x343 => [0x313]
  | 0x344 => [0x308; 0x301]
  | _ => [c]
  end.

(** Full compatibility decomposition of one character. *)
Definition compat (c : Z) : str :=
  if (c <? 0xA0) || (0xBE <? c) then canonical c else
  match c with
  | 0xA0 => [0x20] | 0xA8 => [0x20; 0x308] | 0xAA => [0x61]
  | 0xAF => [0x20; 0x304] | 0xB2 => [0x32] | 0xB3 => [0x33]
  | 0xB4 => [0x20; 0x301] | 0xB5 => [0x3BC] | 0xB8 => [0x20; 0x327]
  | 0xB9 => [0x31] | 0xBA => [0x6F]
  | 0xBC => [0x31; 0x2044; 0x34] | 0xBD => [0x31; 0x2044; 0x32]
  | 0xBE => [0x33; 0x2044; 0x34]
  | _ => canonical c
  end.

(** Canonical ordering: every maximal run of characters with a non-zero
    combining class is sorted by class, stably. [run] is the sorted run
    being read. *)
Fixpoint insert_mark (m : Z) (run : str) : str :=
  match run with
  | [] => [m]
  | x :: r => if ccc m <? ccc x then m :: run else x :: insert_mark m r
  end.

Fixpoint reorder (run : str) (s : str) : str :=
  match s with
  | [] => run
  | c :: s' =>
      if ccc c =? 0 then run ++ c :: reorder [] s'
      else reorder (insert_mark c run) s'
  end.

Definition normalize (decomp : Z -> str) (s : str) : str :=
  reorder [] (flat_map decomp s).

End Latin.

(** The tables agree with the Unicode Character Database on U+0000..U+00FF
    and U+0300..U+036F; other code points are left caseless, undecomposed
    and of combining class zero. *)
Definition Latin1 : PyRuntime := {|
  isspace_cp := Latin.isspace;
  isdigit_cp := Latin.isdigit;
  decimal_cp := Latin.decimal;
  combining := Latin.ccc;
  lower := flat_map Latin.tolower;
  upper := flat_map Latin.toupper;
  nfkd := Latin.normalize Latin.compat;
  nfd := Latin.normalize Latin.canonical;
  max_str_digits := 4300
|}.

(** [float(s)] of an ASCII literal, for writing float constants. *)
Definition flt (s : string) : float :=
  match @float_of_str Latin1 (lit s) with
  | Ok f => f
  | Raise _ => S754_nan
  end.

(** JSON strings, numbers and objects from literals. *)
Definition VS (s : string) : value := VStr (lit s).
Definition VF (s : string) : value := VFloat (flt s).
Definition obj (fields : list (string * value)) : value :=
  VDict (map (fun kv => (lit (fst kv), snd kv)) fields).

(* ================================================================== *)
(** ** What the spec says the join produces *)

Definition LABEL_SANITATION : str := lit "Sanitation access (%)".
Definition LABEL_EDUCATION : str := lit "Education (years)".
Definition LABEL_UNEMPLOYMENT : str := lit "Unemployment (%)".

(** The record of one (state, dimension) pair: present when the metric map
    has the state's key, nothing otherwise. *)
Definition spec_row (metric : dict str float) (label : str)
  (entry : str * BaselineRecord) : list Out.t :=
  match dict_get (fst entry) metric with
  | Some v => [long_row (snd entry) label v]
  | None => []
  end.

(** Per state, the dimensions in the order sanitation, education,
    unemployment; states in the order of the baseline mapping. *)
Definition spec_join (bf : dict str BaselineRecord)
  (sanitation education unemployment : dict str float) : list Out.t :=
  flat_map (fun entry =>
              spec_row sanitation LABEL_SANITATION entry
              ++ spec_row education LABEL_EDUCATION entry
              ++ spec_row unemployment LABEL_UNEMPLOYMENT entry) bf.

(** The number of baseline states a metric map has, or lacks. *)
Definition spec_present (metric : dict str float)
  (bf : dict str BaselineRecord) : nat :=
  List.length (filter (fun e => dict_mem (fst e) metric) bf).

Definition spec_absent (metric : dict str float)
  (bf : dict str BaselineRecord) : nat :=
  List.length (filter (fun e => negb (dict_mem (fst e) metric)) bf).

(* ================================================================== *)
(** ** What the spec says the education loader retains *)

Section EducationSpec.
Context {RT : PyRuntime}.

(** The key, year and schooling of a record that passes every check of
    the loop; [None] for a record the loop skips. *)
Definition edu_record (r : value) : option (str * (Z * float)) :=
  match r with
  | VDict r =>
      match get (lit "State") r, py_int (get (lit "Year") r),
            as_float (get (lit "Years_Schooling") r) with
      | VStr st, Ok y, Some ys => Some (_norm st, (y, ys))
      | _, _, _ => None
      end
  | _ => None
  end.

Definition edu_records (rows : list value) : list (str * (Z * float)) :=
  flat_map (fun r => match edu_record r with Some x => [x] | None => [] end)
    rows.

End EducationSpec.

(** Among (year, schooling) pairs in input order: the first pair that
    carries the largest year. *)
Definition spec_latest (cands : list (Z * float)) : option (Z * float) :=
  match cands with
  | [] => None
  | c :: cs =>
      let top := fold_left Z.max (map fst cs) (fst c) in
      find (fun c => fst c =? top) cands
  end.

Definition spec_education (recs : list (str * (Z * float))) (key : str)
  : option float :=
  option_map snd
    (spec_latest (map snd (filter (fun r => str_eqb (fst r) key) recs))).

(* ================================================================== *)
(** ** Reading results *)

(** An outcome seen through [try: ... except Exception: None]. *)
Definition to_option {A} (r : result A) : option A :=
  match r with Ok a => Some a | Raise _ => None end.

(** [f] is a finite float within half a unit in the last place of the
    rational [q]: a rounding of [q] to nearest. *)
Definition is_rounding_of (f : float) (q : Q) : Prop :=
  match f, exact_ratio f with
  | S754_finite _ _ e, Some x =>
      Qle (Qabs (Qminus x q)) (Qpower (2 # 1) (e - 1))
  | _, _ => False
  end.

(* ================================================================== *)
(** ** What the spec says the unemployment loader returns *)

Section UnemploymentSpec.
Context {RT : PyRuntime}.

(** What one row contributes to the grouping: nothing when a check of the
    loop skips it, its key, year and rate otherwise; the exception of
    [int] when the year does not parse. *)
Definition unemp_record (r : value) : result (option (str * (Z * float))) :=
  match r with
  | VDict r =>
      match get (lit "City") r, get (lit "Quarter") r with
      | VStr st, VStr q =>
          if (Nat.ltb (List.length q) 4) || negb (isdigit (prefix 4 q))
          then Ok None
          else
            (year <- int_of_str (prefix 4 q) ;;
             match as_float (get (lit "Unemployment_Rate") r) with
             | None => Ok None
             | Some rate => Ok (Some (_norm st, (year, rate)))
             end)%result
      | _, _ => Ok None
      end
  | _ => Ok None
  end.

(** The observations of a row list, in input order. *)
Definition unemp_records (rows : list value)
  : result (list (str * (Z * float))) :=
  for_each (fun acc r =>
              (o <- unemp_record r ;;
               Ok (acc ++ match o with Some x => [x] | None => [] end))%result)
    rows [].

End UnemploymentSpec.

(** The rates observed for a state in a year, and the years observed for
    a state. *)
Definition spec_rates (recs : list (str * (Z * float))) (key : str)
  (year : Z) : list float :=
  map (fun r => snd (snd r))
    (filter (fun r => str_eqb (fst r) key && (fst (snd r) =? year)) recs).

Definition spec_years (recs : list (str * (Z * float))) (key : str)
  : list Z :=
  map (fun r => fst (snd r)) (filter (fun r => str_eqb (fst r) key) recs).

(** Per state: the mean of the 2022 rates when there are any, otherwise
    the mean of the rates of the largest year observed. *)
Definition spec_unemployment (recs : list (str * (Z * float))) (key : str)
  : option float :=
  match spec_years recs key with
  | [] => None
  | y :: ys =>
      to_option
        (mean (match spec_rates recs key 2022 with
               | [] => spec_rates recs key (fold_left Z.max ys y)
               | rates => rates
               end))
  end.

(** The rates the grouping structure holds for a state and a year. *)
Definition rates_of (by_state_year : dict str (dict Z (list float)))
  (key : str) (year : Z) : list float :=
  match dict_get key by_state_year with
  | Some years_map =>
      match dict_get year years_map with Some l => l | None => [] end
  | None => []
  end.

(** The value the averaging loop stores for one state. *)
Definition average_of (years_map : dict Z (list float)) : result float :=
  (if dict_mem 2022 years_map
      && match dict_get 2022 years_map with
         | Some (_ :: _) => true
         | _ => false
         end
   then rates <- dict_item 2022 years_map ;; mean rates
   else
     latest_year <- py_max (keys years_map) ;;
     rates <- dict_item latest_year years_map ;;
     mean rates)%result.

(* ================================================================== *)
(** ** Sample inputs *)

Definition only_edu (v : value) : files :=
  {| BF_FILE := Missing; SAN_FILE := Missing; EDU_FILE := Parsed v;
     UNEMP_FILE := Missing |}.

Definition only_unemp (v : value) : files :=
  {| BF_FILE := Missing; SAN_FILE := Missing; EDU_FILE := Missing;
     UNEMP_FILE := Parsed v |}.

Definition education_sample : list value :=
  [ obj [("State", VS "Bahia"); ("Year", VInt 2019);
         ("Years_Schooling", VF "7.1")];
    obj [("State", VS "Bahia"); ("Year", VInt 2021);
         ("Years_Schooling", VF "7.9")] ]%string.

Definition education_tie_sample : list value :=
  [ obj [("State", VS "Bahia"); ("Year", VInt 2021);
         ("Years_Schooling", VF "7.9")];
    obj [("State", VS "BAHIA"); ("Year", VS "2021");
         ("Years_Schooling", VF "8.5")] ]%string.

Definition unemployment_sample : list value :=
  [ obj [("City", VS "Bahia"); ("Quarter", VS "2022Q1");
         ("Unemployment_Rate", VF "9.0")];
    obj [("City", VS "Acre"); ("Quarter", VS "2021Q2");
         ("Unemployment_Rate", VF "6.0")];
    obj [("City", VS "Bahia"); ("Quarter", VS "2022Q3");
         ("Unemployment_Rate", VF "11.0")] ]%string.

(** Rows whose numeric field does not coerce. *)
Definition malformed_sanitation_row : dict str value :=
  [(lit "State", VS "Bahia"); (lit "Sanitation_Access", VS "n/a")].

Definition malformed_education_row : dict str value :=
  [(lit "State", VS "Bahia"); (lit "Year", VInt 2021);
   (lit "Years_Schooling", VS "abc")].

Definition malformed_unemployment_row : dict str value :=
  [(lit "City", VS "Bahia"); (lit "Quarter", VS "2022Q1");
   (lit "Unemployment_Rate", VList [])].

Definition malformed_baseline_row : dict str value :=
  [(lit "UF", VS "BA"); (lit "total", VS "12.5.1")].

(** A record whose first alias is present but does not coerce, while a
    later alias holds a number. *)
Definition shadowed_total_row : dict str value :=
  [(lit "UF", VS "BA"); (lit "total_pago_2021", VS "abc");
   (lit "total", VInt 5)].

(** A record with a well-formed code that the table does not list. *)
Definition unknown_code_row : dict str value :=
  [(lit "UF", VS "ZZ"); (lit "total", VInt 5)].

Definition sao_paulo_row : dict str value :=
  [(lit "uf", VS " sp "); (lit "total_paid", VS "1234,5");
   (lit "total", VS "n/a")].

Definition only_bf (v : value) : files :=
  {| BF_FILE := Parsed v; SAN_FILE := Missing; EDU_FILE := Missing;
     UNEMP_FILE := Missing |}.

(* ================================================================== *)
(** ** Runtimes that agree with the Latin-1 tables *)

(** The code points of Basic Latin and the Latin-1 Supplement. *)
Definition latin1_cp (c : Z) : bool := (0 <=? c) && (c <? 0x100).

(** The code points the tables describe: the above, the combining
    diacritical marks, and the two further characters that compatibility
    decompositions of Latin-1 characters produce. *)
Definition tabulated (c : Z) : bool :=
  latin1_cp c || ((0x300 <=? c) && (c <? 0x370))
  || (c =? 0x3BC) || (c =? 0x2044).

Definition latin1_str (s : str) : Prop :=
  Forall (fun c => latin1_cp c = true) s.

Definition tabulated_str (s : str) : Prop :=
  Forall (fun c => tabulated c = true) s.

Record extends_Latin1 (RT : PyRuntime) : Prop := {
  ext_isspace :
    forall c, tabulated c = true -> isspace_cp c = Latin.isspace c;
  ext_combining :
    forall c, tabulated c = true -> combining c = Latin.ccc c;
  ext_lower :
    forall s, latin1_str s -> lower s = flat_map Latin.tolower s;
  ext_nfkd :
    forall s, latin1_str s -> nfkd s = Latin.normalize Latin.compat s
}.

(** A runtime that agrees with the tables on every string of tabulated
    characters, combining marks included: lower-casing is character by
    character there, and both decompositions are the decomposition of
    each character followed by canonical ordering. *)
Record agrees_with_tables (RT : PyRuntime) : Prop := {
  agrees_isspace :
    forall c, tabulated c = true -> isspace_cp c = Latin.isspace c;
  agrees_combining :
    forall c, tabulated c = true -> combining c = Latin.ccc c;
  agrees_lower :
    forall s, tabulated_str s -> lower s = flat_map Latin.tolower s;
  agrees_nfkd :
    forall s, tabulated_str s -> nfkd s = Latin.normalize Latin.compat s;
  agrees_nfd :
    forall s, tabulated_str s -> nfd s = Latin.normalize Latin.canonical s
}.

(** No two equal strings in a list. *)
Fixpoint distinct (l : list str) : bool :=
  match l with
  | [] => true
  | x :: l' => negb (existsb (str_eqb x) l') && distinct l'
  end.

(** Two upper-case ASCII letters. *)
Definition is_code (s : str) : bool :=
  match s with
  | [a; b] => (0x41 <=? a) && (a <=? 0x5A) && (0x41 <=? b) && (b <=? 0x5A)
  | _ => false
  end.

(* ================================================================== *)
(** ** Variants of a display string *)

Section Variants.
Context {RT : PyRuntime}.

(** The characters of a string once lower-cased, decomposed and stripped
    of combining marks. *)
Definition core (s : str) : str := unmark (nfkd (lower s)).

Definition hyph (s : str) : str := replace 0x2D (lit " ") s.

(** The words the normaliser joins, before the initial [strip]. *)
Definition words (s : str) : list str := split (hyph (core s)).

Definition all_space (s : str) : Prop :=
  Forall (fun c => isspace_cp c = true) s.

(** Facts about white space and the hyphen on which the lemmas about
    [words] rest: lower-casing leaves a separator alone and treats what
    stands on either side of it separately; decomposition followed by the
    removal of marks acts piece by piece; white space decomposes to
    non-empty white space and the hyphen to itself. *)
Record separator_laws : Prop := {
  lower_nil : lower [] = [];
  lower_separator : forall a c b,
      isspace_cp c = true \/ c = 0x2D ->
      lower (a ++ c :: b) = lower a ++ c :: lower b;
  fold_app : forall a b,
      unmark (nfkd (a ++ b)) = unmark (nfkd a) ++ unmark (nfkd b);
  blank_is_space : isspace_cp 0x20 = true;
  space_folds : forall c,
      isspace_cp c = true ->
      unmark (nfkd [c]) <> [] /\ all_space (unmark (nfkd [c]));
  hyphen_folds : unmark (nfkd [0x2D]) = [0x2D]
}.

(** The same letter, whatever its case: the two characters are equal, or
    one is the lower-case form of the other. *)
Definition same_letter (x y : Z) : Prop :=
  x = y \/ lower [x] = [y] \/ lower [y] = [x].

(** The two strings differ in the case of letters only, character for
    character. *)
Definition same_up_to_case (a b : str) : Prop := Forall2 same_letter a b.

(** The two strings have the same base characters: they differ in the
    combining marks of their canonical decompositions only. *)
Definition same_up_to_diacritics (a b : str) : Prop :=
  unmark (nfd a) = unmark (nfd b).

(** The two strings have the same words, a hyphen counting as a space. *)
Definition same_up_to_hyphens_and_spaces (a b : str) : Prop :=
  split (replace 0x2D (lit " ") a) = split (replace 0x2D (lit " ") b).

(** Display strings of tabulated characters that differ only by
    diacritics, casing, or hyphen/space variation: a chain of such
    differences through such strings. *)
Inductive variant : str -> str -> Prop :=
| variant_same a : tabulated_str a -> variant a a
| variant_case a b c :
    tabulated_str a -> same_up_to_case a b -> variant b c -> variant a c
| variant_diacritics a b c :
    tabulated_str a -> same_up_to_diacritics a b -> variant b c ->
    variant a c
| variant_spacing a b c :
    tabulated_str a -> same_up_to_hyphens_and_spaces a b -> variant b c ->
    variant a c.

End Variants.

(** A word of a key: a non-empty run of lower-case ASCII letters. *)
Definition key_word (w : str) : Prop :=
  w <> [] /\ Forall (fun c => 0x61 <= c <= 0x7A) w.

(** A row whose quarter starts with SUPERSCRIPT TWO (U+00B2), a character
    that [str.isdigit] accepts and [int] rejects. *)
Definition superscript_year_row : value :=
  obj [("City", VS "Bahia"); ("Quarter", VS "²022Q1");
       ("Unemployment_Rate", VF "9.0")]%string.

Definition baseline_sample : list value :=
  [ obj [("UF", VS "BA"); ("total", VF "100.0")] ]%string.

(* ================================================================== *)
(** ** Records the loaders retain, and the entry point *)

(** The entries of a list that [f] keeps, in order. *)
Definition collect {A B} (f : A -> option B) (l : list A) : list B :=
  flat_map (fun x => match f x with Some y => [y] | None => [] end) l.

(** Last occurrence wins: the value of the last entry under a key. *)
Definition spec_last {V} (recs : list (str * V)) (key : str) : option V :=
  option_map snd (find (fun r => str_eqb (fst r) key) (rev recs)).

Section LoaderRecords.
Context {RT : PyRuntime}.

(** The key and value of a sanitation record that passes the checks. *)
Definition san_record (r : value) : option (str * float) :=
  match r with
  | VDict r =>
      match get (lit "State") r,
            as_float (get (lit "Sanitation_Access") r) with
      | VStr st, Some val => Some (_norm st, val)
      | _, _ => None
      end
  | _ => None
  end.

(** The key and value of a baseline record that passes the checks. *)
Definition bf_record (r : value) : option (str * BaselineRecord) :=
  match r with
  | VDict r =>
      match or_else (get (lit "UF") r) (get (lit "uf") r) with
      | VStr uf =>
          if negb (Nat.eqb (List.length (strip uf)) 2) then None
          else
            match probe_total TOTAL_KEYS r,
                  dict_get (upper (strip uf)) UF_TO_STATE with
            | Some total, Some state =>
                Some (_norm state,
                      {| State := state; UF := upper (strip uf);
                         bf_total := total |})
            | _, _ => None
            end
      | _ => None
      end
  | _ => None
  end.

End LoaderRecords.

(** A metric source that exists as a JSON list is read; a missing file or
    a document that is not a list leaves the dimension empty. *)
Definition degraded (f : source) : bool :=
  match f with
  | Missing => true
  | Malformed | Unreadable _ => false
  | Parsed (VList _) => false
  | Parsed _ => true
  end.

(** The exception of the first metric source, in reading order, on which
    [read_json] fails. *)
Definition metric_read_error (fs : files) : option exn :=
  match read_error (SAN_FILE fs), read_error (EDU_FILE fs) with
  | Some e, _ => Some e
  | None, Some e => Some e
  | None, None => read_error (UNEMP_FILE fs)
  end.

Definition total_count (c : counters) : nat :=
  (Sanitation c + Education c + Unemployment c)%nat.

(** What [main] does besides running the pipeline. *)
Inductive main_event :=
| MakeChartsDir
| Pipeline (e : event)
| WriteOutFile (rows : list Out.t)
| OkWrote (n : nat)
| InfoExampleRows
| ExampleRow (r : Out.t).

Section Main.
Context {RT : PyRuntime}.

(** [main]: create the directory, run the pipeline, write the rows as
    JSON and print a summary with the first five rows. The written text is
    represented by the rows it serialises. *)
Definition main (fs : files) : list main_event * result unit :=
  match build_long_rows fs with
  | (l, Raise e) => (MakeChartsDir :: map Pipeline l, Raise e)
  | (l, Ok rows) =>
      (MakeChartsDir :: map Pipeline l
         ++ [WriteOutFile rows; OkWrote (List.length rows); InfoExampleRows]
         ++ map ExampleRow (firstn 5 rows),
       Ok tt)
  end.

End Main.

(** The rows of every write to the output file, in order. *)
Definition writes (effects : list main_event) : list (list Out.t) :=
  flat_map (fun e => match e with WriteOutFile rows => [rows] | _ => [] end)
    effects.

(* ================================================================== *)
(** * Properties *)

(** ** Strings and dictionaries *)

Lemma str_eqb_eq (a b : str) : str_eqb a b = true <-> a = b.
Proof.
  revert b; induction a as [|x a IH]; intros [|y b]; simpl;
    try (split; discriminate); try tauto.
  rewrite andb_true_iff, Z.eqb_eq, IH.
  split; [intros [-> ->]; reflexivity | intros E; inversion E; auto].
Qed.

Lemma str_eqb_refl (a : str) : str_eqb a a = true.
Proof. apply str_eqb_eq; reflexivity. Qed.

Lemma str_eqb_neq (a b : str) : str_eqb a b = false <-> a <> b.
Proof.
  rewrite <- str_eqb_eq. destruct (str_eqb a b); split; congruence.
Qed.

(** Keys whose boolean equality decides equality. *)
Class KeyLaws (K : Type) `{Key K} := {
  key_eqb_eq : forall a b : K, key_eqb a b = true <-> a = b
}.

#[export] Instance KeyLaws_str : KeyLaws str.
Proof. constructor; exact str_eqb_eq. Qed.

#[export] Instance KeyLaws_int : KeyLaws Z.
Proof. constructor; exact Z.eqb_eq. Qed.

Section DictFacts.
Context {K V : Type} `{KeyLaws K}.

Lemma key_eqb_refl (k : K) : key_eqb k k = true.
Proof. apply key_eqb_eq; reflexivity. Qed.

Lemma key_eqb_neq (a b : K) : key_eqb a b = false <-> a <> b.
Proof.
  rewrite <- key_eqb_eq. destruct (key_eqb a b); split; congruence.
Qed.

Lemma dict_get_set_same (k : K) (v : V) (d : dict K V) :
  dict_get k (dict_set k v d) = Some v.
Proof.
  induction d as [|[k' v'] d IH]; simpl.
  - rewrite key_eqb_refl; reflexivity.
  - destruct (key_eqb k k') eqn:E; simpl.
    + rewrite key_eqb_refl; reflexivity.
    + rewrite E; exact IH.
Qed.

Lemma dict_get_set_other (k k' : K) (v : V) (d : dict K V) :
  k <> k' -> dict_get k' (dict_set k v d) = dict_get k' d.
Proof.
  intros N. induction d as [|[k0 v0] d IH]; simpl.
  - assert (E : key_eqb k' k = false) by (apply key_eqb_neq; congruence).
    rewrite E; reflexivity.
  - destruct (key_eqb k k0) eqn:E; simpl.
    + apply key_eqb_eq in E; subst k0.
      assert (E : key_eqb k' k = false) by (apply key_eqb_neq; congruence).
      rewrite E; reflexivity.
    + rewrite IH; reflexivity.
Qed.

Lemma dict_get_In (k : K) (v : V) (d : dict K V) :
  dict_get k d = Some v -> In (k, v) d.
Proof.
  induction d as [|[k' v'] d IH]; simpl; [discriminate|].
  destruct (key_eqb k k') eqn:E.
  - apply key_eqb_eq in E; subst k'. intros [= ->]; left; reflexivity.
  - intros G; right; exact (IH G).
Qed.

Lemma dict_get_mem (k : K) (d : dict K V) :
  In k (keys d) -> exists v, dict_get k d = Some v.
Proof.
  induction d as [|[k' v'] d IH]; simpl; [tauto|].
  destruct (key_eqb k k') eqn:E; [eexists; reflexivity|].
  intros [->|I]; [rewrite key_eqb_refl in E; discriminate | exact (IH I)].
Qed.

End DictFacts.

(* ================================================================== *)
(** ** The join *)

Section JoinFacts.
Variables sanitation education unemployment : dict str float.

Lemma join_dimension_out bump label metric k row s :
  out (join_dimension bump label metric k row s)
  = out s ++ spec_row metric label (k, row).
Proof.
  unfold join_dimension, spec_row; simpl.
  destruct (dict_get k metric); simpl; [reflexivity | symmetry; apply app_nil_r].
Qed.

Lemma join_fold_out bf s :
  out (fold_left (join_step sanitation education unemployment) bf s)
  = out s ++ spec_join bf sanitation education unemployment.
Proof.
  revert s; induction bf as [|[k row] bf IH]; intros s.
  - symmetry; apply app_nil_r.
  - cbn [fold_left]. rewrite IH. unfold join_step, spec_join. cbn [flat_map].
    rewrite !join_dimension_out, <- !app_assoc. reflexivity.
Qed.

Lemma join_fold_missing bf s :
  Sanitation (missing (fold_left (join_step sanitation education unemployment) bf s))
  = (Sanitation (missing s) + spec_absent sanitation bf)%nat
  /\ Education (missing (fold_left (join_step sanitation education unemployment) bf s))
     = (Education (missing s) + spec_absent education bf)%nat
  /\ Unemployment (missing (fold_left (join_step sanitation education unemployment) bf s))
     = (Unemployment (missing s) + spec_absent unemployment bf)%nat.
Proof.
  revert s; induction bf as [|[k row] bf IH]; intros s.
  - unfold spec_absent; simpl. repeat split; lia.
  - cbn [fold_left].
    destruct (IH (join_step sanitation education unemployment s (k, row))) as (A & B & C).
    rewrite A, B, C.
    unfold join_step, join_dimension, spec_absent, dict_mem.
    cbn [filter fst snd].
    destruct (dict_get k sanitation), (dict_get k education),
      (dict_get k unemployment); simpl; repeat split; lia.
Qed.

Lemma join_fold_added bf s :
  Sanitation (added (fold_left (join_step sanitation education unemployment) bf s))
  = (Sanitation (added s) + spec_present sanitation bf)%nat
  /\ Education (added (fold_left (join_step sanitation education unemployment) bf s))
     = (Education (added s) + spec_present education bf)%nat
  /\ Unemployment (added (fold_left (join_step sanitation education unemployment) bf s))
     = (Unemployment (added s) + spec_present unemployment bf)%nat.
Proof.
  revert s; induction bf as [|[k row] bf IH]; intros s.
  - unfold spec_present; simpl. repeat split; lia.
  - cbn [fold_left].
    destruct (IH (join_step sanitation education unemployment s (k, row))) as (A & B & C).
    rewrite A, B, C.
    unfold join_step, join_dimension, spec_present, dict_mem.
    cbn [filter fst snd].
    destruct (dict_get k sanitation), (dict_get k education),
      (dict_get k unemployment); simpl; repeat split; lia.
Qed.

End JoinFacts.

Lemma counters_eq (c : counters) (a b d : nat) :
  Sanitation c = a -> Education c = b -> Unemployment c = d ->
  c = {| Sanitation := a; Education := b; Unemployment := d |}.
Proof. destruct c; simpl; intros; subst; reflexivity. Qed.

(** C1. For every baseline mapping and every three metric mappings, the
    join loop visits the baseline states in insertion order and, per
    state, the dimensions sanitation, education, unemployment: its output
    is exactly one record per (state, dimension) pair whose metric map
    has the state's key, and the missing counter of a dimension is the
    number of baseline states its map lacks. For baseline BA = 100.0 with
    sanitation 92.5, no education and unemployment 8.0 for Bahia, the
    output is the sanitation record followed by the unemployment record. *)
Theorem join_rows_spec :
  (forall (bf : dict str BaselineRecord)
          (sanitation education unemployment : dict str float),
      let s := join_rows bf sanitation education unemployment in
      out s = spec_join bf sanitation education unemployment
      /\ missing s = {| Sanitation := spec_absent sanitation bf;
                        Education := spec_absent education bf;
                        Unemployment := spec_absent unemployment bf |}
      /\ added s = {| Sanitation := spec_present sanitation bf;
                      Education := spec_present education bf;
                      Unemployment := spec_present unemployment bf |})
  /\ (let bahia := {| State := lit "Bahia"; UF := lit "BA";
                      bf_total := flt "100.0" |} in
      let s := join_rows [(lit "bahia", bahia)]
                 [(lit "bahia", flt "92.5")] [] [(lit "bahia", flt "8.0")] in
      out s =
        [ {| Out.UF := lit "BA"; Out.State := lit "Bahia";
             Out.bf_total := flt "100.0";
             Out.dimension := lit "Sanitation access (%)";
             Out.value := flt "92.5" |};
          {| Out.UF := lit "BA"; Out.State := lit "Bahia";
             Out.bf_total := flt "100.0";
             Out.dimension := lit "Unemployment (%)";
             Out.value := flt "8.0" |} ]
      /\ missing s = {| Sanitation := 0; Education := 1; Unemployment := 0 |}).
Proof.
  split.
  - intros bf san edu un s. subst s. unfold join_rows.
    split; [|split].
    + rewrite join_fold_out; reflexivity.
    + destruct (join_fold_missing san edu un bf
                  {| out := []; added := no_counts; missing := no_counts |})
        as (A & B & C).
      apply counters_eq; [rewrite A | rewrite B | rewrite C]; reflexivity.
    + destruct (join_fold_added san edu un bf
                  {| out := []; added := no_counts; missing := no_counts |})
        as (A & B & C).
      apply counters_eq; [rewrite A | rewrite B | rewrite C]; reflexivity.
  - vm_compute. split; reflexivity.
Qed.

(* ================================================================== *)
(** ** Outcomes of runs *)

Lemma outcome_bind {A B} (m : io A) (k : A -> io B) :
  outcome (bind m k) = rbind (outcome m) (fun a => outcome (k a)).
Proof.
  destruct m as [l [a|e]]; unfold outcome; simpl; [|reflexivity].
  destruct (k a); reflexivity.
Qed.

Lemma log_bind_ok {A B} (m : io A) (k : A -> io B) (a : A) :
  outcome m = Ok a -> log (bind m k) = log m ++ log (k a).
Proof.
  destruct m as [l [a'|e]]; unfold outcome, log; simpl; [|discriminate].
  intros [= ->]. destruct (k a); reflexivity.
Qed.

Lemma io_eta {A} (m : io A) : m = (log m, outcome m).
Proof. destruct m; reflexivity. Qed.

Section PipelineFacts.
Context {RT : PyRuntime}.

Lemma load_bf_missing (fs : files) :
  BF_FILE fs = Missing ->
  load_bf_totals_by_state_norm fs = ([ErrorMissingFile BolsaFamilia], Ok []).
Proof. intros E. unfold load_bf_totals_by_state_norm. rewrite E. reflexivity. Qed.

(** The outcome of the pipeline, from the outcomes of the loaders. *)
Lemma build_long_rows_outcome (fs : files) :
  outcome (build_long_rows fs)
  = (bf <- outcome (load_bf_totals_by_state_norm fs) ;;
     match bf with
     | [] => Ok []
     | _ =>
         sanitation <- outcome (load_sanitation_2022_by_state_norm fs) ;;
         education <- outcome (load_education_latest_by_state_norm fs) ;;
         unemployment <- outcome (load_unemployment_2022_avg_by_state_norm fs) ;;
         Ok (out (join_rows bf sanitation education unemployment))
     end)%result.
Proof.
  unfold build_long_rows. rewrite outcome_bind.
  destruct (outcome (load_bf_totals_by_state_norm fs)) as [[|e bf]|x];
    cbn [rbind]; try reflexivity.
  repeat (rewrite outcome_bind;
          match goal with
          | |- rbind ?r _ = rbind ?r _ => destruct r; cbn [rbind]; [|reflexivity]
          end).
  reflexivity.
Qed.

Lemma build_long_rows_no_baseline (fs : files) :
  outcome (load_bf_totals_by_state_norm fs) = Ok [] ->
  build_long_rows fs
  = (log (load_bf_totals_by_state_norm fs) ++ [ErrorNoTotals], Ok []).
Proof.
  intros E. rewrite (io_eta (build_long_rows fs)). f_equal.
  - unfold build_long_rows. rewrite (log_bind_ok _ _ _ E). reflexivity.
  - rewrite build_long_rows_outcome, E. reflexivity.
Qed.

End PipelineFacts.

(** C8. Whenever the baseline mapping is empty, and in particular when the
    baseline file is absent, the pipeline returns the empty list without
    raising, whatever the three metric sources hold (absent, unreadable or
    any JSON document): they are not even read, the log only carries the
    baseline loader's lines and the final error line. *)
Theorem empty_baseline_empty_output {RT : PyRuntime}
  (bf_src san_src edu_src unemp_src : source) :
  let fs := {| BF_FILE := bf_src; SAN_FILE := san_src;
               EDU_FILE := edu_src; UNEMP_FILE := unemp_src |} in
  bf_src = Missing \/ outcome (load_bf_totals_by_state_norm fs) = Ok [] ->
  outcome (load_bf_totals_by_state_norm fs) = Ok []
  /\ build_long_rows fs
     = (log (load_bf_totals_by_state_norm fs) ++ [ErrorNoTotals], Ok []).
Proof.
  intros fs H.
  assert (E : outcome (load_bf_totals_by_state_norm fs) = Ok []).
  { destruct H as [M | E]; [|exact E].
    rewrite (load_bf_missing fs M). reflexivity. }
  split; [exact E | apply build_long_rows_no_baseline; exact E].
Qed.

Lemma empty_baseline_empty_output_witness :
  (Missing = Missing
   \/ outcome (@load_bf_totals_by_state_norm Latin1
                 {| BF_FILE := Missing; SAN_FILE := Malformed;
                    EDU_FILE := Parsed (VInt 3); UNEMP_FILE := Missing |})
      = Ok [])
  /\ @build_long_rows Latin1
       {| BF_FILE := Missing; SAN_FILE := Malformed;
          EDU_FILE := Parsed (VInt 3); UNEMP_FILE := Missing |}
     = ([ErrorMissingFile BolsaFamilia; ErrorNoTotals], Ok []).
Proof.
  split; [left; reflexivity|].
  exact (proj2 (@empty_baseline_empty_output Latin1 Missing Malformed
                  (Parsed (VInt 3)) Missing (or_introl eq_refl))).
Defined.

(* ================================================================== *)
(** ** Loops that may raise *)

Lemma for_each_app {A B} (body : A -> B -> result A) (l1 l2 : list B) (a : A) :
  for_each body (l1 ++ l2) a = rbind (for_each body l1 a) (for_each body l2).
Proof.
  revert a; induction l1 as [|x l1 IH]; intros a; simpl; [reflexivity|].
  destruct (body a x); simpl; [apply IH | reflexivity].
Qed.

Lemma for_each_invariant {A B} (body : A -> B -> result A) (I : A -> Prop) :
  (forall a x a', I a -> body a x = Ok a' -> I a') ->
  forall l a a', I a -> for_each body l a = Ok a' -> I a'.
Proof.
  intros Hstep l; induction l as [|x l IH]; simpl; intros a a' Ia E.
  - injection E as <-; exact Ia.
  - destruct (body a x) as [a1|e] eqn:Hb; simpl in E; [|discriminate].
    exact (IH a1 a' (Hstep a x a1 Ia Hb) E).
Qed.

Lemma for_each_total {A B} (body : A -> B -> result A) (l : list B) :
  Forall (fun x => forall a, exists a', body a x = Ok a') l ->
  forall a, exists a', for_each body l a = Ok a'.
Proof.
  induction 1 as [|x l Hx _ IH]; intros a; simpl; [eexists; reflexivity|].
  destruct (Hx a) as [a1 ->]; simpl. apply IH.
Qed.

Lemma for_each_raises {A B} (body : A -> B -> result A) (P : exn -> Prop) :
  (forall a x e, body a x = Raise e -> P e) ->
  forall l a e, for_each body l a = Raise e -> P e.
Proof.
  intros Hstep l; induction l as [|x l IH]; simpl; intros a e E; [discriminate|].
  destruct (body a x) as [a1|e1] eqn:Hb; simpl in E.
  - exact (IH a1 e E).
  - injection E as <-. exact (Hstep a x e1 Hb).
Qed.

(* ================================================================== *)
(** ** The grouping structure of the unemployment loader *)

Lemma Forall_dict_set {K V} `{Key K} (Q : V -> Prop) (k : K) (v : V)
  (d : dict K V) :
  Forall (fun e => Q (snd e)) d -> Q v ->
  Forall (fun e => Q (snd e)) (dict_set k v d).
Proof.
  intros Hd Hv; induction Hd as [|[k' v'] d Hx Hd IH]; simpl.
  - constructor; [exact Hv | constructor].
  - destruct (key_eqb k k'); constructor; auto.
Qed.

Lemma Forall_dict_get {K V} `{Key K} (Q : V -> Prop) (k : K) (v : V)
  (d : dict K V) :
  Forall (fun e => Q (snd e)) d -> dict_get k d = Some v -> Q v.
Proof.
  induction 1 as [|[k' v'] d Hx Hd IH]; simpl; [discriminate|].
  destruct (key_eqb k k'); [intros [= <-]; exact Hx | exact IH].
Qed.

Lemma dict_set_not_nil {K V} `{Key K} (k : K) (v : V) (d : dict K V) :
  dict_set k v d <> [].
Proof. destruct d as [|[k' v'] d]; simpl; [|destruct (key_eqb k k')]; discriminate. Qed.

(** Every year of a state has at least one rate, and every state at least
    one year. *)
Definition years_nonempty (years_map : dict Z (list float)) : Prop :=
  years_map <> [] /\ Forall (fun ye => snd ye <> []) years_map.

Definition groups_nonempty (by_state_year : dict str (dict Z (list float)))
  : Prop :=
  Forall (fun e => years_nonempty (snd e)) by_state_year.

Lemma append_rate_nonempty key year rate by_state_year :
  groups_nonempty by_state_year ->
  groups_nonempty (append_rate key year rate by_state_year).
Proof.
  intros G. unfold append_rate, groups_nonempty.
  apply (Forall_dict_set years_nonempty); [exact G|].
  split; [apply dict_set_not_nil|].
  apply (Forall_dict_set (fun l : list float => l <> [])).
  - destruct (dict_get key by_state_year) as [m|] eqn:E; [|constructor].
    exact (proj2 (Forall_dict_get years_nonempty _ _ _ G E)).
  - destruct (dict_get year _); intros C;
      apply app_eq_nil in C; destruct C; discriminate.
Qed.

Lemma fold_max_In (l : list Z) (x : Z) : In (fold_left Z.max l x) (x :: l).
Proof.
  revert x; induction l as [|y l IH]; intros x; simpl; [left; reflexivity|].
  destruct (IH (Z.max x y)) as [E | I].
  - rewrite <- E. destruct (Z.max_spec x y) as [[_ ->] | [_ ->]]; auto.
  - right; right; exact I.
Qed.

Lemma mean_nonempty (x : float) (l : list float) :
  exists m, mean (x :: l) = Ok m.
Proof.
  unfold mean. destruct (forallb is_finite (x :: l)); eexists; reflexivity.
Qed.

Section UnemploymentFacts.
Context {RT : PyRuntime}.

Lemma int_of_str_raises (s : str) (e : exn) :
  int_of_str s = Raise e -> e = ValueError.
Proof.
  unfold int_of_str.
  destruct (drop_underscores false (trim (to_ascii s))) as [t|];
    [|intros [= <-]; reflexivity].
  destruct (read_sign t) as [sg body].
  destruct (span_digits body) as [[|d ds] [|c r]];
    try (intros [= <-]; reflexivity).
  destruct ((0 <? max_str_digits) && _); [intros [= <-]; reflexivity|discriminate].
Qed.

Lemma unemp_step_cases by_state_year r :
  unemp_step by_state_year r = Raise ValueError
  \/ unemp_step by_state_year r = Ok by_state_year
  \/ exists key year rate,
       unemp_step by_state_year r
       = Ok (append_rate key year rate by_state_year).
Proof.
  unfold unemp_step.
  destruct r as [| | | | |l|r]; auto.
  destruct (get (lit "City") r) as [| | | |st| |]; auto.
  destruct (get (lit "Quarter") r) as [| | | |q| |]; auto.
  destruct (_ || _); auto.
  destruct (int_of_str (prefix 4 q)) as [year|e] eqn:E; cbn [rbind].
  - destruct (as_float _) as [rate|]; auto.
    right; right; exists (_norm st), year, rate; reflexivity.
  - left. rewrite (int_of_str_raises _ _ E). reflexivity.
Qed.

Lemma grouping_nonempty rows by_state_year :
  for_each unemp_step rows [] = Ok by_state_year ->
  groups_nonempty by_state_year.
Proof.
  apply (for_each_invariant unemp_step groups_nonempty); [|constructor].
  intros a x a' Ia E.
  destruct (unemp_step_cases a x) as [R | [R | (k & y & v & R)]];
    rewrite R in E; [discriminate | injection E as <-; exact Ia |].
  injection E as <-. apply append_rate_nonempty; exact Ia.
Qed.

Lemma unemp_average_total entry :
  years_nonempty (snd entry) ->
  forall out, exists out', unemp_average out entry = Ok out'.
Proof.
  destruct entry as [st_key years_map]; simpl; intros [NE All] out.
  unfold unemp_average.
  destruct (dict_mem 2022 years_map && _) eqn:C.
  - apply andb_true_iff in C; destruct C as [_ C].
    unfold dict_item.
    destruct (dict_get 2022 years_map) as [[|x l]|]; try discriminate.
    cbn [rbind]. destruct (mean_nonempty x l) as [m ->].
    eexists; reflexivity.
  - destruct years_map as [|[y0 l0] ym]; [contradiction|].
    unfold py_max, keys. cbn [map fst rbind].
    pose proof (fold_max_In (map fst ym) y0) as I.
    change (y0 :: map fst ym) with (keys ((y0, l0) :: ym)) in I.
    destruct (dict_get_mem _ _ I) as [rates G].
    unfold dict_item. rewrite G. cbn [rbind].
    pose proof (Forall_dict_get (fun l : list float => l <> []) _ _ _ All G) as N.
    destruct rates as [|x l]; [contradiction|].
    destruct (mean_nonempty x l) as [m ->]. eexists; reflexivity.
Qed.

Lemma averaging_total by_state_year :
  groups_nonempty by_state_year ->
  exists out, for_each unemp_average by_state_year [] = Ok out.
Proof.
  intros G. apply for_each_total.
  eapply Forall_impl; [|exact G].
  intros e He. apply unemp_average_total; exact He.
Qed.

(** The outcome of the loader, from the two loops. *)
Lemma load_unemployment_outcome fs :
  outcome (load_unemployment_2022_avg_by_state_norm fs)
  = match UNEMP_FILE fs with
    | Missing => Ok []
    | Malformed => Raise JSONDecodeError
    | Unreadable w => Raise (raised w)
    | Parsed (VList rows) =>
        (by_state_year <- for_each unemp_step rows [] ;;
         for_each unemp_average by_state_year [])%result
    | Parsed _ => Ok []
    end.
Proof.
  unfold load_unemployment_2022_avg_by_state_norm.
  destruct (UNEMP_FILE fs) as [| |w|v]; try reflexivity.
  destruct v as [| | | | |rows|]; try reflexivity.
  cbn [file_exists negb read_json].
  unfold outcome, lift, bind, print, ret.
  destruct (for_each unemp_step rows []) as [g|e]; cbn; [|reflexivity].
  destruct (for_each unemp_average g []); reflexivity.
Qed.

Lemma load_unemployment_raises fs e :
  outcome (load_unemployment_2022_avg_by_state_norm fs) = Raise e ->
  e = JSONDecodeError \/ e = ValueError \/ exists w, e = raised w.
Proof.
  rewrite load_unemployment_outcome.
  destruct (UNEMP_FILE fs) as [| |w|v]; try discriminate.
  - intros [= <-]; auto.
  - intros [= <-]. right; right. exists w; reflexivity.
  - destruct v as [| | | | |rows|]; try discriminate.
    destruct (for_each unemp_step rows []) as [g|e1] eqn:G; cbn [rbind].
    + destruct (averaging_total g (grouping_nonempty _ _ G)) as [o ->].
      discriminate.
    + intros [= <-]. right; left.
      revert G. apply (for_each_raises unemp_step (fun e => e = ValueError)).
      intros a x e2 R.
      destruct (unemp_step_cases a x) as [R' | [R' | (k & y & v & R')]];
        rewrite R' in R; congruence.
Qed.

End UnemploymentFacts.

(** C10. In the unemployment loader, whatever the input rows, every state
    of the grouping structure has at least one year and every (state,
    year) list at least one rate; hence every [mean] is taken over a
    non-empty list and every [max] over a non-empty set of years, the
    averaging loop completes, and the loader never raises the
    mean-of-empty-sequence error. *)
Theorem unemployment_groups_nonempty {RT : PyRuntime} :
  (forall (rows : list value) by_state_year,
      for_each unemp_step rows [] = Ok by_state_year ->
      Forall (fun e => snd e <> []
                       /\ Forall (fun ye => snd ye <> []) (snd e))
        by_state_year
      /\ exists out, for_each unemp_average by_state_year [] = Ok out)
  /\ (forall fs : files,
         outcome (load_unemployment_2022_avg_by_state_norm fs)
         <> Raise StatisticsError).
Proof.
  split.
  - intros rows g G. pose proof (grouping_nonempty rows g G) as N.
    split; [exact N | apply averaging_total; exact N].
  - intros fs C.
    destruct (load_unemployment_raises fs _ C) as [H | [H | [w H]]];
      try discriminate.
    destruct w; discriminate.
Qed.

Lemma unemployment_groups_nonempty_witness :
  let groups :=
    [ (lit "bahia", [(2022, [flt "9.0"; flt "11.0"])]);
      (lit "acre", [(2021, [flt "6.0"])]) ] in
  @for_each _ _ (@unemp_step Latin1) unemployment_sample [] = Ok groups
  /\ Forall (fun e => snd e <> []
                      /\ Forall (fun ye => snd ye <> []) (snd e)) groups
  /\ exists out, for_each unemp_average groups [] = Ok out.
Proof.
  intros groups.
  assert (E : @for_each _ _ (@unemp_step Latin1) unemployment_sample []
              = Ok groups) by (vm_compute; reflexivity).
  split; [exact E|].
  exact (proj1 (@unemployment_groups_nonempty Latin1)
           unemployment_sample groups E).
Defined.

(* ================================================================== *)
(** ** The education loader *)

Lemma fold_max_ge (l : list Z) (x : Z) :
  x <= fold_left Z.max l x /\ Forall (fun y => y <= fold_left Z.max l x) l.
Proof.
  revert x; induction l as [|y l IH]; intros x; simpl.
  - split; [lia | constructor].
  - destruct (IH (Z.max x y)) as [A B]. split; [lia|].
    constructor; [lia | exact B].
Qed.

Lemma fold_max_app (l1 l2 : list Z) (x : Z) :
  fold_left Z.max (l1 ++ l2) x = fold_left Z.max l2 (fold_left Z.max l1 x).
Proof. apply fold_left_app. Qed.

Lemma find_app {A} (f : A -> bool) (l1 l2 : list A) :
  find f (l1 ++ l2)
  = match find f l1 with Some x => Some x | None => find f l2 end.
Proof.
  induction l1 as [|x l1 IH]; simpl; [reflexivity|].
  destruct (f x); [reflexivity | exact IH].
Qed.

Lemma find_none_iff {A} (f : A -> bool) (l : list A) :
  Forall (fun x => f x = false) l -> find f l = None.
Proof.
  induction 1 as [|x l Hx _ IH]; simpl; [reflexivity|].
  rewrite Hx; exact IH.
Qed.

Lemma find_some_In {A} (f : A -> bool) (l : list A) :
  (exists x, In x l /\ f x = true) -> exists y, find f l = Some y /\ f y = true.
Proof.
  induction l as [|x l IH]; simpl; intros (y & I & F); [contradiction|].
  destruct (f x) eqn:E; [exists x; auto|].
  destruct I as [->|I]; [congruence|]. apply IH; exists y; auto.
Qed.

(** The largest year of a non-empty list of candidates is carried by the
    candidate [spec_latest] returns. *)
Lemma spec_latest_top (c : Z * float) (cs : list (Z * float)) :
  exists p, spec_latest (c :: cs) = Some p
            /\ fst p = fold_left Z.max (map fst cs) (fst c).
Proof.
  unfold spec_latest. set (top := fold_left Z.max (map fst cs) (fst c)).
  destruct (find_some_In (fun c0 => fst c0 =? top) (c :: cs)) as (p & F & E).
  - pose proof (fold_max_In (map fst cs) (fst c)) as I. fold top in I.
    change (fst c :: map fst cs) with (map fst (c :: cs)) in I.
    apply in_map_iff in I. destruct I as (x & Ex & Ix).
    exists x; split; [exact Ix | apply Z.eqb_eq; exact Ex].
  - exists p; split; [exact F | apply Z.eqb_eq; exact E].
Qed.

(** Appending one candidate: it replaces the retained one exactly when
    its year is strictly greater. *)
Lemma spec_latest_snoc (cands : list (Z * float)) (c : Z * float) :
  spec_latest (cands ++ [c])
  = match spec_latest cands with
    | None => Some c
    | Some p => if fst p <? fst c then Some c else Some p
    end.
Proof.
  destruct cands as [|c0 cs].
  - simpl. rewrite Z.eqb_refl. reflexivity.
  - destruct (spec_latest_top c0 cs) as (p & F & Ep). rewrite F.
    unfold spec_latest in F.
    set (top := fold_left Z.max (map fst cs) (fst c0)) in *.
    change ((c0 :: cs) ++ [c]) with (c0 :: (cs ++ [c])).
    unfold spec_latest. rewrite map_app, fold_max_app. fold top.
    cbn [map fold_left].
    change (c0 :: cs ++ [c]) with ((c0 :: cs) ++ [c]). rewrite find_app.
    destruct (fold_max_ge (map fst cs) (fst c0)) as [G0 G]. fold top in G0, G.
    destruct (fst p <? fst c) eqn:L.
    + apply Z.ltb_lt in L.
      assert (M : Z.max top (fst c) = fst c) by lia. rewrite M.
      rewrite find_none_iff.
      * simpl. rewrite Z.eqb_refl. reflexivity.
      * constructor; [apply Z.eqb_neq; lia|].
        rewrite Forall_forall in G. apply Forall_forall. intros x Ix.
        apply Z.eqb_neq. assert (fst x <= top) by (apply G, in_map, Ix). lia.
    + apply Z.ltb_ge in L.
      assert (M : Z.max top (fst c) = top) by lia. rewrite M, F. reflexivity.
Qed.

Lemma dict_get_map_values {K V W} `{Key K} (f : V -> W) (k : K) (d : dict K V) :
  dict_get k (map (fun kv => (fst kv, f (snd kv))) d)
  = option_map f (dict_get k d).
Proof.
  induction d as [|[k' v] d IH]; simpl; [reflexivity|].
  destruct (key_eqb k k'); [reflexivity | exact IH].
Qed.

Section EducationFacts.
Context {RT : PyRuntime}.

Lemma edu_step_record best r :
  edu_step best r
  = match edu_record r with
    | None => best
    | Some (key, (y, ys)) =>
        match dict_get key best with
        | None => dict_set key (y, ys) best
        | Some prev =>
            if fst prev <? y then dict_set key (y, ys) best else best
        end
    end.
Proof.
  unfold edu_step, edu_record.
  destruct r as [| | | | | |r]; try reflexivity.
  destruct (get (lit "State") r); try reflexivity.
  destruct (py_int _); try reflexivity.
  destruct (as_float _); reflexivity.
Qed.

Lemma edu_records_snoc rows r :
  edu_records (rows ++ [r])
  = edu_records rows
    ++ match edu_record r with Some x => [x] | None => [] end.
Proof.
  unfold edu_records. rewrite flat_map_app. simpl.
  rewrite app_nil_r. reflexivity.
Qed.

(** After any number of iterations, [best] holds for every key the first
    record of the largest year seen so far. *)
Lemma edu_fold_spec rows key :
  dict_get key (fold_left edu_step rows [])
  = spec_latest
      (map snd (filter (fun r => str_eqb (fst r) key) (edu_records rows))).
Proof.
  induction rows as [|r rows IH] using rev_ind; [reflexivity|].
  rewrite fold_left_app, edu_records_snoc, filter_app, map_app.
  cbn [fold_left]. rewrite edu_step_record.
  set (best := fold_left edu_step rows []) in *.
  destruct (edu_record r) as [[k0 [y ys]]|]; cbn [filter map].
  2: { rewrite app_nil_r. exact IH. }
  cbn [fst]. destruct (str_eqb k0 key) eqn:E.
  - apply str_eqb_eq in E; subst k0. cbn [map snd].
    rewrite spec_latest_snoc, <- IH. cbn [fst].
    destruct (dict_get key best) as [prev|] eqn:G.
    + destruct (fst prev <? y); [apply dict_get_set_same | exact G].
    + apply dict_get_set_same.
  - apply str_eqb_neq in E. cbn [map]. rewrite app_nil_r, <- IH.
    destruct (dict_get k0 best) as [prev|];
      [destruct (fst prev <? y)|]; try reflexivity;
      apply dict_get_set_other; exact E.
Qed.

Lemma load_education_outcome fs :
  outcome (load_education_latest_by_state_norm fs)
  = match EDU_FILE fs with
    | Missing => Ok []
    | Malformed => Raise JSONDecodeError
    | Unreadable w => Raise (raised w)
    | Parsed (VList rows) =>
        Ok (map (fun kv => (fst kv, snd (snd kv)))
              (fold_left edu_step rows []))
    | Parsed _ => Ok []
    end.
Proof.
  unfold load_education_latest_by_state_norm.
  destruct (EDU_FILE fs) as [| |w|v]; try reflexivity.
  destruct v; reflexivity.
Qed.

End EducationFacts.

(** C3. For every list of education rows, the loader returns a mapping
    that holds, for each normalised state key, the schooling value of the
    record with the largest year among the records that pass the checks;
    when several records of a key share that largest year the first one in
    input order stands, since a record replaces the retained one only when
    its year is strictly greater. Bahia at 2019 (7.1) and 2021 (7.9)
    yields 7.9; a later Bahia record of the same year 2021 (8.5) does not
    replace 7.9. *)
Theorem education_latest_year_wins :
  (forall (RT : PyRuntime) (bf_src san_src unemp_src : source)
          (rows : list value),
      exists out,
        outcome (load_education_latest_by_state_norm
                   {| BF_FILE := bf_src; SAN_FILE := san_src;
                      EDU_FILE := Parsed (VList rows);
                      UNEMP_FILE := unemp_src |}) = Ok out
        /\ forall key,
             dict_get key out = spec_education (edu_records rows) key)
  /\ outcome (@load_education_latest_by_state_norm Latin1
                (only_edu (VList education_sample)))
     = Ok [(lit "bahia", flt "7.9")]
  /\ outcome (@load_education_latest_by_state_norm Latin1
                (only_edu (VList education_tie_sample)))
     = Ok [(lit "bahia", flt "7.9")].
Proof.
  split; [|split; vm_compute; reflexivity].
  intros RT b s u rows. eexists. split.
  - rewrite load_education_outcome. reflexivity.
  - intros key. unfold spec_education.
    rewrite <- edu_fold_spec. apply (dict_get_map_values snd).
Qed.

(* ================================================================== *)
(** ** The numeric coercer *)

(** C5. The coercer maps [None] and strings that are empty once stripped
    to no value, an [int], [float] or [bool] to its direct [float]
    conversion, and any other string to the float parse of the stripped
    string with every percent sign removed and every comma replaced by a
    full stop (no value when that conversion or parse fails). "8,4"
    gives the float nearest 8.4, "83%" gives 83.0, " 12.3 " the float
    nearest 12.3; "", [None] and "abc" give no value. *)
Theorem as_float_spec :
  (forall RT : PyRuntime,
      as_float VNone = None
      /\ (forall n, as_float (VInt n) = to_option (float_of_int n))
      /\ (forall f, as_float (VFloat f) = Some f)
      /\ (forall b, as_float (VBool b) = Some (if b then fone else fzero))
      /\ (forall s,
             as_float (VStr s)
             = if str_eqb (strip s) (lit "") then None
               else to_option
                      (float_of_str
                         (replace 0x2C (lit ".")
                            (replace 0x25 (lit "") (strip s))))))
  /\ (let f8_4 := S754_finite false 4728779608739021 (-49) in
      let f83 := S754_finite false 5840605766746112 (-46) in
      let f12_3 := S754_finite false 6924284427082138 (-49) in
      @as_float Latin1 (VS "8,4") = Some f8_4
      /\ is_rounding_of f8_4 (84 # 10)
      /\ @as_float Latin1 (VS "83%") = Some f83
      /\ option_map Qred (exact_ratio f83) = Some (83 # 1)
      /\ @as_float Latin1 (VS " 12.3 ") = Some f12_3
      /\ is_rounding_of f12_3 (123 # 10)
      /\ @as_float Latin1 (VS "") = None
      /\ @as_float Latin1 VNone = None
      /\ @as_float Latin1 (VS "abc") = None).
Proof.
  split.
  - intros RT. split; [reflexivity|]. split; [|split; [|split]].
    + intros n. unfold as_float, as_float_try, py_float.
      destruct (float_of_int n); reflexivity.
    + reflexivity.
    + intros [|]; reflexivity.
    + intros s. unfold as_float, as_float_try.
      destruct (str_eqb (strip s) (lit "")); [reflexivity|].
      destruct (float_of_str _); reflexivity.
  - cbv zeta.
    repeat match goal with |- _ /\ _ => split end;
      try (vm_compute; reflexivity); vm_compute; discriminate.
Qed.

Section CoercerFacts.
Context {RT : PyRuntime}.

Lemma get_absent (k : str) (r : dict str value) :
  dict_mem k r = false -> get k r = VNone.
Proof. unfold dict_mem, get. destruct (dict_get k r); [discriminate | reflexivity]. Qed.

Lemma san_step_no_value out r :
  as_float (get (lit "Sanitation_Access") r) = None ->
  san_step out (VDict r) = out.
Proof.
  intros E. unfold san_step. rewrite E.
  destruct (get (lit "State") r); reflexivity.
Qed.

Lemma edu_step_no_value best r :
  as_float (get (lit "Years_Schooling") r) = None ->
  edu_step best (VDict r) = best.
Proof.
  intros E. unfold edu_step. rewrite E.
  destruct (get (lit "State") r); try reflexivity.
  destruct (py_int _); reflexivity.
Qed.

Lemma unemp_step_no_value g r g' :
  as_float (get (lit "Unemployment_Rate") r) = None ->
  unemp_step g (VDict r) = Ok g' -> g' = g.
Proof.
  intros E. unfold unemp_step. rewrite E.
  destruct (get (lit "City") r); try (intros [= <-]; reflexivity).
  destruct (get (lit "Quarter") r); try (intros [= <-]; reflexivity).
  destruct (_ || _); [intros [= <-]; reflexivity|].
  destruct (int_of_str _); cbn [rbind]; [intros [= <-]; reflexivity|discriminate].
Qed.

(** The alias loop reads the first alias the record has, and only it. *)
Lemma probe_total_first (ks : list str) (r : dict str value) :
  probe_total ks r
  = match find (fun k => dict_mem k r) ks with
    | Some k => as_float (get k r)
    | None => None
    end.
Proof.
  induction ks as [|k ks IH]; simpl; [reflexivity|].
  destruct (dict_mem k r); [reflexivity | exact IH].
Qed.

Lemma bf_step_no_value out r :
  probe_total TOTAL_KEYS r = None -> bf_step out (VDict r) = out.
Proof.
  intros E. unfold bf_step. rewrite E.
  destruct (or_else _ _); try reflexivity.
  destruct (negb _); reflexivity.
Qed.

End CoercerFacts.

(** C6. The coercer is a total function into an optional float: whatever
    the input, it returns the value of its [try] block, or no value when
    that block raises (a string that does not parse, a list or an object,
    an integer too large for a float). A field that is absent coerces to
    no value as well, and every loader skips a record whose numeric field
    coerces to no value, for whichever of the two reasons; in the baseline
    loader the total is no value both when no alias is present and when
    the first alias present does not coerce. *)
Theorem as_float_never_raises {RT : PyRuntime} :
  (forall x, as_float x = match as_float_try x with
                          | Ok v => v
                          | Raise _ => None
                          end)
  /\ (forall x e, as_float_try x = Raise e -> as_float x = None)
  /\ (forall l, as_float (VList l) = None)
  /\ (forall d, as_float (VDict d) = None)
  /\ (forall k r, dict_mem k r = false -> as_float (get k r) = None)
  /\ (forall out r,
         as_float (get (lit "Sanitation_Access") r) = None ->
         san_step out (VDict r) = out)
  /\ (forall best r,
         as_float (get (lit "Years_Schooling") r) = None ->
         edu_step best (VDict r) = best)
  /\ (forall g r g',
         as_float (get (lit "Unemployment_Rate") r) = None ->
         unemp_step g (VDict r) = Ok g' -> g' = g)
  /\ (forall out r,
         probe_total TOTAL_KEYS r = None -> bf_step out (VDict r) = out)
  /\ (forall r,
         find (fun k => dict_mem k r) TOTAL_KEYS = None ->
         probe_total TOTAL_KEYS r = None)
  /\ (forall r k,
         find (fun k => dict_mem k r) TOTAL_KEYS = Some k ->
         as_float (get k r) = None ->
         probe_total TOTAL_KEYS r = None).
Proof.
  split; [reflexivity|].
  split; [intros x e E; unfold as_float; rewrite E; reflexivity|].
  split; [reflexivity|]. split; [reflexivity|].
  split; [intros k r E; rewrite (get_absent k r E); reflexivity|].
  split; [exact san_step_no_value|]. split; [exact edu_step_no_value|].
  split; [exact unemp_step_no_value|]. split; [exact bf_step_no_value|].
  split.
  - intros r F. rewrite probe_total_first, F. reflexivity.
  - intros r k F N. rewrite probe_total_first, F. exact N.
Qed.

Lemma as_float_never_raises_witness :
  (@as_float_try Latin1 (VS "abc") = Raise ValueError
   /\ @as_float Latin1 (VS "abc") = None)
  /\ (dict_mem (lit "Year") malformed_sanitation_row = false
      /\ @as_float Latin1 (get (lit "Year") malformed_sanitation_row) = None)
  /\ (@as_float Latin1
        (get (lit "Sanitation_Access") malformed_sanitation_row) = None
      /\ @san_step Latin1 [] (VDict malformed_sanitation_row) = [])
  /\ (@as_float Latin1
        (get (lit "Years_Schooling") malformed_education_row) = None
      /\ @edu_step Latin1 [] (VDict malformed_education_row) = [])
  /\ (@as_float Latin1
        (get (lit "Unemployment_Rate") malformed_unemployment_row) = None
      /\ @unemp_step Latin1 [] (VDict malformed_unemployment_row) = Ok []
      /\ @nil (str * dict Z (list float)) = [])
  /\ (@probe_total Latin1 TOTAL_KEYS malformed_baseline_row = None
      /\ @bf_step Latin1 [] (VDict malformed_baseline_row) = [])
  /\ (find (fun k => dict_mem k malformed_baseline_row) TOTAL_KEYS
      = Some (lit "total")
      /\ @as_float Latin1 (get (lit "total") malformed_baseline_row) = None
      /\ @probe_total Latin1 TOTAL_KEYS malformed_baseline_row = None).
Proof.
  pose proof (@as_float_never_raises Latin1)
    as (_ & H1 & _ & _ & H2 & H3 & H4 & H5 & H6 & _ & H7).
  assert (E1 : @as_float_try Latin1 (VS "abc") = Raise ValueError)
    by (vm_compute; reflexivity).
  assert (E2 : dict_mem (lit "Year") malformed_sanitation_row = false)
    by (vm_compute; reflexivity).
  assert (E3 : @as_float Latin1
                 (get (lit "Sanitation_Access") malformed_sanitation_row)
               = None) by (vm_compute; reflexivity).
  assert (E4 : @as_float Latin1
                 (get (lit "Years_Schooling") malformed_education_row)
               = None) by (vm_compute; reflexivity).
  assert (E5 : @as_float Latin1
                 (get (lit "Unemployment_Rate") malformed_unemployment_row)
               = None) by (vm_compute; reflexivity).
  assert (E5' : @unemp_step Latin1 [] (VDict malformed_unemployment_row)
                = Ok []) by (vm_compute; reflexivity).
  assert (E6 : @probe_total Latin1 TOTAL_KEYS malformed_baseline_row = None)
    by (vm_compute; reflexivity).
  split; [split; [exact E1 | exact (H1 _ _ E1)]|].
  split; [split; [exact E2 | exact (H2 _ _ E2)]|].
  split; [split; [exact E3 | exact (H3 [] _ E3)]|].
  split; [split; [exact E4 | exact (H4 [] _ E4)]|].
  split; [split; [exact E5 | split; [exact E5' | exact (H5 [] _ [] E5 E5')]]|].
  assert (E7 : find (fun k => dict_mem k malformed_baseline_row) TOTAL_KEYS
               = Some (lit "total")) by (vm_compute; reflexivity).
  assert (E8 : @as_float Latin1 (get (lit "total") malformed_baseline_row)
               = None) by (vm_compute; reflexivity).
  split; [split; [exact E6 | exact (H6 [] _ E6)]|].
  split; [exact E7 | split; [exact E8 | exact (H7 _ _ E7 E8)]].
Defined.

(* ================================================================== *)
(** ** The baseline loader *)

Lemma UF_TO_STATE_names (uf state : str) :
  dict_get uf UF_TO_STATE = Some state -> str_eqb state (lit "") = false.
Proof.
  apply (Forall_dict_get (fun name => str_eqb name (lit "") = false)).
  unfold UF_TO_STATE. repeat constructor.
Qed.

Section BaselineFacts.
Context {RT : PyRuntime}.

Lemma bf_step_spec out r uf :
  or_else (get (lit "UF") r) (get (lit "uf") r) = VStr uf ->
  List.length (strip uf) = 2%nat ->
  bf_step out (VDict r)
  = match probe_total TOTAL_KEYS r,
          dict_get (upper (strip uf)) UF_TO_STATE with
    | Some total, Some state =>
        dict_set (_norm state)
          {| State := state; UF := upper (strip uf); bf_total := total |} out
    | _, _ => out
    end.
Proof.
  intros E L. unfold bf_step. rewrite E, L. cbn [Nat.eqb negb].
  destruct (probe_total TOTAL_KEYS r); [|reflexivity].
  destruct (dict_get _ UF_TO_STATE) as [state|] eqn:G; [|reflexivity].
  rewrite (UF_TO_STATE_names _ _ G). reflexivity.
Qed.

End BaselineFacts.

(** C4, as the claim reads: a record with a well-formed code would be kept
    as soon as some alias holds a coercible value. It is not: the record
    BA with total_pago_2021 = "abc" and total = 5 has a coercible value
    under the alias total, and the record ZZ has a coercible total, yet
    the loop skips both. *)
Lemma some_alias_coercible_yet_skipped :
  (or_else (get (lit "UF") shadowed_total_row)
     (get (lit "uf") shadowed_total_row) = VS "BA"
   /\ List.length (@strip Latin1 (lit "BA")) = 2%nat
   /\ (exists k f, In k TOTAL_KEYS
                   /\ dict_mem k shadowed_total_row = true
                   /\ @as_float Latin1 (get k shadowed_total_row) = Some f)
   /\ @bf_step Latin1 [] (VDict shadowed_total_row) = []
   /\ outcome (@load_bf_totals_by_state_norm Latin1
                 (only_bf (VList [VDict shadowed_total_row]))) = Ok [])
  /\ (or_else (get (lit "UF") unknown_code_row)
        (get (lit "uf") unknown_code_row) = VS "ZZ"
      /\ List.length (@strip Latin1 (lit "ZZ")) = 2%nat
      /\ (exists f, @probe_total Latin1 TOTAL_KEYS unknown_code_row = Some f)
      /\ @bf_step Latin1 [] (VDict unknown_code_row) = []).
Proof.
  split.
  - split; [reflexivity|]. split; [reflexivity|]. split.
    + exists (lit "total"). eexists.
      split; [right; right; right; right; left; reflexivity|].
      split; vm_compute; reflexivity.
    + split; vm_compute; reflexivity.
  - split; [reflexivity|]. split; [reflexivity|]. split.
    + eexists. vm_compute. reflexivity.
    + vm_compute. reflexivity.
Qed.

(** C4, amended. For every baseline record with a well-formed
    two-character code, the total is the coercion of the value under the
    first alias of total_pago_2021, total_paid_2021, total_paid,
    total_pago, total that the record has, and no later alias is
    consulted; the record is kept, under the key of its state name,
    exactly when that coercion yields a value and the upper-cased code is
    in the static table, and is skipped otherwise. *)
Theorem baseline_total_first_present {RT : PyRuntime}
  (out : dict str BaselineRecord) (r : dict str value) (uf : str) :
  or_else (get (lit "UF") r) (get (lit "uf") r) = VStr uf ->
  List.length (strip uf) = 2%nat ->
  probe_total TOTAL_KEYS r
  = match find (fun k => dict_mem k r)
            [lit "total_pago_2021"; lit "total_paid_2021"; lit "total_paid";
             lit "total_pago"; lit "total"] with
    | Some k => as_float (get k r)
    | None => None
    end
  /\ bf_step out (VDict r)
     = match probe_total TOTAL_KEYS r,
             dict_get (upper (strip uf)) UF_TO_STATE with
       | Some total, Some state =>
           dict_set (_norm state)
             {| State := state; UF := upper (strip uf); bf_total := total |}
             out
       | _, _ => out
       end.
Proof.
  intros E L. split; [apply probe_total_first | apply bf_step_spec; assumption].
Qed.

Lemma baseline_total_first_present_witness :
  (or_else (get (lit "UF") sao_paulo_row) (get (lit "uf") sao_paulo_row)
   = VS " sp "
   /\ List.length (@strip Latin1 (lit " sp ")) = 2%nat)
  /\ @probe_total Latin1 TOTAL_KEYS sao_paulo_row = Some (flt "1234.5")
  /\ @bf_step Latin1 [] (VDict sao_paulo_row)
     = [(lit "sao paulo",
         {| State := lit "São Paulo"; UF := lit "SP";
            bf_total := flt "1234.5" |})].
Proof.
  assert (E : or_else (get (lit "UF") sao_paulo_row)
                (get (lit "uf") sao_paulo_row) = VStr (lit " sp "))
    by reflexivity.
  assert (L : List.length (@strip Latin1 (lit " sp ")) = 2%nat)
    by reflexivity.
  split; [split; [exact E | exact L]|].
  destruct (@baseline_total_first_present Latin1 [] sao_paulo_row
              (lit " sp ") E L) as [P B].
  split.
  - rewrite P. vm_compute. reflexivity.
  - rewrite B. vm_compute. reflexivity.
Defined.

(* ================================================================== *)
(** ** Agreement with the Latin-1 tables *)

Lemma check_range (P : Z -> bool) (n : nat) :
  forallb (fun i => P (Z.of_nat i)) (seq 0 n) = true ->
  forall c, 0 <= c < Z.of_nat n -> P c = true.
Proof.
  intros F c Hc. rewrite forallb_forall in F.
  rewrite <- (Z2Nat.id c) by lia. apply F, in_seq. lia.
Qed.

Lemma latin1_tabulated (c : Z) : latin1_cp c = true -> tabulated c = true.
Proof. unfold tabulated. intros ->. reflexivity. Qed.

Lemma latin1_str_tabulated (s : str) : latin1_str s -> tabulated_str s.
Proof. apply Forall_impl, latin1_tabulated. Qed.

Lemma latin1_cp_range (c : Z) : latin1_cp c = true <-> 0 <= c < 256.
Proof. unfold latin1_cp. rewrite andb_true_iff, Z.leb_le, Z.ltb_lt. lia. Qed.

Lemma tolower_latin1 (c : Z) :
  latin1_cp c = true -> latin1_str (Latin.tolower c).
Proof.
  intros H. apply latin1_cp_range in H.
  assert (F : forallb (fun i => forallb latin1_cp (Latin.tolower (Z.of_nat i))) (seq 0 256)
              = true) by (vm_compute; reflexivity).
  pose proof (check_range (fun c => forallb latin1_cp (Latin.tolower c)) 256 F c H) as G.
  cbv beta in G. rewrite forallb_forall in G.
  apply Forall_forall. exact G.
Qed.

Lemma compat_tabulated (c : Z) :
  latin1_cp c = true -> tabulated_str (Latin.compat c).
Proof.
  intros H. apply latin1_cp_range in H.
  assert (F : forallb (fun i => forallb tabulated (Latin.compat (Z.of_nat i))) (seq 0 256)
              = true) by (vm_compute; reflexivity).
  pose proof (check_range (fun c => forallb tabulated (Latin.compat c)) 256 F c H) as G.
  cbv beta in G. rewrite forallb_forall in G.
  apply Forall_forall. exact G.
Qed.

Lemma Forall_flat_map {A B} (P : A -> Prop) (Q : B -> Prop) (f : A -> list B)
  (l : list A) :
  (forall x, P x -> Forall Q (f x)) -> Forall P l -> Forall Q (flat_map f l).
Proof.
  intros Hf; induction 1 as [|x l Hx _ IH]; simpl; [constructor|].
  apply Forall_app; split; [apply Hf; exact Hx | exact IH].
Qed.

Lemma insert_mark_Forall (P : Z -> Prop) (m : Z) (run : str) :
  P m -> Forall P run -> Forall P (Latin.insert_mark m run).
Proof.
  intros Hm; induction 1 as [|x r Hx Hr IH]; simpl.
  - constructor; [exact Hm | constructor].
  - destruct (Latin.ccc m <? Latin.ccc x); repeat constructor; auto.
Qed.

Lemma reorder_Forall (P : Z -> Prop) (s run : str) :
  Forall P run -> Forall P s -> Forall P (Latin.reorder run s).
Proof.
  intros Hr Hs; revert run Hr; induction Hs as [|c s Hc _ IH]; intros run Hr;
    simpl; [exact Hr|].
  destruct (Latin.ccc c =? 0).
  - apply Forall_app; split; [exact Hr|].
    constructor; [exact Hc | apply IH; constructor].
  - apply IH, insert_mark_Forall; assumption.
Qed.

Lemma replace_Forall (P : Z -> Prop) (old : Z) (new s : str) :
  Forall P new -> Forall P s -> Forall P (replace old new s).
Proof.
  intros Hn. unfold replace. apply Forall_flat_map.
  intros x Hx. destruct (x =? old); [exact Hn | constructor; [exact Hx | constructor]].
Qed.

Lemma lstrip_Forall {RT : PyRuntime} (P : Z -> Prop) (s : str) : Forall P s -> Forall P (lstrip s).
Proof.
  induction 1 as [|c s Hc Hs IH]; simpl; [constructor|].
  destruct (isspace_cp c); [exact IH | constructor; assumption].
Qed.

Lemma strip_Forall {RT : PyRuntime} (P : Z -> Prop) (s : str) : Forall P s -> Forall P (strip s).
Proof.
  intros H. unfold strip, rstrip.
  apply Forall_rev, lstrip_Forall, Forall_rev, lstrip_Forall, H.
Qed.

Section Agreement.
Context {RT : PyRuntime}.
Hypothesis E : extends_Latin1 RT.

Lemma lstrip_ext (s : str) :
  tabulated_str s -> @lstrip RT s = @lstrip Latin1 s.
Proof.
  induction 1 as [|c s Hc Hs IH]; simpl; [reflexivity|].
  rewrite (ext_isspace RT E c Hc). cbn [isspace_cp Latin1].
  destruct (Latin.isspace c); [exact IH | reflexivity].
Qed.

Lemma strip_ext (s : str) :
  tabulated_str s -> @strip RT s = @strip Latin1 s.
Proof.
  intros H. unfold strip, rstrip.
  rewrite (lstrip_ext s H). f_equal.
  apply lstrip_ext, Forall_rev, lstrip_Forall, H.
Qed.

Lemma unmark_ext (s : str) :
  tabulated_str s -> @unmark RT s = @unmark Latin1 s.
Proof.
  intros H. unfold unmark. apply filter_ext_in.
  intros c Ic. unfold tabulated_str in H. rewrite Forall_forall in H.
  rewrite (ext_combining RT E c (H c Ic)). reflexivity.
Qed.

Lemma split_from_ext (s w : str) :
  tabulated_str s -> @split_from RT w s = @split_from Latin1 w s.
Proof.
  intros H; revert w; induction H as [|c s Hc Hs IH]; intros w; simpl;
    [reflexivity|].
  rewrite (ext_isspace RT E c Hc). cbn [isspace_cp Latin1].
  rewrite !IH. reflexivity.
Qed.

(** On Latin-1 strings the normaliser of such a runtime is the one the
    tables compute. *)
Lemma norm_ext (s : str) :
  latin1_str s -> @_norm RT s = @_norm Latin1 s.
Proof.
  intros H. unfold _norm.
  pose proof (latin1_str_tabulated s H) as T.
  rewrite (strip_ext s T).
  assert (H1 : latin1_str (@strip Latin1 s)) by (apply strip_Forall, H).
  rewrite (ext_lower RT E _ H1).
  assert (H2 : latin1_str (flat_map Latin.tolower (@strip Latin1 s)))
    by (apply (Forall_flat_map _ _ _ _ tolower_latin1 H1)).
  rewrite (ext_nfkd RT E _ H2).
  assert (H3 : tabulated_str
                 (Latin.normalize Latin.compat
                    (flat_map Latin.tolower (@strip Latin1 s)))).
  { apply reorder_Forall; [constructor|].
    apply (Forall_flat_map _ _ _ _ compat_tabulated H2). }
  rewrite (unmark_ext _ H3).
  assert (H4 : tabulated_str
                 (replace 0x2D (lit " ")
                    (@unmark Latin1
                       (Latin.normalize Latin.compat
                          (flat_map Latin.tolower (@strip Latin1 s)))))).
  { apply replace_Forall; [repeat constructor|].
    apply Forall_forall. intros c Ic. apply filter_In in Ic.
    unfold tabulated_str in H3. rewrite Forall_forall in H3. apply H3, Ic. }
  unfold split. rewrite (split_from_ext _ _ H4). reflexivity.
Qed.

Lemma STATE_TO_UF_ext : @STATE_TO_UF RT = @STATE_TO_UF Latin1.
Proof.
  unfold STATE_TO_UF.
  assert (A : Forall (fun kv => latin1_str (snd kv)) UF_TO_STATE).
  { apply Forall_forall. intros kv I.
    apply Forall_forall. intros c Ic.
    assert (F : forallb (fun kv => forallb latin1_cp (snd kv)) UF_TO_STATE
                = true) by (vm_compute; reflexivity).
    rewrite forallb_forall in F. specialize (F kv I).
    rewrite forallb_forall in F. exact (F c Ic). }
  generalize (@nil (str * str)). revert A.
  induction UF_TO_STATE as [|kv l IH]; intros A d; [reflexivity|].
  cbn [fold_left]. inversion A as [|? ? Hk Hl]; subst.
  rewrite (norm_ext _ Hk). apply IH; exact Hl.
Qed.

End Agreement.

Lemma Latin1_extends : extends_Latin1 Latin1.
Proof. constructor; reflexivity. Qed.

Lemma distinct_NoDup (l : list str) : distinct l = true -> NoDup l.
Proof.
  induction l as [|x l IH]; simpl; [constructor|].
  rewrite andb_true_iff, negb_true_iff. intros [N D].
  constructor; [|exact (IH D)].
  intros I. assert (X : existsb (str_eqb x) l = true).
  { apply existsb_exists. exists x; split; [exact I | apply str_eqb_refl]. }
  congruence.
Qed.

(* ================================================================== *)
(** ** The static code table *)

(** C9. The static table has exactly 27 entries; its codes are pairwise
    distinct two-letter upper-case codes and its display names pairwise
    distinct, so it maps codes to names one to one. The names stay
    pairwise distinct once normalised, and the reverse table sends the
    normalised name of every code back to that code. This holds in every
    runtime whose character data agree with the Latin-1 tables. *)
Theorem code_table_round_trip (RT : PyRuntime) :
  extends_Latin1 RT ->
  List.length UF_TO_STATE = 27%nat
  /\ Forall (fun e => is_code (fst e) = true) UF_TO_STATE
  /\ NoDup (map fst UF_TO_STATE)
  /\ NoDup (map snd UF_TO_STATE)
  /\ NoDup (map (fun e => _norm (snd e)) UF_TO_STATE)
  /\ List.length STATE_TO_UF = 27%nat
  /\ forall code name,
       dict_get code UF_TO_STATE = Some name ->
       dict_get (_norm name) STATE_TO_UF = Some code.
Proof.
  intros E.
  split; [reflexivity|]. split; [unfold UF_TO_STATE; repeat constructor|].
  split; [apply distinct_NoDup; vm_compute; reflexivity|].
  split; [apply distinct_NoDup; vm_compute; reflexivity|].
  assert (A : forall e, In e UF_TO_STATE ->
                        @_norm RT (snd e) = @_norm Latin1 (snd e)).
  { intros e I. apply (norm_ext E).
    apply Forall_forall. intros c Ic.
    assert (F : forallb (fun kv => forallb latin1_cp (snd kv)) UF_TO_STATE
                = true) by (vm_compute; reflexivity).
    rewrite forallb_forall in F. specialize (F e I).
    rewrite forallb_forall in F. exact (F c Ic). }
  split.
  { rewrite (map_ext_in _ _ _ A). apply distinct_NoDup. vm_compute. reflexivity. }
  rewrite (STATE_TO_UF_ext E).
  split; [vm_compute; reflexivity|].
  intros code name G. apply dict_get_In in G.
  pose proof (A (code, name) G) as An. cbn [snd] in An. rewrite An.
  assert (F : forallb (fun e => match dict_get (@_norm Latin1 (snd e))
                                        (@STATE_TO_UF Latin1) with
                                | Some c => str_eqb c (fst e)
                                | None => false
                                end) UF_TO_STATE = true)
    by (vm_compute; reflexivity).
  rewrite forallb_forall in F. specialize (F _ G). cbn [fst snd] in F.
  destruct (dict_get _ _) as [c|]; [|discriminate].
  apply str_eqb_eq in F. subst c. reflexivity.
Qed.

Lemma code_table_round_trip_witness :
  extends_Latin1 Latin1
  /\ List.length (@STATE_TO_UF Latin1) = 27%nat
  /\ dict_get (@_norm Latin1 (lit "São Paulo")) (@STATE_TO_UF Latin1)
     = Some (lit "SP").
Proof.
  pose proof (code_table_round_trip Latin1 Latin1_extends)
    as (_ & _ & _ & _ & _ & L & R).
  split; [exact Latin1_extends|]. split; [exact L|].
  apply R. vm_compute. reflexivity.
Defined.

(* ================================================================== *)
(** ** The key normaliser *)

Section SplitFacts.
Context {RT : PyRuntime}.

Lemma split_from_space (w a b : str) (c : Z) :
  isspace_cp c = true ->
  split_from w (a ++ c :: b) = split_from w a ++ split_from [] b.
Proof.
  intros Hc; revert w; induction a as [|x a IH]; intros w; simpl.
  - rewrite Hc. reflexivity.
  - destruct (isspace_cp x); [rewrite IH, app_assoc | rewrite IH]; reflexivity.
Qed.

Lemma split_from_leading (ws s : str) :
  all_space ws -> split_from [] (ws ++ s) = split_from [] s.
Proof.
  induction 1 as [|c ws Hc _ IH]; simpl; [reflexivity|].
  rewrite Hc. exact IH.
Qed.

Lemma split_all_space (ws : str) : all_space ws -> split_from [] ws = [].
Proof.
  intros H. rewrite <- (app_nil_r ws), (split_from_leading ws [] H).
  reflexivity.
Qed.

Lemma split_from_trailing (w s ws : str) :
  all_space ws -> split_from w (s ++ ws) = split_from w s.
Proof.
  intros H. destruct H as [|c ws Hc H]; [rewrite app_nil_r; reflexivity|].
  rewrite (split_from_space w s ws c Hc), (split_all_space ws H).
  apply app_nil_r.
Qed.

(** Words on both sides of a non-empty run of white space. *)
Lemma split_from_gap (w a ws b : str) :
  ws <> [] -> all_space ws ->
  split_from w (a ++ ws ++ b) = split_from w a ++ split_from [] b.
Proof.
  intros N H. destruct H as [|c ws Hc H]; [contradiction|].
  cbn [app]. rewrite (split_from_space w a (ws ++ b) c Hc).
  rewrite (split_from_leading ws b H). reflexivity.
Qed.

Lemma lstrip_decompose (s : str) :
  exists ws, all_space ws /\ s = ws ++ lstrip s.
Proof.
  induction s as [|c s (ws & H & Es)]; simpl.
  - exists []; split; [constructor | reflexivity].
  - destruct (isspace_cp c) eqn:Hc.
    + exists (c :: ws); split; [constructor; assumption|].
      cbn [app]. f_equal. exact Es.
    + exists []; split; [constructor | reflexivity].
Qed.

Lemma strip_decompose (s : str) :
  exists ws1 ws2, all_space ws1 /\ all_space ws2 /\ s = ws1 ++ strip s ++ ws2.
Proof.
  destruct (lstrip_decompose s) as (ws1 & H1 & E1).
  destruct (lstrip_decompose (rev (lstrip s))) as (ws2 & H2 & E2).
  exists ws1, (rev ws2). split; [exact H1|]. split; [apply Forall_rev, H2|].
  unfold strip, rstrip. rewrite <- rev_app_distr, <- E2, rev_involutive.
  exact E1.
Qed.

End SplitFacts.

Lemma app_self_nil {A} (l : list A) : l = l ++ l -> l = [].
Proof.
  intros E. apply (f_equal (@List.length A)) in E. rewrite length_app in E.
  destruct l; [reflexivity | simpl in E; lia].
Qed.

Lemma hyph_app (a b : str) : hyph (a ++ b) = hyph a ++ hyph b.
Proof. apply flat_map_app. Qed.

Lemma hyph_cons (c : Z) (s : str) :
  hyph (c :: s) = (if c =? 0x2D then 0x20 else c) :: hyph s.
Proof. unfold hyph, replace. cbn [flat_map]. destruct (c =? 0x2D); reflexivity. Qed.

Lemma hyph_not_nil (s : str) : s <> [] -> hyph s <> [].
Proof.
  destruct s as [|c s]; [contradiction|]. intros _. rewrite hyph_cons.
  discriminate.
Qed.

Section KeyShape.
Context {RT : PyRuntime}.

Lemma split_from_words (s w : str) :
  Forall (fun c => isspace_cp c = false) w ->
  Forall (fun x => x <> [] /\ Forall (fun c => isspace_cp c = false) x
                   /\ incl x (w ++ s))
    (split_from w s).
Proof.
  revert w; induction s as [|c s IH]; intros w Hw; cbn [split_from].
  - destruct w as [|a w]; cbn [flush]; constructor; [|constructor].
    split; [discriminate|]. split; [exact Hw|]. rewrite app_nil_r. apply incl_refl.
  - destruct (isspace_cp c) eqn:Hc.
    + apply Forall_app. split.
      * destruct w as [|a w]; cbn [flush]; constructor; [|constructor].
        split; [discriminate|]. split; [exact Hw|]. apply incl_appl, incl_refl.
      * eapply Forall_impl; [|apply (IH []); constructor].
        intros x (N & F & I). split; [exact N|]. split; [exact F|].
        cbn [app] in I. apply incl_appr, incl_tl, I.
    + eapply Forall_impl; [|apply (IH (w ++ [c]))].
      * intros x (N & F & I). split; [exact N|]. split; [exact F|].
        rewrite <- app_assoc in I. exact I.
      * apply Forall_app. split; [exact Hw | constructor; [exact Hc | constructor]].
Qed.

Lemma split_from_word (x s w : str) :
  Forall (fun c => isspace_cp c = false) x ->
  split_from w (x ++ s) = split_from (w ++ x) s.
Proof.
  intros H; revert w; induction H as [|c x Hc _ IH]; intros w; cbn [app].
  - rewrite app_nil_r. reflexivity.
  - cbn [split_from]. rewrite Hc, IH, <- app_assoc. reflexivity.
Qed.

(** Splitting what [join] produced from words gives the words back. *)
Lemma split_join (ws : list str) :
  isspace_cp 0x20 = true ->
  Forall (fun x => x <> [] /\ Forall (fun c => isspace_cp c = false) x) ws ->
  split (join (lit " ") ws) = ws.
Proof.
  intros B H. unfold split. induction H as [|x ws [N F] H IH]; [reflexivity|].
  destruct ws as [|y ws].
  - pose proof (split_from_word x [] [] F) as E. rewrite app_nil_r in E.
    change (join (lit " ") [x]) with x. rewrite E. cbn [app split_from].
    destruct x; [contradiction | reflexivity].
  - change (join (lit " ") (x :: y :: ws))
      with (x ++ 0x20 :: join (lit " ") (y :: ws)).
    rewrite (split_from_word x _ [] F). cbn [app split_from]. rewrite B, IH.
    destruct x; [contradiction | reflexivity].
Qed.

Lemma Forall_join (P : Z -> Prop) (sep : str) (ws : list str) :
  Forall P sep -> Forall (Forall P) ws -> Forall P (join sep ws).
Proof.
  intros Hs H; induction H as [|x ws Hx H IH]; [constructor|].
  destruct ws as [|y ws]; [exact Hx|].
  change (join sep (x :: y :: ws)) with (x ++ sep ++ join sep (y :: ws)).
  apply Forall_app; split; [exact Hx|]. apply Forall_app; split; assumption.
Qed.

End KeyShape.

Section NormaliserFacts.
Context {RT : PyRuntime}.
Hypothesis L : separator_laws.

Lemma unmark_nfkd_nil : unmark (nfkd []) = [].
Proof. apply app_self_nil. exact (fold_app L [] []). Qed.

Lemma core_nil : core [] = [].
Proof. unfold core. rewrite (lower_nil L). apply unmark_nfkd_nil. Qed.

Lemma lower_separator_char (c : Z) :
  isspace_cp c = true \/ c = 0x2D -> lower [c] = [c].
Proof.
  intros Hc. pose proof (lower_separator L [] c [] Hc) as E.
  cbn [app] in E. rewrite (lower_nil L) in E. exact E.
Qed.

Lemma core_separator (a b : str) (c : Z) :
  isspace_cp c = true \/ c = 0x2D ->
  core (a ++ c :: b) = core a ++ unmark (nfkd [c]) ++ core b.
Proof.
  intros Hc. unfold core. rewrite (lower_separator L a c b Hc).
  change (c :: lower b) with ([c] ++ lower b).
  rewrite !(fold_app L). reflexivity.
Qed.

Lemma hyph_all_space (s : str) : all_space s -> all_space (hyph s).
Proof.
  unfold hyph, replace. apply Forall_flat_map. intros c Hc.
  destruct (c =? 0x2D); repeat constructor; [apply (blank_is_space L) | exact Hc].
Qed.

(** A separator folds to a non-empty run of white space. *)
Lemma separator_gap (c : Z) :
  isspace_cp c = true \/ c = 0x2D ->
  hyph (unmark (nfkd [c])) <> [] /\ all_space (hyph (unmark (nfkd [c]))).
Proof.
  intros [Hc | ->].
  - destruct (space_folds L c Hc) as (N & A).
    split; [apply hyph_not_nil, N | apply hyph_all_space, A].
  - rewrite (hyphen_folds L).
    split; [discriminate|]. repeat constructor. apply (blank_is_space L).
Qed.

Lemma words_separator (a b : str) (c : Z) :
  isspace_cp c = true \/ c = 0x2D ->
  words (a ++ c :: b) = words a ++ words b.
Proof.
  intros Hc. destruct (separator_gap c Hc) as [N A]. unfold words.
  rewrite (core_separator a b c Hc), !hyph_app. unfold split.
  apply split_from_gap; assumption.
Qed.

Lemma words_nil : words [] = [].
Proof. unfold words. rewrite core_nil. reflexivity. Qed.

Lemma words_leading (ws s : str) : all_space ws -> words (ws ++ s) = words s.
Proof.
  induction 1 as [|c ws Hc _ IH]; [reflexivity|].
  change ((c :: ws) ++ s) with ([] ++ c :: (ws ++ s)).
  rewrite (words_separator [] (ws ++ s) c (or_introl Hc)), words_nil. exact IH.
Qed.

Lemma words_trailing (s ws : str) : all_space ws -> words (s ++ ws) = words s.
Proof.
  intros H. destruct H as [|c ws Hc H]; [rewrite app_nil_r; reflexivity|].
  rewrite (words_separator s ws c (or_introl Hc)).
  rewrite <- (app_nil_r ws), (words_leading ws [] H), words_nil.
  apply app_nil_r.
Qed.

Lemma flat_map_words_flush (w : str) : flat_map words (flush w) = words w.
Proof.
  destruct w; cbn [flush flat_map]; [symmetry; apply words_nil | apply app_nil_r].
Qed.

(** The words of the normaliser, from the words of the input. *)
Lemma words_of_words (s w : str) :
  flat_map words (split_from w (hyph s)) = words (w ++ s).
Proof.
  revert w; induction s as [|c s IH]; intros w.
  - rewrite app_nil_r. apply flat_map_words_flush.
  - rewrite hyph_cons. cbn [split_from].
    destruct (Z.eqb_spec c 0x2D) as [->|N].
    + rewrite (blank_is_space L), flat_map_app, (IH []), flat_map_words_flush.
      symmetry. apply words_separator. right; reflexivity.
    + destruct (isspace_cp c) eqn:Hc.
      * rewrite flat_map_app, (IH []), flat_map_words_flush.
        symmetry. apply words_separator. left; exact Hc.
      * rewrite IH, <- app_assoc. reflexivity.
Qed.

Lemma words_strip (s : str) : words (strip s) = words s.
Proof.
  destruct (strip_decompose s) as (ws1 & ws2 & H1 & H2 & E).
  rewrite E at 2. rewrite (words_leading ws1 _ H1), (words_trailing _ ws2 H2).
  reflexivity.
Qed.

Lemma norm_words (s : str) : _norm s = join (lit " ") (words s).
Proof. rewrite <- words_strip. reflexivity. Qed.

(** Variation in hyphens and spaces leaves the words alone. *)
Lemma spacing_words (a b : str) :
  same_up_to_hyphens_and_spaces a b -> words a = words b.
Proof.
  intros E. unfold same_up_to_hyphens_and_spaces, split in E.
  fold (hyph a) (hyph b) in E.
  pose proof (words_of_words a []) as Wa. pose proof (words_of_words b []) as Wb.
  cbn [app] in Wa, Wb. rewrite <- Wa, <- Wb, E. reflexivity.
Qed.

End NormaliserFacts.

(* ================================================================== *)
(** ** What the Latin-1 tables satisfy *)

Ltac compare_codes :=
  repeat match goal with
         | |- context [?a <=? ?b] => destruct (Z.leb_spec a b)
         | |- context [?a <? ?b] => destruct (Z.ltb_spec a b)
         | |- context [?a =? ?b] => destruct (Z.eqb_spec a b)
         end;
  cbn [andb orb negb]; try lia; try reflexivity.

Lemma outside_tables (c : Z) :
  c < 0 \/ 880 <= c ->
  Latin.tolower c = [c] /\ Latin.compat c = [c]
  /\ Latin.canonical c = [c] /\ Latin.ccc c = 0.
Proof.
  intros H.
  assert (C : Latin.canonical c = [c]) by (unfold Latin.canonical; compare_codes).
  split; [unfold Latin.tolower; compare_codes|].
  split; [unfold Latin.compat; rewrite C; compare_codes|].
  split; [exact C | unfold Latin.ccc; compare_codes].
Qed.

Lemma isspace_latin1 (c : Z) : Latin.isspace c = true -> 0 <= c < 256.
Proof.
  unfold Latin.isspace.
  rewrite !orb_true_iff, !andb_true_iff, !Z.leb_le, !Z.eqb_eq. lia.
Qed.

Lemma filter_insert_mark (m : Z) (run : str) :
  (Latin.ccc m =? 0) = false ->
  filter (fun c => Latin.ccc c =? 0) (Latin.insert_mark m run)
  = filter (fun c => Latin.ccc c =? 0) run.
Proof.
  intros Hm. induction run as [|x r IH]; cbn [Latin.insert_mark filter].
  - rewrite Hm. reflexivity.
  - destruct (Latin.ccc m <? Latin.ccc x); cbn [filter].
    + rewrite Hm. reflexivity.
    + rewrite IH. reflexivity.
Qed.

Lemma filter_reorder (s run : str) :
  filter (fun c => Latin.ccc c =? 0) (Latin.reorder run s)
  = filter (fun c => Latin.ccc c =? 0) run
    ++ filter (fun c => Latin.ccc c =? 0) s.
Proof.
  revert run; induction s as [|c s IH]; intros run; cbn [Latin.reorder filter].
  - symmetry; apply app_nil_r.
  - destruct (Latin.ccc c =? 0) eqn:Hc.
    + rewrite filter_app. cbn [filter]. rewrite Hc, (IH []). reflexivity.
    + rewrite IH, (filter_insert_mark c run Hc). reflexivity.
Qed.

Lemma unmark_reorder (s run : str) :
  @unmark Latin1 (Latin.reorder run s)
  = @unmark Latin1 run ++ @unmark Latin1 s.
Proof. exact (filter_reorder s run). Qed.

Lemma unmark_normalize_app (decomp : Z -> str) (a b : str) :
  @unmark Latin1 (Latin.normalize decomp (a ++ b))
  = @unmark Latin1 (Latin.normalize decomp a)
    ++ @unmark Latin1 (Latin.normalize decomp b).
Proof.
  unfold Latin.normalize. rewrite !unmark_reorder, flat_map_app.
  unfold unmark. cbn [filter app]. apply filter_app.
Qed.

Lemma outside_norm (c : Z) :
  c < 0 \/ 880 <= c ->
  @lower Latin1 [c] = [c] /\ @unmark Latin1 (@nfkd Latin1 [c]) = [c]
  /\ @unmark Latin1 (@nfd Latin1 [c]) = [c].
Proof.
  intros H. destruct (outside_tables c H) as (E1 & E2 & E3 & E4).
  split; [|split].
  - cbn [lower Latin1 flat_map]. rewrite E1. reflexivity.
  - cbn [nfkd Latin1]. unfold Latin.normalize. cbn [flat_map]. rewrite E2.
    cbn [app Latin.reorder]. rewrite E4. cbn [Z.eqb app Latin.reorder].
    unfold unmark. cbn [filter combining Latin1]. rewrite E4. reflexivity.
  - cbn [nfd Latin1]. unfold Latin.normalize. cbn [flat_map]. rewrite E3.
    cbn [app Latin.reorder]. rewrite E4. cbn [Z.eqb app Latin.reorder].
    unfold unmark. cbn [filter combining Latin1]. rewrite E4. reflexivity.
Qed.

Lemma Latin1_space_inert (c : Z) :
  Latin.isspace c = true ->
  @lower Latin1 [c] = [c]
  /\ @unmark Latin1 (@nfkd Latin1 [c]) <> []
  /\ @all_space Latin1 (@unmark Latin1 (@nfkd Latin1 [c])).
Proof.
  intros Hc. pose proof (isspace_latin1 c Hc) as R.
  pose (P := fun c : Z =>
               implb (Latin.isspace c)
                 (str_eqb (@lower Latin1 [c]) [c]
                  && negb (str_eqb (@unmark Latin1 (@nfkd Latin1 [c])) [])
                  && forallb Latin.isspace
                       (@unmark Latin1 (@nfkd Latin1 [c])))).
  assert (F : forallb (fun i => P (Z.of_nat i)) (seq 0 256) = true)
    by (vm_compute; reflexivity).
  pose proof (check_range P 256 F c R) as G. unfold P in G.
  rewrite Hc in G. cbn [implb] in G.
  apply andb_true_iff in G. destruct G as [G G3].
  apply andb_true_iff in G. destruct G as [G1 G2].
  split; [apply str_eqb_eq, G1|]. split.
  - apply negb_true_iff, str_eqb_neq in G2. exact G2.
  - apply Forall_forall. rewrite forallb_forall in G3. exact G3.
Qed.

(** The white space and the hyphen of the tables are separators. *)
Lemma Latin1_separators : @separator_laws Latin1.
Proof.
  constructor.
  - reflexivity.
  - intros a c b Hc. change (c :: b) with ([c] ++ b).
    cbn [lower Latin1]. rewrite !flat_map_app. f_equal.
    change (c :: flat_map Latin.tolower b)
      with ([c] ++ flat_map Latin.tolower b).
    f_equal.
    destruct Hc as [Hc | ->];
      [exact (proj1 (Latin1_space_inert c Hc)) | reflexivity].
  - intros a b. apply (unmark_normalize_app Latin.compat).
  - reflexivity.
  - intros c Hc. exact (proj2 (Latin1_space_inert c Hc)).
  - vm_compute. reflexivity.
Qed.

(** In the tables, lower-casing a character agrees, once marks are
    removed, with lower-casing its base characters. *)
Lemma Latin1_marks_consistent (c : Z) :
  @core Latin1 [c] = @core Latin1 (@unmark Latin1 (@nfd Latin1 [c])).
Proof.
  unfold core.
  destruct (Z_lt_le_dec c 0) as [N|P0]; [|destruct (Z_lt_le_dec c 880) as [I|O]].
  - destruct (outside_norm c (or_introl N)) as (E1 & E2 & E3).
    rewrite E3, E1. reflexivity.
  - pose (P := fun c : Z =>
                 str_eqb
                   (@unmark Latin1 (@nfkd Latin1 (@lower Latin1 [c])))
                   (@unmark Latin1
                      (@nfkd Latin1
                         (@lower Latin1
                            (@unmark Latin1 (@nfd Latin1 [c])))))).
    assert (F : forallb (fun i => P (Z.of_nat i)) (seq 0 880) = true)
      by (vm_compute; reflexivity).
    pose proof (check_range P 880 F c (conj P0 I)) as G. unfold P in G.
    apply str_eqb_eq, G.
  - destruct (outside_norm c (or_intror O)) as (E1 & E2 & E3).
    rewrite E3, E1. reflexivity.
Qed.

Lemma Latin1_core_app (a b : str) :
  @core Latin1 (a ++ b) = @core Latin1 a ++ @core Latin1 b.
Proof.
  unfold core. cbn [lower Latin1]. rewrite flat_map_app.
  apply (unmark_normalize_app Latin.compat).
Qed.

Lemma Latin1_base (s : str) :
  @core Latin1 s = @core Latin1 (@unmark Latin1 (@nfd Latin1 s)).
Proof.
  induction s as [|c s IH]; [reflexivity|].
  change (c :: s) with ([c] ++ s).
  cbn [nfd Latin1] in *. rewrite (unmark_normalize_app Latin.canonical).
  rewrite !Latin1_core_app, <- IH. f_equal.
  exact (Latin1_marks_consistent c).
Qed.

(** The lower-case form of a character is its own lower-case form. *)
Lemma tolower_idempotent (x y : Z) :
  Latin.tolower x = [y] -> Latin.tolower y = [y].
Proof.
  unfold Latin.tolower.
  destruct (((0x41 <=? x) && (x <=? 0x5A))
            || ((0xC0 <=? x) && (x <=? 0xDE) && negb (x =? 0xD7))) eqn:U;
    intros [= <-].
  - rewrite orb_true_iff, !andb_true_iff, negb_true_iff, !Z.leb_le in U.
    assert (R : 0x61 <= x + 32 <= 0x7A \/ 0xE0 <= x + 32 <= 0xFE) by lia.
    clear U. compare_codes.
  - rewrite U. reflexivity.
Qed.

Lemma Latin1_same_letter (x y : Z) :
  @same_letter Latin1 x y -> Latin.tolower x = Latin.tolower y.
Proof.
  unfold same_letter. cbn [lower Latin1 flat_map]. rewrite !app_nil_r.
  intros [-> | [E | E]]; [reflexivity | |].
  - rewrite E. symmetry. exact (tolower_idempotent x y E).
  - rewrite E. exact (tolower_idempotent y x E).
Qed.

Lemma Latin1_case (a b : str) :
  @same_up_to_case Latin1 a b -> @lower Latin1 a = @lower Latin1 b.
Proof.
  induction 1 as [|x y a b H _ IH]; [reflexivity|].
  cbn [lower Latin1 flat_map] in *.
  rewrite (Latin1_same_letter x y H), IH. reflexivity.
Qed.

Lemma Latin1_variant_words (a b : str) :
  @variant Latin1 a b -> @words Latin1 a = @words Latin1 b.
Proof.
  induction 1 as [a _ | a b c _ E _ IH | a b c _ E _ IH | a b c _ E _ IH];
    [reflexivity | | |]; rewrite <- IH; clear IH.
  - unfold words, core. rewrite (Latin1_case a b E). reflexivity.
  - unfold same_up_to_diacritics in E. unfold words.
    rewrite (Latin1_base a), (Latin1_base b), E. reflexivity.
  - exact (spacing_words Latin1_separators a b E).
Qed.

(** A key of lower-case ASCII words is its own key. *)
Lemma Latin1_key_fixed (ws : list str) :
  Forall key_word ws ->
  @_norm Latin1 (join (lit " ") ws) = join (lit " ") ws.
Proof.
  intros H. rewrite (norm_words Latin1_separators). f_equal.
  assert (K : Forall (fun c => 0x61 <= c <= 0x7A \/ c = 0x20)
                (join (lit " ") ws)).
  { apply Forall_join; [constructor; [right; reflexivity | constructor]|].
    eapply Forall_impl; [|exact H]. intros w [_ F].
    eapply Forall_impl; [|exact F]. intros c Hc. left; exact Hc. }
  assert (C : forall s, Forall (fun c => 0x61 <= c <= 0x7A \/ c = 0x20) s ->
                        @hyph (@core Latin1 s) = s).
  { induction 1 as [|c s Hc _ IH]; [reflexivity|].
    change (c :: s) with ([c] ++ s).
    rewrite Latin1_core_app, hyph_app, IH. f_equal.
    assert (E : @core Latin1 [c] = [c]).
    { pose (P := fun c : Z =>
                   implb (((0x61 <=? c) && (c <=? 0x7A)) || (c =? 0x20))
                     (str_eqb (@core Latin1 [c]) [c])).
      assert (F : forallb (fun i => P (Z.of_nat i)) (seq 0 256) = true)
        by (vm_compute; reflexivity).
      assert (R : 0 <= c < 256) by lia.
      pose proof (check_range P 256 F c R) as G. unfold P in G.
      assert (B : ((0x61 <=? c) && (c <=? 0x7A)) || (c =? 0x20) = true).
      { rewrite orb_true_iff, andb_true_iff, !Z.leb_le, Z.eqb_eq. exact Hc. }
      rewrite B in G. apply str_eqb_eq, G. }
    rewrite E. unfold hyph, replace. cbn [flat_map].
    destruct (Z.eqb_spec c 0x2D); [lia | reflexivity]. }
  unfold words. rewrite (C _ K).
  apply (@split_join Latin1); [reflexivity|].
  eapply Forall_impl; [|exact H]. intros w [N F]. split; [exact N|].
  eapply Forall_impl; [|exact F]. intros c Hc. cbv beta in Hc.
  cbn [isspace_cp Latin1]. unfold Latin.isspace. compare_codes.
Qed.

(* ================================================================== *)
(** ** Runtimes that agree with the tables *)

Lemma tabulated_check (P : Z -> bool) :
  forallb (fun i => implb (tabulated (Z.of_nat i)) (P (Z.of_nat i)))
    (seq 0 880) = true ->
  P 0x3BC = true -> P 0x2044 = true ->
  forall c, tabulated c = true -> P c = true.
Proof.
  intros F M S c T.
  assert (R : 0 <= c < 880 \/ c = 0x3BC \/ c = 0x2044).
  { unfold tabulated, latin1_cp in T.
    rewrite !orb_true_iff, !andb_true_iff, !Z.leb_le, !Z.ltb_lt, !Z.eqb_eq
      in T. lia. }
  destruct R as [R | [-> | ->]]; [|exact M | exact S].
  pose proof (check_range (fun c => implb (tabulated c) (P c)) 880 F c R) as G.
  cbv beta in G. rewrite T in G. exact G.
Qed.

Lemma tabulated_closed (f : Z -> str) :
  forallb (fun i => implb (tabulated (Z.of_nat i))
                      (forallb tabulated (f (Z.of_nat i))))
    (seq 0 880) = true ->
  forallb tabulated (f 0x3BC) = true ->
  forallb tabulated (f 0x2044) = true ->
  forall c, tabulated c = true -> tabulated_str (f c).
Proof.
  intros F M S c T.
  pose proof (tabulated_check (fun c => forallb tabulated (f c)) F M S c T)
    as G.
  cbv beta in G. rewrite forallb_forall in G. apply Forall_forall. exact G.
Qed.

Lemma tolower_tabulated (c : Z) :
  tabulated c = true -> tabulated_str (Latin.tolower c).
Proof. apply tabulated_closed; vm_compute; reflexivity. Qed.

Lemma compat_closed (c : Z) :
  tabulated c = true -> tabulated_str (Latin.compat c).
Proof. apply tabulated_closed; vm_compute; reflexivity. Qed.

Lemma canonical_closed (c : Z) :
  tabulated c = true -> tabulated_str (Latin.canonical c).
Proof. apply tabulated_closed; vm_compute; reflexivity. Qed.

Lemma normalize_closed (decomp : Z -> str) (s : str) :
  (forall c, tabulated c = true -> tabulated_str (decomp c)) ->
  tabulated_str s -> tabulated_str (Latin.normalize decomp s).
Proof.
  intros D H. apply reorder_Forall; [constructor|].
  exact (Forall_flat_map _ _ _ _ D H).
Qed.

Lemma Latin1_agrees : agrees_with_tables Latin1.
Proof. constructor; reflexivity. Qed.

Section TableAgreement.
Context {RT : PyRuntime}.
Hypothesis A : agrees_with_tables RT.

Lemma agrees_extends : extends_Latin1 RT.
Proof.
  constructor.
  - exact (agrees_isspace RT A).
  - exact (agrees_combining RT A).
  - intros s H. apply (agrees_lower RT A), latin1_str_tabulated, H.
  - intros s H. apply (agrees_nfkd RT A), latin1_str_tabulated, H.
Qed.

(** On strings of tabulated characters the normaliser of such a runtime
    is the one the tables compute. *)
Lemma norm_agrees (s : str) :
  tabulated_str s -> @_norm RT s = @_norm Latin1 s.
Proof.
  intros T. unfold _norm.
  rewrite (strip_ext agrees_extends s T).
  assert (H1 : tabulated_str (@strip Latin1 s)) by (apply strip_Forall, T).
  rewrite (agrees_lower RT A _ H1).
  assert (H2 : tabulated_str (flat_map Latin.tolower (@strip Latin1 s)))
    by (exact (Forall_flat_map _ _ _ _ tolower_tabulated H1)).
  rewrite (agrees_nfkd RT A _ H2).
  assert (H3 : tabulated_str
                 (Latin.normalize Latin.compat
                    (flat_map Latin.tolower (@strip Latin1 s))))
    by (exact (normalize_closed _ _ compat_closed H2)).
  rewrite (unmark_ext agrees_extends _ H3).
  assert (H4 : tabulated_str
                 (replace 0x2D (lit " ")
                    (@unmark Latin1
                       (Latin.normalize Latin.compat
                          (flat_map Latin.tolower (@strip Latin1 s)))))).
  { apply replace_Forall; [repeat constructor|].
    apply Forall_forall. intros c Ic. apply filter_In in Ic.
    unfold tabulated_str in H3. rewrite Forall_forall in H3. apply H3, Ic. }
  unfold split. rewrite (split_from_ext agrees_extends _ _ H4). reflexivity.
Qed.

Lemma same_letter_agrees (x y : Z) :
  tabulated x = true -> tabulated y = true ->
  @same_letter RT x y -> @same_letter Latin1 x y.
Proof.
  intros Tx Ty. unfold same_letter.
  rewrite (agrees_lower RT A [x]) by (constructor; [exact Tx | constructor]).
  rewrite (agrees_lower RT A [y]) by (constructor; [exact Ty | constructor]).
  intros H. exact H.
Qed.

Lemma case_agrees (a b : str) :
  tabulated_str a -> tabulated_str b ->
  @same_up_to_case RT a b -> @same_up_to_case Latin1 a b.
Proof.
  intros Ta Tb H. revert Ta Tb.
  induction H as [|x y a b H _ IH]; intros Ta Tb; [constructor|].
  inversion Ta as [|? ? Tx Ta']; inversion Tb as [|? ? Ty Tb']; subst.
  constructor; [exact (same_letter_agrees x y Tx Ty H) | exact (IH Ta' Tb')].
Qed.

Lemma base_agrees (s : str) :
  tabulated_str s -> @unmark RT (@nfd RT s) = @unmark Latin1 (@nfd Latin1 s).
Proof.
  intros T. rewrite (agrees_nfd RT A s T).
  apply (unmark_ext agrees_extends).
  exact (normalize_closed _ _ canonical_closed T).
Qed.

Lemma diacritics_agree (a b : str) :
  tabulated_str a -> tabulated_str b ->
  @same_up_to_diacritics RT a b -> @same_up_to_diacritics Latin1 a b.
Proof.
  intros Ta Tb. unfold same_up_to_diacritics.
  rewrite (base_agrees a Ta), (base_agrees b Tb). intros H; exact H.
Qed.

Lemma spacing_agrees (a b : str) :
  tabulated_str a -> tabulated_str b ->
  @same_up_to_hyphens_and_spaces RT a b ->
  @same_up_to_hyphens_and_spaces Latin1 a b.
Proof.
  intros Ta Tb. unfold same_up_to_hyphens_and_spaces, split.
  rewrite (split_from_ext agrees_extends (replace 0x2D (lit " ") a) [])
    by (apply replace_Forall; [repeat constructor | exact Ta]).
  rewrite (split_from_ext agrees_extends (replace 0x2D (lit " ") b) [])
    by (apply replace_Forall; [repeat constructor | exact Tb]).
  intros H; exact H.
Qed.

Lemma variant_tabulated (a b : str) :
  @variant RT a b -> tabulated_str a /\ tabulated_str b.
Proof.
  induction 1 as [a T | a b c T _ _ [_ IH] | a b c T _ _ [_ IH]
                 | a b c T _ _ [_ IH]]; split; assumption.
Qed.

Lemma variant_agrees (a b : str) : @variant RT a b -> @variant Latin1 a b.
Proof.
  induction 1 as [a T | a b c T E V IH | a b c T E V IH | a b c T E V IH].
  - apply variant_same, T.
  - apply (@variant_case Latin1 a b c T); [|exact IH].
    apply (case_agrees a b T (proj1 (variant_tabulated b c V)) E).
  - apply (@variant_diacritics Latin1 a b c T); [|exact IH].
    apply (diacritics_agree a b T (proj1 (variant_tabulated b c V)) E).
  - apply (@variant_spacing Latin1 a b c T); [|exact IH].
    apply (spacing_agrees a b T (proj1 (variant_tabulated b c V)) E).
Qed.

Lemma variant_norm (a b : str) : @variant RT a b -> @_norm RT a = @_norm RT b.
Proof.
  intros V. destruct (variant_tabulated a b V) as [Ta Tb].
  rewrite (norm_agrees a Ta), (norm_agrees b Tb).
  rewrite !(norm_words Latin1_separators).
  rewrite (Latin1_variant_words a b (variant_agrees a b V)). reflexivity.
Qed.

Lemma key_fixed (ws : list str) :
  Forall key_word ws -> @_norm RT (join (lit " ") ws) = join (lit " ") ws.
Proof.
  intros H. rewrite norm_agrees; [exact (Latin1_key_fixed ws H)|].
  apply Forall_join; [repeat constructor|].
  eapply Forall_impl; [|exact H]. intros w [_ F].
  eapply Forall_impl; [|exact F]. intros c Hc. cbv beta in Hc.
  unfold tabulated, latin1_cp. compare_codes.
Qed.

End TableAgreement.

(** C7, as the claim reads: any two display strings that differ only by
    casing would have the same key. They do not: "MASSA" is the
    upper-casing of "maßa", yet the keys are "massa" and "maßa", because
    the normaliser lower-cases ([str.lower] leaves U+00DF alone) and
    compatibility decomposition does not touch U+00DF either. *)
Lemma case_variants_with_distinct_keys :
  @upper Latin1 (lit "maßa") = lit "MASSA"
  /\ @_norm Latin1 (lit "maßa") = lit "maßa"
  /\ @_norm Latin1 (lit "MASSA") = lit "massa"
  /\ @_norm Latin1 (lit "maßa") <> @_norm Latin1 (lit "MASSA").
Proof.
  split; [vm_compute; reflexivity|]. split; [vm_compute; reflexivity|].
  split; [vm_compute; reflexivity | vm_compute; discriminate].
Qed.

(** C7, amended. In every runtime that agrees with the tables (as CPython
    does), two display strings of Latin-1 characters and combining
    diacritical marks that differ only by diacritics (the same characters
    once canonically decomposed and stripped of marks), by the case of
    letters character for character, or by hyphen/space variation (the
    same words, a hyphen counting as a space), or by a chain of such
    differences, have the same key. "São Paulo", "sao paulo" and
    "SAO-PAULO" all have the key "sao paulo"; the empty string has the
    empty key; and a key made of lower-case ASCII words separated by
    single spaces is its own key, so that every variant of such a key
    normalises to it. *)
Theorem norm_identifies_variants (RT : PyRuntime) :
  agrees_with_tables RT ->
  (forall a b, variant a b -> _norm a = _norm b)
  /\ _norm (lit "São Paulo") = lit "sao paulo"
  /\ _norm (lit "sao paulo") = lit "sao paulo"
  /\ _norm (lit "SAO-PAULO") = lit "sao paulo"
  /\ _norm (lit "") = lit ""
  /\ (forall ws, Forall key_word ws ->
                 _norm (join (lit " ") ws) = join (lit " ") ws)
  /\ (forall a ws, Forall key_word ws -> variant a (join (lit " ") ws) ->
                   _norm a = join (lit " ") ws).
Proof.
  intros A.
  assert (T : forall s, forallb tabulated s = true -> tabulated_str s).
  { intros s F. apply Forall_forall. rewrite forallb_forall in F. exact F. }
  split; [exact (variant_norm A)|].
  split; [rewrite (norm_agrees A); [vm_compute; reflexivity | apply T; reflexivity]|].
  split; [rewrite (norm_agrees A); [vm_compute; reflexivity | apply T; reflexivity]|].
  split; [rewrite (norm_agrees A); [vm_compute; reflexivity | apply T; reflexivity]|].
  split; [rewrite (norm_agrees A); [vm_compute; reflexivity | apply T; reflexivity]|].
  split; [exact (key_fixed A)|].
  intros a ws K V. rewrite (variant_norm A a _ V). exact (key_fixed A ws K).
Qed.

Lemma norm_identifies_variants_witness :
  (agrees_with_tables Latin1
   /\ @variant Latin1 (lit "São Paulo") (lit "SAO-PAULO"))
  /\ @_norm Latin1 (lit "São Paulo") = @_norm Latin1 (lit "SAO-PAULO").
Proof.
  assert (T : forall s, forallb tabulated s = true -> tabulated_str s).
  { intros s F. apply Forall_forall. rewrite forallb_forall in F. exact F. }
  assert (V : @variant Latin1 (lit "São Paulo") (lit "SAO-PAULO")).
  { apply (@variant_case Latin1 _ (lit "SÃO PAULO")); [apply T; reflexivity | |].
    { unfold same_up_to_case.
      let a := eval vm_compute in (lit "São Paulo") in
      let b := eval vm_compute in (lit "SÃO PAULO") in
      change (Forall2 (@same_letter Latin1) a b).
      repeat (apply Forall2_cons;
              [first [left; reflexivity | right; right; reflexivity]|]).
      apply Forall2_nil. }
    apply (@variant_diacritics Latin1 _ (lit "SAO PAULO"));
      [apply T; reflexivity | vm_compute; reflexivity|].
    apply (@variant_spacing Latin1 _ (lit "SAO-PAULO"));
      [apply T; reflexivity | vm_compute; reflexivity|].
    apply variant_same, T. reflexivity. }
  split; [split; [exact Latin1_agrees | exact V]|].
  exact (proj1 (norm_identifies_variants Latin1 Latin1_agrees) _ _ V).
Defined.

(* ================================================================== *)
(** ** The unemployment loader *)

Example unemployment_sample_means :
  outcome (@load_unemployment_2022_avg_by_state_norm Latin1
             (only_unemp (VList unemployment_sample)))
  = Ok [(lit "bahia", flt "10.0"); (lit "acre", flt "6.0")].
Proof. vm_compute. reflexivity. Qed.

(** C2, where the code departs from it. In every runtime where U+00B2 is
    a digit for [str.isdigit] but no decimal digit for [int] (as in
    CPython), the quarter "²022Q1" passes the digit test of the loop and
    [int] then raises ValueError, which nothing catches: the loader, and
    with it the whole pipeline, raises instead of returning the means of
    the other rows. *)
Theorem superscript_year_raises (RT : PyRuntime) :
  isdigit_cp 0xB2 = true -> isdigit_cp 0x30 = true -> isdigit_cp 0x32 = true ->
  isspace_cp 0xB2 = false -> decimal_cp 0xB2 = None ->
  isdigit (prefix 4 (lit "²022Q1")) = true
  /\ int_of_str (prefix 4 (lit "²022Q1")) = Raise ValueError
  /\ (forall by_state_year,
         unemp_step by_state_year superscript_year_row = Raise ValueError)
  /\ outcome (load_unemployment_2022_avg_by_state_norm
                (only_unemp (VList [superscript_year_row])))
     = Raise ValueError.
Proof.
  intros D2 D0 D2' S2 N2.
  assert (A : isdigit (prefix 4 (lit "²022Q1")) = true).
  { cbn. rewrite D2, D0, D2'. reflexivity. }
  assert (B : int_of_str (prefix 4 (lit "²022Q1")) = Raise ValueError).
  { unfold int_of_str, to_ascii. cbn. rewrite S2, N2. reflexivity. }
  assert (C : forall g, unemp_step g superscript_year_row = Raise ValueError).
  { intros g. unfold unemp_step, superscript_year_row, obj.
    cbn [map fst snd get dict_get key_eqb Key_str].
    change (get (lit "City") _) with (VS "Bahia").
    change (get (lit "Quarter") _) with (VS "²022Q1").
    unfold VS. rewrite A, B. reflexivity. }
  split; [exact A|]. split; [exact B|]. split; [exact C|].
  rewrite load_unemployment_outcome. cbn [UNEMP_FILE only_unemp for_each].
  rewrite C. reflexivity.
Qed.

Lemma superscript_year_raises_witness :
  (@isdigit_cp Latin1 0xB2 = true /\ @isdigit_cp Latin1 0x30 = true
   /\ @isdigit_cp Latin1 0x32 = true /\ @isspace_cp Latin1 0xB2 = false
   /\ @decimal_cp Latin1 0xB2 = None)
  /\ outcome (@load_unemployment_2022_avg_by_state_norm Latin1
                (only_unemp (VList [superscript_year_row])))
     = Raise ValueError
  /\ outcome (@build_long_rows Latin1
                {| BF_FILE := Parsed (VList baseline_sample);
                   SAN_FILE := Missing; EDU_FILE := Missing;
                   UNEMP_FILE :=
                     Parsed (VList (unemployment_sample
                                    ++ [superscript_year_row])) |})
     = Raise ValueError.
Proof.
  split; [repeat split|]. split.
  - exact (proj2 (proj2 (proj2
             (superscript_year_raises Latin1 eq_refl eq_refl eq_refl
                eq_refl eq_refl)))).
  - vm_compute. reflexivity.
Defined.

(** *** What the loader returns when every year parses *)

Lemma spec_rates_snoc recs k y v key year :
  spec_rates (recs ++ [(k, (y, v))]) key year
  = spec_rates recs key year
    ++ (if str_eqb k key && (y =? year) then [v] else []).
Proof.
  unfold spec_rates. rewrite filter_app, map_app. cbn [filter fst snd].
  destruct (str_eqb k key && (y =? year)); reflexivity.
Qed.

Lemma rates_of_append k y v g key year :
  rates_of (append_rate k y v g) key year
  = rates_of g key year
    ++ (if str_eqb k key && (y =? year) then [v] else []).
Proof.
  unfold rates_of, append_rate.
  destruct (str_eqb k key) eqn:Ek; cbn [andb].
  - apply str_eqb_eq in Ek; subst key. rewrite dict_get_set_same.
    destruct (Z.eqb_spec y year) as [->|Ny].
    + rewrite dict_get_set_same.
      destruct (dict_get k g) as [ym|]; [|reflexivity].
      destruct (dict_get year ym); reflexivity.
    + rewrite (dict_get_set_other y year _ _ Ny), app_nil_r.
      destruct (dict_get k g) as [ym|]; reflexivity.
  - apply str_eqb_neq in Ek.
    rewrite (dict_get_set_other k key _ _ Ek), app_nil_r. reflexivity.
Qed.

Lemma in_keys_dict_set {K V} `{KeyLaws K} (k x : K) (v : V) (d : dict K V) :
  In x (keys (dict_set k v d)) -> x = k \/ In x (keys d).
Proof.
  induction d as [|[k' v'] d IH]; cbn [dict_set keys map fst In].
  - intros [<-|[]]; left; reflexivity.
  - destruct (key_eqb k k') eqn:E; cbn [map fst In].
    + apply key_eqb_eq in E; subst k'. intros [<-|I]; auto.
    + intros [<-|I]; [right; left; reflexivity|].
      destruct (IH I); auto.
Qed.

Lemma NoDup_keys_dict_set {K V} `{KeyLaws K} (k : K) (v : V) (d : dict K V) :
  NoDup (keys d) -> NoDup (keys (dict_set k v d)).
Proof.
  induction d as [|[k' v'] d IH]; cbn [dict_set keys map fst].
  - intros _. constructor; [intros [] | constructor].
  - intros N. inversion N as [|? ? Hn Hd]; subst.
    destruct (key_eqb k k') eqn:E; cbn [map fst].
    + apply key_eqb_eq in E; subst k'. constructor; assumption.
    + constructor; [|exact (IH Hd)].
      intros I. destruct (in_keys_dict_set k k' v d I) as [->|I'].
      * rewrite key_eqb_refl in E. discriminate.
      * exact (Hn I').
Qed.

Lemma dict_get_not_in {K V} `{KeyLaws K} (k : K) (d : dict K V) :
  ~ In k (keys d) -> dict_get k d = None.
Proof.
  intros N. destruct (dict_get k d) as [v|] eqn:G; [|reflexivity].
  apply dict_get_In in G. exfalso. apply N.
  apply (in_map fst) in G. exact G.
Qed.

Lemma spec_rates_years recs key year :
  spec_rates recs key year <> [] <-> In year (spec_years recs key).
Proof.
  unfold spec_rates, spec_years.
  induction recs as [|[k [y v]] recs IH]; cbn [filter map fst snd].
  - split; [congruence | intros []].
  - destruct (str_eqb k key); cbn [andb map fst snd In]; [|exact IH].
    destruct (Z.eqb_spec y year) as [->|N]; cbn [map fst snd].
    + split; [left; reflexivity | discriminate].
    + rewrite IH. split; [right; assumption | intros [E|I]; [contradiction | exact I]].
Qed.

Lemma max_of_same_elements (x y : Z) (xs ys : list Z) :
  (forall z, In z (x :: xs) <-> In z (y :: ys)) ->
  fold_left Z.max xs x = fold_left Z.max ys y.
Proof.
  intros S.
  pose proof (fold_max_In xs x) as I1. pose proof (fold_max_In ys y) as I2.
  destruct (fold_max_ge xs x) as [A1 B1]. destruct (fold_max_ge ys y) as [A2 B2].
  rewrite Forall_forall in B1, B2.
  assert (U1 : forall z, In z (x :: xs) -> z <= fold_left Z.max xs x)
    by (intros z [<-|I]; [exact A1 | exact (B1 z I)]).
  assert (U2 : forall z, In z (y :: ys) -> z <= fold_left Z.max ys y)
    by (intros z [<-|I]; [exact A2 | exact (B2 z I)]).
  apply S in I1. apply S in I2. specialize (U2 _ I1). specialize (U1 _ I2). lia.
Qed.

Section UnemploymentSpecFacts.
Context {RT : PyRuntime}.

Lemma unemp_step_record g r :
  unemp_step g r
  = (o <- unemp_record r ;;
     Ok match o with
        | Some (k, (y, v)) => append_rate k y v g
        | None => g
        end)%result.
Proof.
  unfold unemp_step, unemp_record.
  destruct r as [| | | | | |r]; try reflexivity.
  destruct (get (lit "City") r); try reflexivity.
  destruct (get (lit "Quarter") r); try reflexivity.
  destruct (_ || _); [reflexivity|].
  destruct (int_of_str _); cbn [rbind]; [|reflexivity].
  destruct (as_float _); reflexivity.
Qed.

(** The two passes over the rows agree: the grouping loop raises exactly
    when a record raises, and otherwise holds the rates of every state
    and year in input order. *)
Lemma grouping_records rows :
  forall g acc,
    (forall key year, rates_of g key year = spec_rates acc key year) ->
    match for_each unemp_step rows g,
          for_each (fun acc r =>
                      (o <- unemp_record r ;;
                       Ok (acc ++ match o with Some x => [x] | None => [] end))%result)
            rows acc with
    | Ok g', Ok recs =>
        forall key year, rates_of g' key year = spec_rates recs key year
    | Raise e, Raise e' => e = e'
    | _, _ => False
    end.
Proof.
  induction rows as [|r rows IH]; intros g acc I; cbn [for_each]; [exact I|].
  rewrite unemp_step_record.
  destruct (unemp_record r) as [[[k [y v]]|]|e]; cbn [rbind]; [| |reflexivity].
  - apply IH. intros key year.
    rewrite rates_of_append, spec_rates_snoc, I. reflexivity.
  - apply IH. rewrite app_nil_r. exact I.
Qed.

Lemma grouping_NoDup rows g :
  for_each unemp_step rows [] = Ok g -> NoDup (keys g).
Proof.
  apply (for_each_invariant unemp_step (fun g => NoDup (keys g))); [|constructor].
  intros a x a' Ia E.
  destruct (unemp_step_cases a x) as [R | [R | (k & y & v & R)]];
    rewrite R in E; [discriminate | injection E as <-; exact Ia |].
  injection E as <-. unfold append_rate. apply NoDup_keys_dict_set, Ia.
Qed.

Lemma unemp_average_of out st_key years_map :
  unemp_average out (st_key, years_map)
  = (m <- average_of years_map ;; Ok (dict_set st_key m out))%result.
Proof.
  unfold unemp_average, average_of.
  destruct (dict_mem 2022 years_map && _).
  - destruct (dict_item 2022 years_map); cbn [rbind]; reflexivity.
  - destruct (py_max (keys years_map)); cbn [rbind]; [|reflexivity].
    destruct (dict_item _ years_map); cbn [rbind]; reflexivity.
Qed.

Lemma averaging_get g :
  NoDup (keys g) ->
  forall out0 out,
    for_each unemp_average g out0 = Ok out ->
    forall key,
      dict_get key out
      = match dict_get key g with
        | Some years_map => to_option (average_of years_map)
        | None => dict_get key out0
        end.
Proof.
  induction g as [|[k ym] g IH]; intros N out0 out E key; cbn [for_each] in E.
  - injection E as <-. reflexivity.
  - inversion N as [|? ? Hn Hd]; subst.
    rewrite unemp_average_of in E.
    destruct (average_of ym) as [m|e] eqn:A; cbn [rbind] in E; [|discriminate].
    rewrite (IH Hd _ _ E key). cbn [dict_get].
    change (key_eqb key k) with (str_eqb key k).
    destruct (str_eqb key k) eqn:Ek.
    + apply str_eqb_eq in Ek; subst key.
      rewrite (dict_get_not_in k g Hn), dict_get_set_same, A. reflexivity.
    + apply str_eqb_neq in Ek.
      destruct (dict_get key g); [reflexivity|].
      apply dict_get_set_other. congruence.
Qed.

(** The value stored for a state is the one the spec describes. *)
Lemma average_of_spec g recs key :
  groups_nonempty g ->
  (forall k year, rates_of g k year = spec_rates recs k year) ->
  match dict_get key g with
  | Some years_map => to_option (average_of years_map)
  | None => None
  end = spec_unemployment recs key.
Proof.
  intros G I. unfold spec_unemployment.
  assert (I' := fun year => I key year). unfold rates_of in I'.
  destruct (dict_get key g) as [ym|] eqn:Gk.
  - destruct (Forall_dict_get years_nonempty _ _ _ G Gk) as [NE All].
    assert (S : forall z, In z (keys ym) <-> In z (spec_years recs key)).
    { intros z. rewrite <- spec_rates_years, <- I'. split.
      - intros Iz. destruct (dict_get_mem _ _ Iz) as [l Gl]. rewrite Gl.
        exact (Forall_dict_get (fun l : list float => l <> []) _ _ _ All Gl).
      - destruct (dict_get z ym) as [l|] eqn:Gl; [|congruence].
        intros _. apply dict_get_In in Gl. apply (in_map fst) in Gl. exact Gl. }
    destruct ym as [|[y0 l0] ym]; [contradiction|].
    destruct (spec_years recs key) as [|y ys] eqn:Ys.
    { exfalso. apply (proj1 (S y0)). left; reflexivity. }
    rewrite <- (I' 2022). unfold average_of, dict_mem, dict_item.
    destruct (dict_get 2022 ((y0, l0) :: ym)) as [[|x l]|] eqn:G22.
    + exfalso.
      exact (Forall_dict_get (fun l : list float => l <> []) _ _ _ All G22
               eq_refl).
    + cbn [andb rbind]. reflexivity.
    + cbn [andb]. unfold py_max, keys. cbn [map fst rbind].
      assert (M : fold_left Z.max (map fst ym) y0 = fold_left Z.max ys y)
        by (apply max_of_same_elements; exact S).
      rewrite M, <- (I' (fold_left Z.max ys y)).
      destruct (dict_get (fold_left Z.max ys y) ((y0, l0) :: ym)) as [l|] eqn:Gm;
        cbn [rbind]; [reflexivity|].
      exfalso.
      assert (Im : In (fold_left Z.max ys y) (keys ((y0, l0) :: ym))).
      { apply S. apply fold_max_In. }
      destruct (dict_get_mem _ _ Im) as [l Gl]. congruence.
  - destruct (spec_years recs key) as [|y ys] eqn:Ys; [reflexivity|].
    exfalso. assert (Iy : In y (spec_years recs key)) by (rewrite Ys; left; reflexivity).
    apply spec_rates_years in Iy. apply Iy. rewrite <- I'. reflexivity.
Qed.

(** X17. When the year of every row that reaches [int] parses, the loader
    returns, for each state with observations, the mean of its 2022 rates
    when it has any and the mean of the rates of its largest year
    otherwise; when the year of some row does not parse, the loader
    raises that exception. *)
Theorem unemployment_loader_spec (bf_src san_src edu_src : source)
  (rows : list value) :
  let fs := {| BF_FILE := bf_src; SAN_FILE := san_src; EDU_FILE := edu_src;
               UNEMP_FILE := Parsed (VList rows) |} in
  match unemp_records rows with
  | Ok recs =>
      exists out,
        outcome (load_unemployment_2022_avg_by_state_norm fs) = Ok out
        /\ forall key, dict_get key out = spec_unemployment recs key
  | Raise e =>
      outcome (load_unemployment_2022_avg_by_state_norm fs) = Raise e
  end.
Proof.
  intros fs. rewrite load_unemployment_outcome. cbn [UNEMP_FILE fs].
  pose proof (grouping_records rows [] [] (fun _ _ => eq_refl)) as R.
  unfold unemp_records.
  destruct (for_each unemp_step rows []) as [g|e] eqn:Eg;
    destruct (for_each _ rows []) as [recs|e']; try contradiction.
  - cbn [rbind]. pose proof (grouping_nonempty rows g Eg) as G.
    destruct (averaging_total g G) as [out Eo]. exists out.
    split; [exact Eo|]. intros key.
    rewrite (averaging_get g (grouping_NoDup rows g Eg) [] out Eo key).
    rewrite <- (average_of_spec g recs key G R).
    destruct (dict_get key g); reflexivity.
  - subst e'. reflexivity.
Qed.

End UnemploymentSpecFacts.

(* ================================================================== *)
(** * Further properties of the code *)

(** ** The join loop *)

Lemma filter_partition_length {A} (f : A -> bool) (l : list A) :
  (List.length (filter f l) + List.length (filter (fun x => negb (f x)) l))%nat
  = List.length l.
Proof.
  induction l as [|x l IH]; cbn [filter]; [reflexivity|].
  destruct (f x); cbn [negb List.length]; lia.
Qed.

Lemma spec_join_length bf san edu un :
  List.length (spec_join bf san edu un)
  = (spec_present san bf + spec_present edu bf + spec_present un bf)%nat.
Proof.
  unfold spec_join, spec_present.
  induction bf as [|[k b] bf IH]; cbn [flat_map filter fst]; [reflexivity|].
  rewrite !length_app, IH. unfold spec_row, dict_mem. cbn [fst snd].
  destruct (dict_get k san), (dict_get k edu), (dict_get k un);
    cbn [List.length]; lia.
Qed.

Lemma join_rows_fields bf san edu un :
  out (join_rows bf san edu un) = spec_join bf san edu un
  /\ (forall d : counters -> nat,
         (d = Sanitation \/ d = Education \/ d = Unemployment) ->
         d (added (join_rows bf san edu un))
         = d {| Sanitation := spec_present san bf;
                Education := spec_present edu bf;
                Unemployment := spec_present un bf |}
         /\ d (missing (join_rows bf san edu un))
            = d {| Sanitation := spec_absent san bf;
                   Education := spec_absent edu bf;
                   Unemployment := spec_absent un bf |}).
Proof.
  unfold join_rows. split; [rewrite join_fold_out; reflexivity|].
  destruct (join_fold_added san edu un bf
              {| out := []; added := no_counts; missing := no_counts |})
    as (A1 & A2 & A3).
  destruct (join_fold_missing san edu un bf
              {| out := []; added := no_counts; missing := no_counts |})
    as (M1 & M2 & M3).
  intros d [-> | [-> | ->]]; split; cbn; assumption.
Qed.

(** X1. The join accounts for every (state, dimension) pair exactly once:
    per dimension, rows added plus states missing equals the number of
    baseline states; the output has as many rows as the added counters
    sum to, hence at most three per baseline state. *)
Theorem join_rows_conservation (bf : dict str BaselineRecord)
  (sanitation education unemployment : dict str float) :
  let s := join_rows bf sanitation education unemployment in
  (Sanitation (added s) + Sanitation (missing s))%nat = List.length bf
  /\ (Education (added s) + Education (missing s))%nat = List.length bf
  /\ (Unemployment (added s) + Unemployment (missing s))%nat = List.length bf
  /\ List.length (out s) = total_count (added s)
  /\ (List.length (out s) + total_count (missing s))%nat
     = (3 * List.length bf)%nat.
Proof.
  intros s. subst s.
  destruct (join_rows_fields bf sanitation education unemployment) as [O F].
  destruct (F Sanitation (or_introl eq_refl)) as [A1 M1].
  destruct (F Education (or_intror (or_introl eq_refl))) as [A2 M2].
  destruct (F Unemployment (or_intror (or_intror eq_refl))) as [A3 M3].
  cbn in A1, A2, A3, M1, M2, M3. unfold total_count.
  rewrite O, spec_join_length, A1, A2, A3, M1, M2, M3.
  pose proof (filter_partition_length
                (fun e : str * BaselineRecord => dict_mem (fst e) sanitation) bf).
  pose proof (filter_partition_length
                (fun e : str * BaselineRecord => dict_mem (fst e) education) bf).
  pose proof (filter_partition_length
                (fun e : str * BaselineRecord => dict_mem (fst e) unemployment) bf).
  unfold spec_present, spec_absent. repeat split; lia.
Qed.

(** X2. The join never invents a row: every output row carries the code,
    name and total of a baseline entry and, under one of the three
    labels, the value the matching metric map holds for that entry's
    key. *)
Theorem join_rows_provenance (bf : dict str BaselineRecord)
  (sanitation education unemployment : dict str float) (row : Out.t) :
  In row (out (join_rows bf sanitation education unemployment)) ->
  exists key b,
    In (key, b) bf
    /\ Out.UF row = UF b /\ Out.State row = State b
    /\ Out.bf_total row = bf_total b
    /\ ((Out.dimension row = lit "Sanitation access (%)"
         /\ dict_get key sanitation = Some (Out.value row))
        \/ (Out.dimension row = lit "Education (years)"
            /\ dict_get key education = Some (Out.value row))
        \/ (Out.dimension row = lit "Unemployment (%)"
            /\ dict_get key unemployment = Some (Out.value row))).
Proof.
  intros I.
  rewrite (proj1 (join_rows_fields bf sanitation education unemployment)) in I.
  unfold spec_join in I. apply in_flat_map in I.
  destruct I as ([key b] & Ib & I). exists key, b. split; [exact Ib|].
  unfold spec_row in I. cbn [fst snd] in I.
  rewrite !in_app_iff in I.
  destruct I as [I | [I | I]];
    [destruct (dict_get key sanitation) as [v|] eqn:G
    |destruct (dict_get key education) as [v|] eqn:G
    |destruct (dict_get key unemployment) as [v|] eqn:G];
    try contradiction; destruct I as [<-|[]]; cbn;
    repeat split; auto.
Qed.

Lemma join_rows_provenance_witness :
  let bahia := {| State := lit "Bahia"; UF := lit "BA";
                  bf_total := flt "100.0" |} in
  let row := long_row bahia (lit "Unemployment (%)") (flt "8.0") in
  In row (out (join_rows [(lit "bahia", bahia)] [(lit "bahia", flt "92.5")]
                 [] [(lit "bahia", flt "8.0")]))
  /\ exists key b,
       In (key, b) [(lit "bahia", bahia)]
       /\ Out.UF row = UF b /\ Out.State row = State b
       /\ Out.bf_total row = bf_total b
       /\ ((Out.dimension row = lit "Sanitation access (%)"
            /\ dict_get key [(lit "bahia", flt "92.5")] = Some (Out.value row))
           \/ (Out.dimension row = lit "Education (years)"
               /\ dict_get key [] = Some (Out.value row))
           \/ (Out.dimension row = lit "Unemployment (%)"
               /\ dict_get key [(lit "bahia", flt "8.0")]
                  = Some (Out.value row))).
Proof.
  intros bahia row.
  assert (I : In row (out (join_rows [(lit "bahia", bahia)]
                             [(lit "bahia", flt "92.5")] []
                             [(lit "bahia", flt "8.0")])))
    by (right; left; reflexivity).
  split; [exact I|].
  exact (join_rows_provenance _ _ _ _ row I).
Defined.

(** X3. Joining a baseline made of two parts gives the rows of the first
    part followed by the rows of the second: each state is processed on
    its own. *)
Theorem join_rows_app (bf1 bf2 : dict str BaselineRecord)
  (sanitation education unemployment : dict str float) :
  out (join_rows (bf1 ++ bf2) sanitation education unemployment)
  = out (join_rows bf1 sanitation education unemployment)
    ++ out (join_rows bf2 sanitation education unemployment).
Proof.
  rewrite !(fun bf => proj1 (join_rows_fields bf sanitation education
                               unemployment)).
  unfold spec_join. apply flat_map_app.
Qed.

(** ** Loaders whose last record wins *)

Lemma collect_snoc {A B} (f : A -> option B) (l : list A) (x : A) :
  collect f (l ++ [x])
  = collect f l ++ match f x with Some y => [y] | None => [] end.
Proof. unfold collect. rewrite flat_map_app. cbn. rewrite app_nil_r. reflexivity. Qed.

Lemma spec_last_snoc {V} (recs : list (str * V)) (k key : str) (v : V) :
  spec_last (recs ++ [(k, v)]) key
  = if str_eqb k key then Some v else spec_last recs key.
Proof.
  unfold spec_last. rewrite rev_app_distr. cbn [rev app find fst].
  destruct (str_eqb k key); reflexivity.
Qed.

(** A loop that stores the value of every kept record under its key. *)
Lemma fold_dict_set_last {A V} (f : A -> option (str * V)) (l : list A)
  (key : str) :
  dict_get key
    (fold_left (fun d x => match f x with
                           | Some (k, v) => dict_set k v d
                           | None => d
                           end) l [])
  = spec_last (collect f l) key.
Proof.
  induction l as [|x l IH] using rev_ind; [reflexivity|].
  rewrite fold_left_app, collect_snoc. cbn [fold_left].
  destruct (f x) as [[k v]|].
  - rewrite spec_last_snoc. destruct (str_eqb k key) eqn:E.
    + apply str_eqb_eq in E; subst k. apply dict_get_set_same.
    + apply str_eqb_neq in E. rewrite dict_get_set_other by exact E. exact IH.
  - rewrite app_nil_r. exact IH.
Qed.

Lemma fold_left_ext {A B} (f g : A -> B -> A) (l : list B) (a : A) :
  (forall a x, f a x = g a x) -> fold_left f l a = fold_left g l a.
Proof.
  intros E; revert a; induction l as [|x l IH]; intros a; cbn; [reflexivity|].
  rewrite E. apply IH.
Qed.

Section LastWinsFacts.
Context {RT : PyRuntime}.

Lemma san_step_record out r :
  san_step out r
  = match san_record r with
    | Some (k, v) => dict_set k v out
    | None => out
    end.
Proof.
  unfold san_step, san_record.
  destruct r as [| | | | | |r]; try reflexivity.
  destruct (get (lit "State") r); try reflexivity.
  destruct (as_float _); reflexivity.
Qed.

Lemma bf_step_record out r :
  bf_step out r
  = match bf_record r with
    | Some (k, b) => dict_set k b out
    | None => out
    end.
Proof.
  unfold bf_step, bf_record.
  destruct r as [| | | | | |r]; try reflexivity.
  destruct (or_else _ _); try reflexivity.
  destruct (negb _); [reflexivity|].
  destruct (probe_total TOTAL_KEYS r); [|reflexivity].
  destruct (dict_get _ UF_TO_STATE) as [state|] eqn:G; [|reflexivity].
  rewrite (UF_TO_STATE_names _ _ G). reflexivity.
Qed.

Lemma load_sanitation_outcome fs :
  outcome (load_sanitation_2022_by_state_norm fs)
  = match SAN_FILE fs with
    | Missing => Ok []
    | Malformed => Raise JSONDecodeError
    | Unreadable w => Raise (raised w)
    | Parsed (VList rows) => Ok (fold_left san_step rows [])
    | Parsed _ => Ok []
    end.
Proof.
  unfold load_sanitation_2022_by_state_norm.
  destruct (SAN_FILE fs) as [| |w|v]; try reflexivity.
  destruct v; reflexivity.
Qed.

Lemma load_bf_outcome fs :
  outcome (load_bf_totals_by_state_norm fs)
  = match BF_FILE fs with
    | Missing => Ok []
    | Malformed => Raise JSONDecodeError
    | Unreadable w => Raise (raised w)
    | Parsed rows =>
        (items <- iterate rows ;; Ok (fold_left bf_step items []))%result
    end.
Proof.
  unfold load_bf_totals_by_state_norm.
  destruct (BF_FILE fs) as [| |w|v]; try reflexivity.
  cbn [file_exists negb read_json].
  unfold outcome, lift, bind, print, ret.
  destruct (iterate v); reflexivity.
Qed.

End LastWinsFacts.

(** X4. For every list of sanitation rows the loader returns a mapping
    that holds, for each normalised state key, the access value of the
    last record of that key among those with a string state name and a
    coercible value (last occurrence wins); it never raises on a list. *)
Theorem sanitation_last_wins (RT : PyRuntime) (bf_src edu_src unemp_src : source)
  (rows : list value) :
  exists out,
    outcome (load_sanitation_2022_by_state_norm
               {| BF_FILE := bf_src; SAN_FILE := Parsed (VList rows);
                  EDU_FILE := edu_src; UNEMP_FILE := unemp_src |}) = Ok out
    /\ forall key, dict_get key out = spec_last (collect san_record rows) key.
Proof.
  eexists. split; [rewrite load_sanitation_outcome; reflexivity|].
  intros key.
  rewrite (fold_left_ext san_step _ rows [] san_step_record).
  apply (fold_dict_set_last san_record).
Qed.

(** X5. For every list of baseline rows the loader returns a mapping that
    holds, for each state key, the record built from the last row of that
    state that passes the checks: a later row of a state overwrites an
    earlier one. *)
Theorem baseline_last_wins (RT : PyRuntime) (san_src edu_src unemp_src : source)
  (rows : list value) :
  exists out,
    outcome (load_bf_totals_by_state_norm
               {| BF_FILE := Parsed (VList rows); SAN_FILE := san_src;
                  EDU_FILE := edu_src; UNEMP_FILE := unemp_src |}) = Ok out
    /\ forall key, dict_get key out = spec_last (collect bf_record rows) key.
Proof.
  eexists. split; [rewrite load_bf_outcome; reflexivity|].
  intros key.
  rewrite (fold_left_ext bf_step _ rows [] bf_step_record).
  apply (fold_dict_set_last bf_record).
Qed.

(** ** The baseline mapping *)

Lemma fold_left_invariant {A B} (f : A -> B -> A) (I : A -> Prop) :
  (forall a x, I a -> I (f a x)) ->
  forall l a, I a -> I (fold_left f l a).
Proof.
  intros Hf l; induction l as [|x l IH]; intros a Ia; cbn; [exact Ia|].
  apply IH, Hf, Ia.
Qed.

Lemma fold_left_skip {A B} (f : A -> B -> A) (l : list B) (a : A) :
  Forall (fun x => forall a, f a x = a) l -> fold_left f l a = a.
Proof.
  induction 1 as [|x l Hx _ IH]; cbn; [reflexivity|]. rewrite Hx. exact IH.
Qed.

Lemma Forall_dict_set_entry {K V} `{Key K} (P : K * V -> Prop) (k : K) (v : V)
  (d : dict K V) :
  Forall P d -> P (k, v) -> Forall P (dict_set k v d).
Proof.
  intros Hd Hv; induction Hd as [|[k' v'] d Hx Hd IH]; cbn [dict_set].
  - constructor; [exact Hv | constructor].
  - destruct (key_eqb k k'); constructor; auto.
Qed.

(** An entry of the baseline mapping: its code and name are a row of the
    static table and its key is the normalised name. *)
Lemma bf_record_consistent {RT : PyRuntime} (r : value) k b :
  bf_record r = Some (k, b) ->
  dict_get (UF b) UF_TO_STATE = Some (State b) /\ k = _norm (State b).
Proof.
  unfold bf_record.
  destruct r as [| | | | | |r]; try discriminate.
  destruct (or_else _ _); try discriminate.
  destruct (negb _); [discriminate|].
  destruct (probe_total TOTAL_KEYS r); [|discriminate].
  destruct (dict_get _ UF_TO_STATE) as [state|] eqn:G; [|discriminate].
  intros [= <- <-]. cbn. split; [exact G | reflexivity].
Qed.

Lemma baseline_entries (RT : PyRuntime) (fs : files)
  (bf : dict str BaselineRecord) :
  outcome (load_bf_totals_by_state_norm fs) = Ok bf ->
  NoDup (keys bf)
  /\ Forall (fun e =>
               dict_get (UF (snd e)) UF_TO_STATE = Some (State (snd e))
               /\ fst e = _norm (State (snd e))) bf.
Proof.
  intros E. rewrite load_bf_outcome in E.
  destruct (BF_FILE fs) as [| |w|v].
  - injection E as <-. split; constructor.
  - discriminate.
  - discriminate.
  - destruct (iterate v) as [items|]; cbn [rbind] in E; [|discriminate].
    injection E as <-.
    apply (fold_left_invariant bf_step
             (fun d => NoDup (keys d)
                       /\ Forall (fun e =>
                                    dict_get (UF (snd e)) UF_TO_STATE
                                    = Some (State (snd e))
                                    /\ fst e = _norm (State (snd e))) d));
      [|split; constructor].
    intros a x [N F]. rewrite bf_step_record.
    destruct (bf_record x) as [[k b]|] eqn:R; [|split; assumption].
    split; [apply NoDup_keys_dict_set, N|].
    apply Forall_dict_set_entry; [exact F|].
    exact (bf_record_consistent x k b R).
Qed.

(** X6. Whatever the baseline document, a mapping the baseline loader
    returns has pairwise distinct keys and at most 27 entries, and every
    entry is consistent with the static table: its display name is the
    table's name for its code and its key is the normalised name. *)
Theorem baseline_mapping_consistent (RT : PyRuntime) (fs : files)
  (bf : dict str BaselineRecord) :
  outcome (load_bf_totals_by_state_norm fs) = Ok bf ->
  NoDup (keys bf)
  /\ (List.length bf <= 27)%nat
  /\ Forall (fun e =>
               dict_get (UF (snd e)) UF_TO_STATE = Some (State (snd e))
               /\ fst e = _norm (State (snd e))) bf.
Proof.
  intros E. destruct (baseline_entries RT fs bf E) as [N F].
  split; [exact N|]. split; [|exact F].
  change 27%nat
    with (List.length (map (fun e => _norm (snd e)) UF_TO_STATE)).
  rewrite <- (length_map fst bf). fold (keys bf).
  apply NoDup_incl_length; [exact N|].
  intros k Ik. unfold keys in Ik. apply in_map_iff in Ik.
  destruct Ik as ([k' b] & <- & Ib). rewrite Forall_forall in F.
  destruct (F _ Ib) as [G Ek]. cbn [fst snd] in *. rewrite Ek.
  apply dict_get_In in G.
  apply (in_map (fun e => _norm (snd e))) in G. exact G.
Qed.

Lemma baseline_mapping_consistent_witness :
  let fs := only_bf (VList (baseline_sample ++ [VDict sao_paulo_row]
                            ++ baseline_sample)) in
  let bf := [(lit "bahia", {| State := lit "Bahia"; UF := lit "BA";
                              bf_total := flt "100.0" |});
             (lit "sao paulo", {| State := lit "São Paulo"; UF := lit "SP";
                                  bf_total := flt "1234.5" |})] in
  outcome (@load_bf_totals_by_state_norm Latin1 fs) = Ok bf
  /\ NoDup (keys bf) /\ (List.length bf <= 27)%nat.
Proof.
  intros fs bf.
  assert (E : outcome (@load_bf_totals_by_state_norm Latin1 fs) = Ok bf)
    by (vm_compute; reflexivity).
  split; [exact E|].
  destruct (baseline_mapping_consistent Latin1 fs bf E) as (N & L & _).
  split; assumption.
Defined.

(** X7. The baseline document need not be a list. A JSON object or a
    string is iterated (over its keys, resp. characters), no item is a
    record, and the pipeline returns the empty list; a number, a boolean
    or null is not iterable and the pipeline raises TypeError. The metric
    sources are not read in either case. *)
Theorem baseline_document_shapes (RT : PyRuntime)
  (san_src edu_src unemp_src : source) :
  let run v := outcome (build_long_rows
                          {| BF_FILE := Parsed v; SAN_FILE := san_src;
                             EDU_FILE := edu_src; UNEMP_FILE := unemp_src |}) in
  (forall d, run (VDict d) = Ok [])
  /\ (forall s, run (VStr s) = Ok [])
  /\ run VNone = Raise TypeError
  /\ (forall b, run (VBool b) = Raise TypeError)
  /\ (forall n, run (VInt n) = Raise TypeError)
  /\ (forall f, run (VFloat f) = Raise TypeError).
Proof.
  intros run. subst run. cbv beta.
  assert (S : forall (l : list str) a,
             fold_left bf_step (map VStr l) a = a).
  { intros l a. apply fold_left_skip. apply Forall_forall.
    intros x Ix. apply in_map_iff in Ix. destruct Ix as (s & <- & _).
    reflexivity. }
  split; [|split; [|repeat split; intros;
                        rewrite build_long_rows_outcome, load_bf_outcome;
                        reflexivity]].
  - intros d. rewrite build_long_rows_outcome, load_bf_outcome.
    cbn [BF_FILE iterate rbind].
    rewrite <- (map_map fst VStr), S. reflexivity.
  - intros s. rewrite build_long_rows_outcome, load_bf_outcome.
    cbn [BF_FILE iterate rbind].
    rewrite <- (map_map (fun c => [c]) VStr), S. reflexivity.
Qed.

(** ** Exceptions of the pipeline *)

Section PipelineExceptions.
Context {RT : PyRuntime}.

Lemma grouping_raises rows e :
  for_each unemp_step rows [] = Raise e ->
  e = ValueError /\ unemp_records rows = Raise ValueError.
Proof.
  intros G.
  assert (V : e = ValueError).
  { revert G. apply (for_each_raises unemp_step (fun e => e = ValueError)).
    intros a x e2 R.
    destruct (unemp_step_cases a x) as [R' | [R' | (k & y & v & R')]];
      rewrite R' in R; congruence. }
  split; [exact V|]. subst e.
  pose proof (grouping_records rows [] [] (fun _ _ => eq_refl)) as R.
  rewrite G in R. unfold unemp_records.
  destruct (for_each _ rows []) as [recs|e']; [contradiction|].
  subst e'. reflexivity.
Qed.

Lemma load_unemployment_raise_cases fs e :
  outcome (load_unemployment_2022_avg_by_state_norm fs) = Raise e ->
  read_error (UNEMP_FILE fs) = Some e
  \/ (e = ValueError
      /\ exists rows, UNEMP_FILE fs = Parsed (VList rows)
                      /\ unemp_records rows = Raise ValueError).
Proof.
  rewrite load_unemployment_outcome.
  destruct (UNEMP_FILE fs) as [| |w|v]; try discriminate.
  - intros [= <-]. left; reflexivity.
  - intros [= <-]. left; reflexivity.
  - destruct v as [| | | | |rows|]; try discriminate.
    destruct (for_each unemp_step rows []) as [g|e1] eqn:G; cbn [rbind].
    + destruct (averaging_total g (grouping_nonempty _ _ G)) as [o ->].
      discriminate.
    + intros [= <-]. destruct (grouping_raises rows e1 G) as [-> R].
      right. split; [reflexivity|]. exists rows. split; [reflexivity | exact R].
Qed.

End PipelineExceptions.

Lemma read_error_kind (f : source) (e : exn) :
  read_error f = Some e ->
  e <> KeyError /\ e <> OverflowError /\ e <> StatisticsError.
Proof.
  destruct f as [| |w|v]; try discriminate; [|destruct w];
    intros [= <-]; repeat split; discriminate.
Qed.

(** X8. The pipeline can raise for three reasons only. A source file it
    reads exists but [read_json] fails on it, and the exception of the
    read propagates unchanged: JSONDecodeError for text that is not JSON,
    UnicodeDecodeError, OSError, RecursionError or ValueError otherwise.
    The baseline document is not iterable: TypeError. The unemployment
    list holds a row whose year passes the digit test but does not parse:
    ValueError. It never raises KeyError, OverflowError or
    StatisticsError. Printing is taken to succeed. *)
Theorem build_long_rows_exceptions (RT : PyRuntime) (fs : files) (e : exn) :
  outcome (build_long_rows fs) = Raise e ->
  (read_error (BF_FILE fs) = Some e
   \/ read_error (SAN_FILE fs) = Some e
   \/ read_error (EDU_FILE fs) = Some e
   \/ read_error (UNEMP_FILE fs) = Some e
   \/ (e = TypeError
       /\ exists v, BF_FILE fs = Parsed v /\ iterate v = Raise TypeError)
   \/ (e = ValueError
       /\ exists rows, UNEMP_FILE fs = Parsed (VList rows)
                       /\ unemp_records rows = Raise ValueError))
  /\ e <> KeyError /\ e <> OverflowError /\ e <> StatisticsError.
Proof.
  intros R.
  assert (D : read_error (BF_FILE fs) = Some e
              \/ read_error (SAN_FILE fs) = Some e
              \/ read_error (EDU_FILE fs) = Some e
              \/ read_error (UNEMP_FILE fs) = Some e
              \/ (e = TypeError
                  /\ exists v, BF_FILE fs = Parsed v
                               /\ iterate v = Raise TypeError)
              \/ (e = ValueError
                  /\ exists rows, UNEMP_FILE fs = Parsed (VList rows)
                                  /\ unemp_records rows = Raise ValueError)).
  { revert R. rewrite build_long_rows_outcome, load_bf_outcome.
    destruct (BF_FILE fs) as [| |w|v] eqn:B; cbn [rbind]; try discriminate.
    1,2: intros [= <-]; left; reflexivity.
    destruct (iterate v) as [items|e0] eqn:It; cbn [rbind].
    2: { intros [= <-]. do 4 right. left.
         assert (T : e0 = TypeError) by (destruct v; cbn in It; congruence).
         subst e0. split; [reflexivity|].
         exists v. split; [reflexivity | exact It]. }
    destruct (fold_left bf_step items []) as [|x bf]; [discriminate|].
    rewrite load_sanitation_outcome.
    destruct (SAN_FILE fs) as [| |sw|sv] eqn:Sa.
    2,3: intros [= <-]; right; left; reflexivity.
    all: rewrite load_education_outcome.
    all: destruct (EDU_FILE fs) as [| |ew|ev] eqn:Ed.
    all: try (destruct sv; cbn [rbind]).
    all: try (intros [= <-]; right; right; left; reflexivity).
    all: try (destruct ev; cbn [rbind]).
    all: destruct (outcome (load_unemployment_2022_avg_by_state_norm fs))
           as [un|e1] eqn:U; cbn [rbind]; try discriminate.
    all: intros [= <-];
      destruct (load_unemployment_raise_cases fs e1 U) as [M | [-> V]];
      [right; right; right; left; exact M
      | do 5 right; split; [reflexivity | exact V]]. }
  split; [exact D|].
  destruct D as [D | [D | [D | [D | [[-> _] | [-> _]]]]]];
    try exact (read_error_kind _ _ D); repeat split; discriminate.
Qed.

Lemma build_long_rows_exceptions_witness :
  let fs := {| BF_FILE := Parsed (VList baseline_sample);
               SAN_FILE := Missing; EDU_FILE := Missing;
               UNEMP_FILE := Parsed (VList [superscript_year_row]) |} in
  outcome (@build_long_rows Latin1 fs) = Raise ValueError
  /\ exists rows, UNEMP_FILE fs = Parsed (VList rows)
                  /\ @unemp_records Latin1 rows = Raise ValueError.
Proof.
  intros fs.
  assert (E : outcome (@build_long_rows Latin1 fs) = Raise ValueError)
    by (vm_compute; reflexivity).
  split; [exact E|].
  destruct (proj1 (build_long_rows_exceptions Latin1 fs ValueError E))
    as [C | [C | [C | [C | [[C _] | [_ R]]]]]];
    [discriminate | discriminate | discriminate | discriminate
    | discriminate | exact R].
Defined.

(** X9. With a non-empty baseline, a metric source that exists but on
    which [read_json] fails aborts the pipeline with the exception of the
    read, that of the first such source in reading order (sanitation,
    education, unemployment): JSONDecodeError for text that is not JSON,
    UnicodeDecodeError for bytes that are not UTF-8, OSError for a path
    that cannot be read, RecursionError for a document nested too deep,
    ValueError for an integer literal over the digit limit. The existence
    test of the loaders does not protect the read. *)
Theorem unreadable_metric_aborts (RT : PyRuntime) (fs : files)
  (bf : dict str BaselineRecord) (e : exn) :
  outcome (load_bf_totals_by_state_norm fs) = Ok bf -> bf <> [] ->
  metric_read_error fs = Some e ->
  outcome (build_long_rows fs) = Raise e.
Proof.
  intros B N M. rewrite build_long_rows_outcome, B. cbn [rbind].
  destruct bf as [|x bf]; [contradiction|].
  unfold metric_read_error in M.
  rewrite load_sanitation_outcome.
  destruct (SAN_FILE fs) as [| |sw|sv] eqn:Sa; cbn [read_error] in M.
  2,3: injection M as <-; reflexivity.
  all: try (destruct sv); cbn [rbind].
  all: rewrite load_education_outcome.
  all: destruct (EDU_FILE fs) as [| |ew|ev] eqn:Ed; cbn [read_error] in M.
  all: try (injection M as <-; reflexivity).
  all: try (destruct ev); cbn [rbind].
  all: rewrite load_unemployment_outcome.
  all: destruct (UNEMP_FILE fs) as [| |uw|uv] eqn:Un; cbn [read_error] in M.
  all: try discriminate.
  all: injection M as <-; reflexivity.
Qed.

Lemma unreadable_metric_aborts_witness :
  let fs := {| BF_FILE := Parsed (VList baseline_sample);
               SAN_FILE := Missing; EDU_FILE := Unreadable NotUTF8;
               UNEMP_FILE := Malformed |} in
  (exists bf, outcome (@load_bf_totals_by_state_norm Latin1 fs) = Ok bf
              /\ bf <> [])
  /\ metric_read_error fs = Some UnicodeDecodeError
  /\ outcome (@build_long_rows Latin1 fs) = Raise UnicodeDecodeError.
Proof.
  intros fs.
  assert (E : outcome (@load_bf_totals_by_state_norm Latin1 fs)
              = Ok [(lit "bahia", {| State := lit "Bahia"; UF := lit "BA";
                                     bf_total := flt "100.0" |})])
    by (vm_compute; reflexivity).
  split; [eexists; split; [exact E | discriminate]|].
  split; [reflexivity|].
  apply (unreadable_metric_aborts Latin1 fs _ _ E); [discriminate|].
  reflexivity.
Defined.

(** ** A dimension whose source is unusable *)

Lemma spec_join_In bf san edu un row :
  In row (spec_join bf san edu un) ->
  (Out.dimension row = LABEL_SANITATION
   /\ exists k, dict_get k san = Some (Out.value row))
  \/ (Out.dimension row = LABEL_EDUCATION
      /\ exists k, dict_get k edu = Some (Out.value row))
  \/ (Out.dimension row = LABEL_UNEMPLOYMENT
      /\ exists k, dict_get k un = Some (Out.value row)).
Proof.
  unfold spec_join. intros I. apply in_flat_map in I.
  destruct I as ([key b] & _ & I). unfold spec_row in I. cbn [fst snd] in I.
  rewrite !in_app_iff in I.
  destruct I as [I | [I | I]];
    [destruct (dict_get key san) as [v|] eqn:G
    |destruct (dict_get key edu) as [v|] eqn:G
    |destruct (dict_get key un) as [v|] eqn:G];
    try contradiction; destruct I as [<-|[]]; cbn;
    [left | right; left | right; right];
    (split; [reflexivity | exists key; exact G]).
Qed.

Section DegradedFacts.
Context {RT : PyRuntime}.

Lemma degraded_sanitation fs :
  degraded (SAN_FILE fs) = true ->
  outcome (load_sanitation_2022_by_state_norm fs) = Ok [].
Proof.
  rewrite load_sanitation_outcome.
  destruct (SAN_FILE fs) as [| |w|v]; [reflexivity | discriminate | discriminate |].
  destruct v; try reflexivity; discriminate.
Qed.

Lemma degraded_education fs :
  degraded (EDU_FILE fs) = true ->
  outcome (load_education_latest_by_state_norm fs) = Ok [].
Proof.
  rewrite load_education_outcome.
  destruct (EDU_FILE fs) as [| |w|v]; [reflexivity | discriminate | discriminate |].
  destruct v; try reflexivity; discriminate.
Qed.

Lemma degraded_unemployment fs :
  degraded (UNEMP_FILE fs) = true ->
  outcome (load_unemployment_2022_avg_by_state_norm fs) = Ok [].
Proof.
  rewrite load_unemployment_outcome.
  destruct (UNEMP_FILE fs) as [| |w|v]; [reflexivity | discriminate | discriminate |].
  destruct v; try reflexivity; discriminate.
Qed.

(** The rows of a run that returns, from the mappings of the loaders. *)
Lemma build_long_rows_rows fs rows :
  outcome (build_long_rows fs) = Ok rows ->
  rows = []
  \/ exists bf san edu un,
       outcome (load_bf_totals_by_state_norm fs) = Ok bf
       /\ outcome (load_sanitation_2022_by_state_norm fs) = Ok san
       /\ outcome (load_education_latest_by_state_norm fs) = Ok edu
       /\ outcome (load_unemployment_2022_avg_by_state_norm fs) = Ok un
       /\ rows = spec_join bf san edu un.
Proof.
  rewrite build_long_rows_outcome.
  destruct (outcome (load_bf_totals_by_state_norm fs)) as [bf|]; cbn [rbind];
    [|discriminate].
  destruct bf as [|x bf]; [intros [= <-]; left; reflexivity|].
  destruct (outcome (load_sanitation_2022_by_state_norm fs)) as [san|];
    cbn [rbind]; [|discriminate].
  destruct (outcome (load_education_latest_by_state_norm fs)) as [edu|];
    cbn [rbind]; [|discriminate].
  destruct (outcome (load_unemployment_2022_avg_by_state_norm fs)) as [un|];
    cbn [rbind]; [|discriminate].
  intros [= <-]. right. exists (x :: bf), san, edu, un.
  repeat split. unfold join_rows. rewrite join_fold_out. reflexivity.
Qed.

End DegradedFacts.

(** X10. A metric source that is missing, or whose document is not a
    list, removes its dimension from the output and nothing else: when
    the pipeline returns, no row carries the label of that dimension. *)
Theorem degraded_source_drops_dimension (RT : PyRuntime) (fs : files)
  (rows : list Out.t) :
  outcome (build_long_rows fs) = Ok rows ->
  (degraded (SAN_FILE fs) = true ->
   Forall (fun r => Out.dimension r <> lit "Sanitation access (%)") rows)
  /\ (degraded (EDU_FILE fs) = true ->
      Forall (fun r => Out.dimension r <> lit "Education (years)") rows)
  /\ (degraded (UNEMP_FILE fs) = true ->
      Forall (fun r => Out.dimension r <> lit "Unemployment (%)") rows).
Proof.
  intros E.
  destruct (build_long_rows_rows fs rows E)
    as [-> | (bf & san & edu & un & _ & Es & Ee & Eu & ->)];
    [repeat split; intros _; constructor|].
  split; [|split]; intros D; apply Forall_forall; intros r I;
    apply spec_join_In in I.
  - rewrite (degraded_sanitation fs D) in Es. injection Es as <-.
    destruct I as [[_ [k G]] | [[L _] | [L _]]];
      [discriminate | | ]; rewrite L; vm_compute; discriminate.
  - rewrite (degraded_education fs D) in Ee. injection Ee as <-.
    destruct I as [[L _] | [[_ [k G]] | [L _]]];
      [| discriminate | ]; rewrite L; vm_compute; discriminate.
  - rewrite (degraded_unemployment fs D) in Eu. injection Eu as <-.
    destruct I as [[L _] | [[L _] | [_ [k G]]]];
      [| | discriminate]; rewrite L; vm_compute; discriminate.
Qed.

Lemma degraded_source_drops_dimension_witness :
  let fs := {| BF_FILE := Parsed (VList baseline_sample);
               SAN_FILE := Missing; EDU_FILE := Parsed (VInt 3);
               UNEMP_FILE := Parsed (VList unemployment_sample) |} in
  let rows := [long_row {| State := lit "Bahia"; UF := lit "BA";
                           bf_total := flt "100.0" |}
                 (lit "Unemployment (%)") (flt "10.0")] in
  outcome (@build_long_rows Latin1 fs) = Ok rows
  /\ degraded (SAN_FILE fs) = true /\ degraded (EDU_FILE fs) = true
  /\ Forall (fun r => Out.dimension r <> lit "Sanitation access (%)") rows
  /\ Forall (fun r => Out.dimension r <> lit "Education (years)") rows.
Proof.
  intros fs rows.
  assert (E : outcome (@build_long_rows Latin1 fs) = Ok rows)
    by (vm_compute; reflexivity).
  destruct (degraded_source_drops_dimension Latin1 fs rows E) as (A & B & _).
  split; [exact E|]. split; [reflexivity|]. split; [reflexivity|].
  split; [exact (A eq_refl) | exact (B eq_refl)].
Defined.

(** ** The entry point *)

Lemma writes_app (a b : list main_event) : writes (a ++ b) = writes a ++ writes b.
Proof. apply flat_map_app. Qed.

Lemma writes_pipeline (l : list event) : writes (map Pipeline l) = [].
Proof. induction l as [|e l IH]; cbn; [reflexivity | exact IH]. Qed.

Lemma writes_examples (rows : list Out.t) : writes (map ExampleRow rows) = [].
Proof. induction rows as [|r rows IH]; cbn; [reflexivity | exact IH]. Qed.

(** X11. [main] writes the output file at most once and only after the
    pipeline has returned: when the pipeline returns rows, exactly those
    rows are written, the summary line reports their number and at most
    five example rows are printed; when the pipeline raises, the exception
    propagates and nothing is written. *)
Theorem main_writes_rows_or_nothing (RT : PyRuntime) (fs : files) :
  match outcome (build_long_rows fs) with
  | Ok rows =>
      snd (main fs) = Ok tt
      /\ writes (fst (main fs)) = [rows]
      /\ In (OkWrote (List.length rows)) (fst (main fs))
      /\ (List.length (filter (fun e => match e with
                                        | ExampleRow _ => true
                                        | _ => false
                                        end) (fst (main fs))) <= 5)%nat
  | Raise e => snd (main fs) = Raise e /\ writes (fst (main fs)) = []
  end.
Proof.
  unfold main, outcome.
  destruct (build_long_rows fs) as [l [rows|e]]; cbn [fst snd].
  - split; [reflexivity|]. split; [|split].
    + change (MakeChartsDir :: ?x) with ([MakeChartsDir] ++ x).
      rewrite !writes_app, writes_pipeline, writes_examples. reflexivity.
    + right. apply in_or_app. right. right. left. reflexivity.
    + cbn [filter]. rewrite !filter_app. cbn [filter app].
      rewrite !length_app.
      assert (P : filter (fun e => match e with
                                   | ExampleRow _ => true
                                   | _ => false
                                   end) (map Pipeline l) = []).
      { induction l as [|x l IH]; cbn; [reflexivity | exact IH]. }
      rewrite P. cbn [List.length].
      etransitivity; [apply (filter_length_le _ (map ExampleRow (firstn 5 rows)))|].
      rewrite length_map. apply firstn_le_length.
  - split; [reflexivity|].
    change (MakeChartsDir :: ?x) with ([MakeChartsDir] ++ x).
    rewrite writes_app, writes_pipeline. reflexivity.
Qed.

(** X12. When the baseline file is absent, [main] still writes the output
    file: it overwrites it with the empty list and reports zero rows,
    whatever the three metric sources hold. *)
Theorem main_missing_baseline_writes_empty (RT : PyRuntime)
  (san_src edu_src unemp_src : source) :
  main {| BF_FILE := Missing; SAN_FILE := san_src; EDU_FILE := edu_src;
          UNEMP_FILE := unemp_src |}
  = ([MakeChartsDir; Pipeline (ErrorMissingFile BolsaFamilia);
      Pipeline ErrorNoTotals; WriteOutFile []; OkWrote 0; InfoExampleRows],
     Ok tt).
Proof.
  unfold main.
  rewrite (build_long_rows_no_baseline
             {| BF_FILE := Missing; SAN_FILE := san_src; EDU_FILE := edu_src;
                UNEMP_FILE := unemp_src |}).
  - reflexivity.
  - reflexivity.
Qed.

(** ** Shape of a key *)

(** X13. Whatever the input string and the character data, a key holds
    no hyphen and no combining mark, and no white space other than
    U+0020; when U+0020 is white space for the runtime, the key is
    already in collapsed form: splitting it on white space and joining
    the words with single spaces gives the key back, so it has no leading,
    trailing or doubled space. *)
Theorem norm_key_shape (RT : PyRuntime) (s : str) :
  Forall (fun c => c = 0x20
                   \/ (c <> 0x2D /\ combining c = 0
                       /\ isspace_cp c = false)) (_norm s)
  /\ (isspace_cp 0x20 = true ->
      join (lit " ") (split (_norm s)) = _norm s).
Proof.
  unfold _norm.
  set (u := unmark (nfkd (lower (strip s)))).
  set (t := replace 0x2D (lit " ") u).
  pose proof (split_from_words t [] (Forall_nil _)) as W. fold (split t) in W.
  assert (T : Forall (fun c => c = 0x20 \/ (c <> 0x2D /\ combining c = 0)) t).
  { unfold t, replace. apply (Forall_flat_map
                                 (fun c => combining c = 0)).
    - intros c Hc. destruct (Z.eqb_spec c 0x2D) as [->|N];
        constructor; auto.
    - apply Forall_forall. intros c Ic. unfold u, unmark in Ic.
      apply filter_In in Ic. apply Z.eqb_eq. exact (proj2 Ic). }
  split.
  - apply Forall_join; [constructor; [left; reflexivity | constructor]|].
    eapply Forall_impl; [|exact W]. intros x (_ & F & I).
    apply Forall_forall. intros c Ic.
    rewrite Forall_forall in F, T. cbn [app] in I.
    destruct (T c (I c Ic)) as [E | [N C]]; [left; exact E|].
    right. split; [exact N|]. split; [exact C | exact (F c Ic)].
  - intros B. rewrite split_join; [reflexivity | exact B |].
    eapply Forall_impl; [|exact W]. intros x (N & F & _). split; assumption.
Qed.

Lemma norm_key_shape_witness :
  @isspace_cp Latin1 0x20 = true
  /\ join (lit " ") (@split Latin1 (@_norm Latin1 (lit "  Mato-Grosso  do Sul ")))
     = @_norm Latin1 (lit "  Mato-Grosso  do Sul ").
Proof.
  split; [reflexivity|].
  exact (proj2 (norm_key_shape Latin1 (lit "  Mato-Grosso  do Sul ")) eq_refl).
Defined.

(** X14. A string made of white space only, the empty string included,
    has the empty key, in every runtime in which lower-casing and
    decomposing the empty string give the empty string (as in CPython). *)
Theorem norm_blank (RT : PyRuntime) (s : str) :
  lower [] = [] -> nfkd [] = [] -> all_space s -> _norm s = [].
Proof.
  intros Lo Nf H.
  assert (E : strip s = []).
  { unfold strip, rstrip.
    assert (B : lstrip s = []).
    { induction H as [|c s Hc _ IH]; [reflexivity|].
      cbn [lstrip]. rewrite Hc. exact IH. }
    rewrite B. reflexivity. }
  unfold _norm. rewrite E, Lo, Nf. reflexivity.
Qed.

Lemma norm_blank_witness :
  @lower Latin1 [] = [] /\ @nfkd Latin1 [] = []
  /\ @all_space Latin1 [0x20; 0x09; 0xA0]
  /\ @_norm Latin1 [0x20; 0x09; 0xA0] = [].
Proof.
  assert (H : @all_space Latin1 [0x20; 0x09; 0xA0]) by (repeat constructor).
  split; [reflexivity|]. split; [reflexivity|]. split; [exact H|].
  exact (norm_blank Latin1 [0x20; 0x09; 0xA0] eq_refl eq_refl H).
Defined.

(** ** White space around a numeric string *)

Section OuterSpace.
Context {RT : PyRuntime}.

Lemma lstrip_leading (ws s : str) :
  all_space ws -> lstrip (ws ++ s) = lstrip s.
Proof.
  intros H; induction H as [|c ws Hc _ IH]; [reflexivity|].
  cbn [app lstrip]. rewrite Hc. exact IH.
Qed.

Lemma lstrip_blank (ws : str) : all_space ws -> lstrip ws = [].
Proof.
  intros H. rewrite <- (app_nil_r ws). apply (lstrip_leading ws [] H).
Qed.

Lemma lstrip_app (s t : str) :
  lstrip (s ++ t) = match lstrip s with [] => lstrip t | _ => lstrip s ++ t end.
Proof.
  induction s as [|c s IH]; cbn [app lstrip].
  - destruct (lstrip t); reflexivity.
  - destruct (isspace_cp c); [exact IH | reflexivity].
Qed.

Lemma rstrip_trailing (s ws : str) :
  all_space ws -> rstrip (s ++ ws) = rstrip s.
Proof.
  intros H. unfold rstrip. rewrite rev_app_distr.
  rewrite (lstrip_leading (rev ws) (rev s)); [reflexivity|].
  apply Forall_rev, H.
Qed.

Lemma strip_outer (ws1 s ws2 : str) :
  all_space ws1 -> all_space ws2 -> strip (ws1 ++ s ++ ws2) = strip s.
Proof.
  intros H1 H2. unfold strip. rewrite (lstrip_leading ws1 _ H1), lstrip_app.
  destruct (lstrip s) as [|c t] eqn:E.
  - rewrite (lstrip_blank ws2 H2). reflexivity.
  - apply (rstrip_trailing (c :: t) ws2 H2).
Qed.

End OuterSpace.

(** X15. White space around a string does not change what the coercer
    returns for it, for every string, parseable or not, and every run of
    white-space characters of the runtime on either side. *)
Theorem as_float_outer_space (RT : PyRuntime) (ws1 s ws2 : str) :
  all_space ws1 -> all_space ws2 ->
  as_float (VStr (ws1 ++ s ++ ws2)) = as_float (VStr s).
Proof.
  intros H1 H2. unfold as_float, as_float_try.
  rewrite (strip_outer ws1 s ws2 H1 H2). reflexivity.
Qed.

Lemma as_float_outer_space_witness :
  @all_space Latin1 (lit "  ") /\ @all_space Latin1 [0x09; 0x0A]
  /\ @as_float Latin1 (VStr (lit "  " ++ lit "8,4%" ++ [0x09; 0x0A]))
     = Some (flt "8.4").
Proof.
  assert (H1 : @all_space Latin1 (lit "  ")) by (repeat constructor).
  assert (H2 : @all_space Latin1 [0x09; 0x0A]) by (repeat constructor).
  split; [exact H1|]. split; [exact H2|].
  rewrite (as_float_outer_space Latin1 _ (lit "8,4%") _ H1 H2).
  vm_compute. reflexivity.
Defined.

(** ** Baseline keys and the reverse table *)

Lemma reverse_lookup (RT : PyRuntime) (code name : str) :
  extends_Latin1 RT ->
  dict_get code UF_TO_STATE = Some name ->
  dict_get (_norm name) STATE_TO_UF = Some code.
Proof.
  intros E G. apply dict_get_In in G.
  assert (L : latin1_str name).
  { apply Forall_forall. intros c Ic.
    assert (F : forallb (fun kv => forallb latin1_cp (snd kv)) UF_TO_STATE
                = true) by (vm_compute; reflexivity).
    rewrite forallb_forall in F. specialize (F _ G). cbn [snd] in F.
    rewrite forallb_forall in F. exact (F c Ic). }
  rewrite (STATE_TO_UF_ext E), (norm_ext E name L).
  assert (F : forallb (fun e => match dict_get (@_norm Latin1 (snd e))
                                        (@STATE_TO_UF Latin1) with
                                | Some c => str_eqb c (fst e)
                                | None => false
                                end) UF_TO_STATE = true)
    by (vm_compute; reflexivity).
  rewrite forallb_forall in F. specialize (F _ G). cbn [fst snd] in F.
  destruct (dict_get _ _) as [c|]; [|discriminate].
  apply str_eqb_eq in F. subst c. reflexivity.
Qed.

(** X16. In every runtime whose character data agree with the Latin-1
    tables, each key of a mapping the baseline loader returns is a key of
    the reverse table, and the reverse table sends it to the code stored
    in the entry: whatever the baseline document, the join keys are among
    the 27 normalised names and identify the state's code. *)
Theorem baseline_keys_reverse (RT : PyRuntime) (fs : files)
  (bf : dict str BaselineRecord) :
  extends_Latin1 RT ->
  outcome (load_bf_totals_by_state_norm fs) = Ok bf ->
  forall key b, In (key, b) bf -> dict_get key STATE_TO_UF = Some (UF b).
Proof.
  intros E O key b I.
  destruct (baseline_entries RT fs bf O) as [_ F].
  rewrite Forall_forall in F. destruct (F _ I) as [G K].
  cbn [fst snd] in G, K. rewrite K. exact (reverse_lookup RT _ _ E G).
Qed.

Lemma baseline_keys_reverse_witness :
  let fs := only_bf (VList (VDict sao_paulo_row :: baseline_sample)) in
  exists bf,
    extends_Latin1 Latin1
    /\ outcome (@load_bf_totals_by_state_norm Latin1 fs) = Ok bf
    /\ In (lit "bahia", {| State := lit "Bahia"; UF := lit "BA";
                           bf_total := flt "100.0" |}) bf
    /\ dict_get (lit "bahia") (@STATE_TO_UF Latin1) = Some (lit "BA").
Proof.
  intros fs.
  destruct (outcome (@load_bf_totals_by_state_norm Latin1 fs)) as [bf|e] eqn:O;
    [|vm_compute in O; discriminate].
  exists bf. split; [exact Latin1_extends|]. split; [reflexivity|].
  assert (I : In (lit "bahia", {| State := lit "Bahia"; UF := lit "BA";
                                  bf_total := flt "100.0" |}) bf).
  { vm_compute in O. injection O as <-. vm_compute. auto. }
  split; [exact I|].
  exact (baseline_keys_reverse Latin1 fs bf Latin1_extends O _ _ I).
Defined.
